(** * Bangladesh trade simulation: the year-stepped scenario engine

    A shallow embedding of the model-update core of the repository
    (models/export_sector.py, models/structural_transformation.py,
    models/exchange_rate.py, models/geopolitical.py and
    simulation/simulation_engine.py) together with the properties the
    specification states about it.

    Conventions of the embedding.
    - Python [float] and [int] quantities are exact rationals ([Q]); the
      comparison operators are the exact ones and equalities between
      quantities are stated with [==].  The properties stated of them are
      orderings, bounds at values a float holds exactly and equations that
      repeat the operations of the code, which rounding to nearest keeps.
      Where a property depends on rounding, the computation is given on
      binary64 floats as well ([StructuralFloat]).
    - A draw from the process-global pseudo-random generator is an explicit
      argument of the function that performs it, in the order of the draws.
    - A Python exception is a [Raised] outcome that carries the state reached
      when it was thrown; a [dict] keyed by year or by address is a [gmap];
      a [dict] that the code iterates in insertion order is an association
      list. *)

From stdpp Require Import gmap strings pretty.
From Stdlib Require Import QArith Qabs Qround Qpower Lqa PrimFloat.

Set Warnings "-register-all".
Set Warnings "-inexact-float".
Local Open Scope Q_scope.

(** ** Python built-ins *)

Module Py.

(** [max(a, b)]: the first argument unless the second is greater. *)
Definition max (a b : Q) : Q := if Qlt_le_dec a b then b else a.

(** [min(a, b)]: the first argument unless the second is smaller. *)
Definition min (a b : Q) : Q := if Qlt_le_dec b a then b else a.

(** [sum(xs)]: left-to-right accumulation from [0]. *)
Definition sum (xs : list Q) : Q := fold_left Qplus xs 0.

(** [len(xs)] as a quantity. *)
Definition len {A} (xs : list A) : Q := inject_Z (Z.of_nat (length xs)).

(** [d.values()] and [d.get(k, default)] on an insertion-ordered dict. *)
Definition values {A} (d : list (string * A)) : list A := map snd d.

Fixpoint get {A} (d : list (string * A)) (k : string) (default : A) : A :=
  match d with
  | [] => default
  | (k', v) :: d' => if String.eqb k' k then v else get d' k default
  end.

(** The result of a call that may throw: either it returns, or it raises
    with the text of the exception; both carry the state reached. *)
Inductive outcome (S R : Type) : Type :=
| Returned (s : S) (r : R)
| Raised (s : S) (msg : string).
Arguments Returned {S R} s r.
Arguments Raised {S R} s msg.

(** [int(x)]: truncation towards zero. *)
Definition int (x : Q) : Z := if Qlt_le_dec x 0 then Qceiling x else Qfloor x.

(** [d[k] = v] on an insertion-ordered dict: an existing key keeps its
    place, a new key goes last. *)
Fixpoint setitem {K A} `{EqDecision K} (d : list (K * A)) (k : K) (v : A) : list (K * A) :=
  match d with
  | [] => [(k, v)]
  | (k', v') :: d' => if decide (k' = k) then (k, v) :: d' else (k', v') :: setitem d' k v
  end.

(** [k in d] and [del d[k]]. *)
Definition contains {K A} `{EqDecision K} (d : list (K * A)) (k : K) : bool :=
  existsb (fun kv => bool_decide (fst kv = k)) d.

Definition delitem {K A} `{EqDecision K} (d : list (K * A)) (k : K) : list (K * A) :=
  filter (fun kv => fst kv <> k) d.

(** [d.keys()]. *)
Definition keys {K A} (d : list (K * A)) : list K := map fst d.

(** [d[k]] where it is defined. *)
Fixpoint lookup {K A} `{EqDecision K} (d : list (K * A)) (k : K) : option A :=
  match d with
  | [] => None
  | (k', v) :: d' => if decide (k' = k) then Some v else lookup d' k
  end.

(** The clamp in the words of the specification: [x] brought into the
    interval from [lo] to [hi]. *)
Definition clamp (lo hi x : Q) : Q :=
  if Qlt_le_dec x lo then lo else if Qlt_le_dec hi x then hi else x.

End Py.

(** ** models/export_sector.py *)

Module ExportSector.

(** The attributes of an [ExportSectorModel] instance. *)
Record ExportSectorModel : Type := {
  sector_name : string;
  current_volume : Q;
  base_growth_rate : Q;
  global_market_share : Q;
  value_chain_position : string;
  competitiveness_factors : list (string * Q);
  tariff_exposure : Q;
  subsectors : list string;
  historical_volumes : gmap Z Q;
  historical_market_shares : gmap Z Q;
  historical_competitiveness : gmap Z Q
}.

(** [_calculate_overall_competitiveness]. *)
Definition calculate_overall_competitiveness (factors : list (string * Q)) : Q :=
  match factors with
  | [] => 0.5
  | _ => Py.sum (Py.values factors) / Py.len factors
  end.

(** [ExportSectorModel.__init__]. *)
Definition init (name : string) (volume growth share : Q) (position : string)
    (factors : list (string * Q)) (exposure : Q) (subs : list string)
    : ExportSectorModel :=
  {| sector_name := name;
     current_volume := volume;
     base_growth_rate := growth;
     global_market_share := share;
     value_chain_position := position;
     competitiveness_factors := factors;
     tariff_exposure := exposure;
     subsectors := subs;
     historical_volumes := {[ 0%Z := volume ]};
     historical_market_shares := {[ 0%Z := share ]};
     historical_competitiveness :=
       {[ 0%Z := calculate_overall_competitiveness factors ]} |}.

(** The dictionary [simulate_year] returns. *)
Record YearResult : Type := {
  r_sector_name : string;
  r_year_index : Z;
  export_volume : Q;
  growth_rate : Q;
  r_global_market_share : Q;
  competitiveness : Q;
  r_value_chain_position : string;
  tariff_impact : Q;
  r_exchange_rate_impact : Q;
  logistics_impact : Q;
  r_trade_policy_impact : Q;
  r_compliance_impact : Q;
  competitor_impact : Q;
  r_random_variation : Q
}.

(** The three look-ups of the previous year at the head of
    [simulate_year], each with its fall-back. *)
Definition prev_volume (self : ExportSectorModel) (year_index : Z) : Q :=
  default (current_volume self) (historical_volumes self !! (year_index - 1)%Z).

Definition prev_competitiveness (self : ExportSectorModel) (year_index : Z) : Q :=
  default (calculate_overall_competitiveness (competitiveness_factors self))
          (historical_competitiveness self !! (year_index - 1)%Z).

Definition prev_market_share (self : ExportSectorModel) (year_index : Z) : Q :=
  default (global_market_share self)
          (historical_market_shares self !! (year_index - 1)%Z).

(** The weighted sum of the competitiveness drivers. *)
Definition competitiveness_change
    (exchange_rate_impact logistics_performance trade_policy_impact
     compliance_impact digital_adoption : Q) : Q :=
  0.2 * exchange_rate_impact
  + 0.3 * (logistics_performance - 0.6)
  + 0.2 * trade_policy_impact
  + 0.1 * digital_adoption
  + -0.2 * compliance_impact.

Definition weighted_tariff_impact (self : ExportSectorModel)
    (tariff_changes : list (string * Q)) : Q :=
  match tariff_changes with
  | [] => 0
  | _ => - Py.sum (Py.values tariff_changes) / Py.len tariff_changes
           * tariff_exposure self
  end.

Definition competitor_impact_of (self : ExportSectorModel)
    (competitor_growth : list (string * Q)) : Q :=
  fold_left (fun acc cg => acc - (snd cg - base_growth_rate self) * 0.2)
            competitor_growth 0.

(** [ExportSectorModel.simulate_year].  [random_variation] is the value
    drawn by [np.random.normal(0, 0.02)]. *)
Definition simulate_year (self : ExportSectorModel) (year_index : Z)
    (global_demand_growth : Q) (tariff_changes : list (string * Q))
    (exchange_rate_impact logistics_performance trade_policy_impact
     compliance_impact digital_adoption : Q)
    (competitor_growth : list (string * Q)) (random_variation : Q)
    : ExportSectorModel * YearResult :=
  let prev_vol := prev_volume self year_index in
  let prev_comp := prev_competitiveness self year_index in
  let prev_share := prev_market_share self year_index in
  let adjusted_growth :=
    base_growth_rate self * (1 + 0.5 * (global_demand_growth - 0.03)) in
  let tariff := weighted_tariff_impact self tariff_changes in
  let change :=
    competitiveness_change exchange_rate_impact logistics_performance
      trade_policy_impact compliance_impact digital_adoption in
  let new_competitiveness := Py.max 0.1 (Py.min 1.0 (prev_comp + change * 0.1)) in
  let competitor := competitor_impact_of self competitor_growth in
  let effective_growth_rate :=
    adjusted_growth + tariff + (new_competitiveness - prev_comp) * 2
    + competitor + random_variation in
  let new_volume := prev_vol * (1 + effective_growth_rate) in
  let global_market_growth := global_demand_growth in
  let market_share_change := 0.2 * (effective_growth_rate - global_market_growth) in
  let new_market_share :=
    Py.max 0 (Py.min 1 (prev_share * (1 + market_share_change))) in
  ({| sector_name := sector_name self;
      current_volume := current_volume self;
      base_growth_rate := base_growth_rate self;
      global_market_share := global_market_share self;
      value_chain_position := value_chain_position self;
      competitiveness_factors := competitiveness_factors self;
      tariff_exposure := tariff_exposure self;
      subsectors := subsectors self;
      historical_volumes := <[ year_index := new_volume ]> (historical_volumes self);
      historical_market_shares :=
        <[ year_index := new_market_share ]> (historical_market_shares self);
      historical_competitiveness :=
        <[ year_index := new_competitiveness ]> (historical_competitiveness self) |},
   {| r_sector_name := sector_name self;
      r_year_index := year_index;
      export_volume := new_volume;
      growth_rate := effective_growth_rate;
      r_global_market_share := new_market_share;
      competitiveness := new_competitiveness;
      r_value_chain_position := value_chain_position self;
      tariff_impact := tariff;
      r_exchange_rate_impact := exchange_rate_impact;
      logistics_impact := logistics_performance - 0.6;
      r_trade_policy_impact := trade_policy_impact;
      r_compliance_impact := compliance_impact;
      competitor_impact := competitor;
      r_random_variation := random_variation |}).

(** The keyword arguments a caller can pass to [simulate_year]: the base
    method has no [**kwargs] of its own and no defaults, so the call
    [super().simulate_year(year_index, **kwargs)] of the specialised models
    returns only when [kwargs] holds exactly these eight names. *)
Record SectorInputs : Type := {
  global_demand_growth : Q;
  tariff_changes : list (string * Q);
  exchange_rate_impact : Q;
  logistics_performance : Q;
  trade_policy_impact : Q;
  compliance_impact : Q;
  digital_adoption : Q;
  competitor_growth : list (string * Q)
}.

Definition simulate_year_kw (self : ExportSectorModel) (year_index : Z)
    (kwargs : SectorInputs) (random_variation : Q) : ExportSectorModel * YearResult :=
  simulate_year self year_index (global_demand_growth kwargs) (tariff_changes kwargs)
    (exchange_rate_impact kwargs) (logistics_performance kwargs)
    (trade_policy_impact kwargs) (compliance_impact kwargs)
    (digital_adoption kwargs) (competitor_growth kwargs) random_variation.

(** The inputs the engine passes when no model result supplies another
    value: the fall-backs of the [.get] calls that build [sector_inputs]. *)
Definition default_inputs : SectorInputs :=
  {| global_demand_growth := 0.03;
     tariff_changes := [];
     exchange_rate_impact := 0;
     logistics_performance := 0.6;
     trade_policy_impact := 0;
     compliance_impact := 0;
     digital_adoption := 0.5;
     competitor_growth := [] |}.

(** [results['export_volume'] *= factor]. *)
Definition scale_export_volume (results : YearResult) (factor : Q) : YearResult :=
  {| r_sector_name := r_sector_name results;
     r_year_index := r_year_index results;
     export_volume := export_volume results * factor;
     growth_rate := growth_rate results;
     r_global_market_share := r_global_market_share results;
     competitiveness := competitiveness results;
     r_value_chain_position := r_value_chain_position results;
     tariff_impact := tariff_impact results;
     r_exchange_rate_impact := r_exchange_rate_impact results;
     logistics_impact := logistics_impact results;
     r_trade_policy_impact := r_trade_policy_impact results;
     r_compliance_impact := r_compliance_impact results;
     competitor_impact := competitor_impact results;
     r_random_variation := r_random_variation results |}.

(** *** RMGSectorModel *)

Record RMGSectorModel : Type := {
  rmg_base : ExportSectorModel;
  buyer_concentration : Q;
  fashion_responsiveness : Q;
  compliance_cost_structure : list (string * Q);
  backward_linkage_development : Q;
  foreign_ownership : Q
}.

Definition rmg_init (base : ExportSectorModel) : RMGSectorModel :=
  {| rmg_base := base;
     buyer_concentration := 0.7;
     fashion_responsiveness := 0.6;
     compliance_cost_structure :=
       [("labor"%string, 0.5); ("environmental"%string, 0.3); ("safety"%string, 0.4)];
     backward_linkage_development := 0.4;
     foreign_ownership := 0.3 |}.

Record RMGYearResult : Type := {
  rmg_results : YearResult;
  res_fashion_responsiveness : Q;
  res_backward_linkage_development : Q;
  res_buyer_concentration : Q
}.

Definition compliance_cost_impact (self : RMGSectorModel) : Q :=
  - (Py.sum (Py.values (compliance_cost_structure self))
     / Py.len (compliance_cost_structure self)) * 0.1.

(** The factor of [results['export_volume'] *= (1 + compliance_cost_impact)]. *)
Definition rmg_multiplier (self : RMGSectorModel) : Q :=
  1 + compliance_cost_impact self.

Definition rmg_simulate_year (self : RMGSectorModel) (year_index : Z)
    (kwargs : SectorInputs) (random_variation : Q)
    : RMGSectorModel * RMGYearResult :=
  let '(base, results) := simulate_year_kw (rmg_base self) year_index kwargs random_variation in
  let fashion := Py.min 0.9 (fashion_responsiveness self + 0.02) in
  let linkage := Py.min 0.8 (backward_linkage_development self + 0.015) in
  ({| rmg_base := base;
      buyer_concentration := buyer_concentration self;
      fashion_responsiveness := fashion;
      compliance_cost_structure := compliance_cost_structure self;
      backward_linkage_development := linkage;
      foreign_ownership := foreign_ownership self |},
   {| rmg_results := scale_export_volume results (rmg_multiplier self);
      res_fashion_responsiveness := fashion;
      res_backward_linkage_development := linkage;
      res_buyer_concentration := Py.max 0.5 (buyer_concentration self - 0.01) |}).

(** *** EmergingSectorModel *)

Record EmergingSectorModel : Type := {
  em_base : ExportSectorModel;
  niche_market_penetration : Q;
  product_quality_level : Q;
  knowledge_spillover_coefficient : Q;
  skill_premium : Q;
  patent_count : Z;
  global_reputation : Q
}.

Definition emerging_init (base : ExportSectorModel) : EmergingSectorModel :=
  {| em_base := base;
     niche_market_penetration := 0.3;
     product_quality_level := 0.6;
     knowledge_spillover_coefficient := 0.4;
     skill_premium := 0.2;
     patent_count := 5;
     global_reputation := 0.4 |}.

Record EmergingYearResult : Type := {
  em_results : YearResult;
  res_product_quality : Q;
  res_niche_market_penetration : Q;
  res_patent_count : Z;
  res_global_reputation : Q
}.

(** [kwargs.get('r_and_d_investment', 0.5)]: the name is not one the base
    method accepts, so past the [super()] call it is never in [kwargs]. *)
Definition r_and_d_investment : Q := 0.5.

Definition emerging_quality (self : EmergingSectorModel) : Q :=
  Py.min 0.95 (product_quality_level self + 0.03 * r_and_d_investment).

Definition emerging_reputation (self : EmergingSectorModel) : Q :=
  Py.min 0.9 (global_reputation self + 0.03 * emerging_quality self).

(** The factor of [results['export_volume'] *= premium_factor]. *)
Definition emerging_multiplier (self : EmergingSectorModel) : Q :=
  1 + emerging_reputation self * 0.2.

(** [new_patents] is the value drawn by [np.random.poisson]. *)
Definition emerging_simulate_year (self : EmergingSectorModel) (year_index : Z)
    (kwargs : SectorInputs) (random_variation : Q) (new_patents : Z)
    : EmergingSectorModel * EmergingYearResult :=
  let '(base, results) := simulate_year_kw (em_base self) year_index kwargs random_variation in
  let quality := emerging_quality self in
  let market_penetration_growth := 0.04 * quality in
  let penetration := Py.min 0.8 (niche_market_penetration self + market_penetration_growth) in
  let patents := (patent_count self + new_patents)%Z in
  let reputation := emerging_reputation self in
  ({| em_base := base;
      niche_market_penetration := penetration;
      product_quality_level := quality;
      knowledge_spillover_coefficient := knowledge_spillover_coefficient self;
      skill_premium := skill_premium self;
      patent_count := patents;
      global_reputation := reputation |},
   {| em_results := scale_export_volume results (emerging_multiplier self);
      res_product_quality := quality;
      res_niche_market_penetration := penetration;
      res_patent_count := patents;
      res_global_reputation := reputation |}).

(** *** TraditionalSectorModel *)

Record TraditionalSectorModel : Type := {
  tr_base : ExportSectorModel;
  commodity_price_sensitivity : Q;
  seasonal_volatility : Q;
  processing_technology_level : Q;
  certification_coverage : Q;
  specialty_market_share : Q;
  climate_vulnerability : Q
}.

Definition traditional_init (base : ExportSectorModel) : TraditionalSectorModel :=
  {| tr_base := base;
     commodity_price_sensitivity := 0.8;
     seasonal_volatility := 0.15;
     processing_technology_level := 0.4;
     certification_coverage := 0.2;
     specialty_market_share := 0.1;
     climate_vulnerability := 0.7 |}.

Record TraditionalYearResult : Type := {
  tr_results : YearResult;
  res_price_effect : Q;
  res_seasonal_effect : Q;
  res_climate_impact : Q;
  res_certification_premium : Q;
  res_processing_technology : Q;
  res_specialty_market_share : Q
}.

(** The defaults of [kwargs.get('technology_investment', 0.5)],
    [kwargs.get('sustainability_focus', 0.5)] and
    [kwargs.get('climate_severity', 0.5)], for the same reason. *)
Definition technology_investment : Q := 0.5.
Definition sustainability_focus : Q := 0.5.
Definition climate_severity : Q := 0.5.

Definition traditional_certification (self : TraditionalSectorModel) : Q :=
  Py.min 0.8 (certification_coverage self + 0.03 * sustainability_focus).

Definition traditional_climate_impact (self : TraditionalSectorModel) : Q :=
  -0.05 * climate_vulnerability self * climate_severity.

(** The factor of
    [results['export_volume'] *= (1 + combined_effect + certification_premium)];
    [price_draw] is the value of [np.random.normal(0, 0.1)] and
    [seasonal_effect] that of [np.random.uniform]. *)
Definition traditional_multiplier (self : TraditionalSectorModel)
    (price_draw seasonal_effect : Q) : Q :=
  let price_fluctuation := price_draw * commodity_price_sensitivity self in
  let combined_effect :=
    price_fluctuation + seasonal_effect + traditional_climate_impact self in
  let certification_premium := traditional_certification self * 0.3 in
  1 + combined_effect + certification_premium.

Definition traditional_simulate_year (self : TraditionalSectorModel) (year_index : Z)
    (kwargs : SectorInputs) (random_variation price_draw seasonal_effect : Q)
    : TraditionalSectorModel * TraditionalYearResult :=
  let '(base, results) := simulate_year_kw (tr_base self) year_index kwargs random_variation in
  let price_fluctuation := price_draw * commodity_price_sensitivity self in
  let technology :=
    Py.min 0.9 (processing_technology_level self + 0.02 * technology_investment) in
  let certification := traditional_certification self in
  let specialty := Py.min 0.6 (specialty_market_share self + 0.04 * certification) in
  ({| tr_base := base;
      commodity_price_sensitivity := commodity_price_sensitivity self;
      seasonal_volatility := seasonal_volatility self;
      processing_technology_level := technology;
      certification_coverage := certification;
      specialty_market_share := specialty;
      climate_vulnerability := climate_vulnerability self |},
   {| tr_results :=
        scale_export_volume results
          (traditional_multiplier self price_draw seasonal_effect);
      res_price_effect := price_fluctuation;
      res_seasonal_effect := seasonal_effect;
      res_climate_impact := traditional_climate_impact self;
      res_certification_premium := certification * 0.3;
      res_processing_technology := technology;
      res_specialty_market_share := specialty |}).

(** *** Consecutive years *)

(** The calls the engine makes for one sector in consecutive years, the
    year index counting up from [year_index]: each element of [years] holds
    the keyword arguments and the noise draw of one call. *)
Fixpoint simulate_years (self : ExportSectorModel) (year_index : Z)
    (years : list (SectorInputs * Q)) : ExportSectorModel * list YearResult :=
  match years with
  | [] => (self, [])
  | (kwargs, noise) :: rest =>
      let '(self', results) := simulate_year_kw self year_index kwargs noise in
      let '(self'', later) := simulate_years self' (year_index + 1) rest in
      (self'', results :: later)
  end.

Fixpoint rmg_simulate_years (self : RMGSectorModel) (year_index : Z)
    (years : list (SectorInputs * Q)) : RMGSectorModel * list RMGYearResult :=
  match years with
  | [] => (self, [])
  | (kwargs, noise) :: rest =>
      let '(self', results) := rmg_simulate_year self year_index kwargs noise in
      let '(self'', later) := rmg_simulate_years self' (year_index + 1) rest in
      (self'', results :: later)
  end.

End ExportSector.

(** ** models/structural_transformation.py *)

Module Structural.

(** One entry of [export_sectors]. *)
Record SectorData : Type := {
  value : Q;
  complexity : Q;
  value_chain_position : Q
}.

(** [yearly_metrics] and [export_sectors] of a
    [StructuralTransformationModel]. *)
Record StructuralTransformationModel : Type := {
  export_sectors : list (string * SectorData);
  export_diversity_hhi : list Q;
  export_diversity_sectors : list (list (string * Q));
  value_chain_position_by_year : gmap Z (list (string * Q));
  capability_index : Q;
  industrial_policy_effectiveness : Q
}.

(** The sector table [__init__] falls back to. *)
Definition default_export_sectors : list (string * SectorData) :=
  [ ("rmg"%string, {| value := 38.0; complexity := 0.3; value_chain_position := 0.25 |});
    ("leather"%string, {| value := 1.8; complexity := 0.4; value_chain_position := 0.3 |});
    ("jute"%string, {| value := 1.2; complexity := 0.2; value_chain_position := 0.4 |});
    ("frozen_food"%string, {| value := 0.7; complexity := 0.3; value_chain_position := 0.35 |});
    ("pharma"%string, {| value := 0.16; complexity := 0.7; value_chain_position := 0.45 |});
    ("it_services"%string, {| value := 1.3; complexity := 0.8; value_chain_position := 0.6 |});
    ("light_engineering"%string, {| value := 0.5; complexity := 0.5; value_chain_position := 0.4 |});
    ("agro_processing"%string, {| value := 0.8; complexity := 0.4; value_chain_position := 0.35 |});
    ("home_textiles"%string, {| value := 1.0; complexity := 0.35; value_chain_position := 0.3 |});
    ("shipbuilding"%string, {| value := 0.3; complexity := 0.6; value_chain_position := 0.5 |}) ].

Definition init (sectors : list (string * SectorData)) : StructuralTransformationModel :=
  {| export_sectors := sectors;
     export_diversity_hhi := [];
     export_diversity_sectors := [];
     value_chain_position_by_year := ∅;
     capability_index := 0.35;
     industrial_policy_effectiveness := 0.5 |}.

(** [{sector: data['value'] for sector, data in self.export_sectors.items()}]. *)
Definition export_values (sectors : list (string * SectorData)) : list (string * Q) :=
  map (fun sd => (fst sd, value (snd sd))) sectors.

(** The loop of [calculate_export_diversification]: [share = value /
    total_exports] throws [ZeroDivisionError] on a zero total, which ends
    the loop with [None]. *)
Fixpoint hhi_loop (values : list (string * Q)) (total_exports hhi : Q)
    (sector_shares : list (string * Q)) : option (Q * list (string * Q)) :=
  match values with
  | [] => Some (hhi, sector_shares)
  | (sector, v) :: rest =>
      if Qeq_bool total_exports 0 then None
      else
        let share := v / total_exports in
        hhi_loop rest total_exports (hhi + share ^ 2) (sector_shares ++ [(sector, share)])
  end.

(** [calculate_export_diversification]. *)
Definition calculate_export_diversification (self : StructuralTransformationModel)
    (year : Z) : Py.outcome StructuralTransformationModel Q :=
  let values := export_values (export_sectors self) in
  let total_exports := Py.sum (Py.values values) in
  match hhi_loop values total_exports 0 [] with
  | None => Py.Raised self "float division by zero"
  | Some (hhi, sector_shares) =>
      Py.Returned
        {| export_sectors := export_sectors self;
           export_diversity_hhi := export_diversity_hhi self ++ [hhi];
           export_diversity_sectors := export_diversity_sectors self ++ [sector_shares];
           value_chain_position_by_year := value_chain_position_by_year self;
           capability_index := capability_index self;
           industrial_policy_effectiveness := industrial_policy_effectiveness self |}
        hhi
  end.

(** The body of the loop of [simulate_value_chain_upgrading] for one
    sector; [random_effect] is the value of [random.uniform(-0.005, 0.015)]. *)
Definition upgrade_sector (capability : Q) (data : SectorData) (random_effect : Q)
    : SectorData :=
  let base_upgrade := 0.01 in
  let capability_effect := capability * 0.02 in
  let complexity_effect := complexity data * 0.01 in
  let total_upgrade := base_upgrade + capability_effect + complexity_effect + random_effect in
  let diminishing_factor := 1 - (value_chain_position data * 0.7) in
  let total_upgrade := total_upgrade * diminishing_factor in
  {| value := value data;
     complexity := complexity data;
     value_chain_position := Py.min 0.95 (value_chain_position data + total_upgrade) |}.

(** The loop over [self.export_sectors.items()]: the [i]-th sector uses the
    [i]-th draw. *)
Fixpoint upgrade_loop (capability : Q) (draw : nat -> Q) (i : nat)
    (sectors : list (string * SectorData)) : list (string * SectorData) :=
  match sectors with
  | [] => []
  | (sector, data) :: rest =>
      (sector, upgrade_sector capability data (draw i))
      :: upgrade_loop capability draw (S i) rest
  end.

Definition positions_of (sectors : list (string * SectorData)) : list (string * Q) :=
  map (fun sd => (fst sd, value_chain_position (snd sd))) sectors.

(** [simulate_value_chain_upgrading].  After the loop the summary divides by
    [len(value_chain_positions)], which throws on an empty sector table,
    the positions of the year already stored. *)
Definition simulate_value_chain_upgrading (self : StructuralTransformationModel)
    (year : Z) (draw : nat -> Q)
    : Py.outcome StructuralTransformationModel (list (string * Q)) :=
  let sectors := upgrade_loop (capability_index self) draw 0 (export_sectors self) in
  let value_chain_positions := positions_of sectors in
  let self' :=
    {| export_sectors := sectors;
       export_diversity_hhi := export_diversity_hhi self;
       export_diversity_sectors := export_diversity_sectors self;
       value_chain_position_by_year :=
         <[ year := value_chain_positions ]> (value_chain_position_by_year self);
       capability_index := capability_index self;
       industrial_policy_effectiveness := industrial_policy_effectiveness self |} in
  match value_chain_positions with
  | [] => Py.Raised self' "division by zero"
  | _ => Py.Returned self' value_chain_positions
  end.

(** The model a call leaves behind, whether it returned or raised. *)
Definition state_of {R} (o : Py.outcome StructuralTransformationModel R)
    : StructuralTransformationModel :=
  match o with
  | Py.Returned s _ => s
  | Py.Raised s _ => s
  end.

(** [{s: v*k for s, v in sectors}] on the sector values of a model. *)
Definition rescale (k : Q) (self : StructuralTransformationModel)
    : StructuralTransformationModel :=
  {| export_sectors :=
       map (fun sd => (fst sd,
                       {| value := value (snd sd) * k;
                          complexity := complexity (snd sd);
                          value_chain_position := value_chain_position (snd sd) |}))
           (export_sectors self);
     export_diversity_hhi := export_diversity_hhi self;
     export_diversity_sectors := export_diversity_sectors self;
     value_chain_position_by_year := value_chain_position_by_year self;
     capability_index := capability_index self;
     industrial_policy_effectiveness := industrial_policy_effectiveness self |}.


(** The total of the sector values, [sum(export_values.values())]. *)
Definition total_exports_of (self : StructuralTransformationModel) : Q :=
  Py.sum (Py.values (export_values (export_sectors self))).

(** The growth rate [simulate_with_synthetic_data] gives one sector;
    [random_effect] is the value of [random.uniform(-0.04, 0.08)]. *)
Definition synthetic_growth_rate (policy_effectiveness : Q) (data : SectorData)
    (random_effect : Q) : Q :=
  let base_growth := 0.05 in
  let capability_effect := complexity data * 0.05 in
  let vcp_effect := value_chain_position data * 0.04 in
  let growth_rate := base_growth + capability_effect + vcp_effect + random_effect in
  if Qlt_le_dec 0.6 policy_effectiveness then
    if Qlt_le_dec 0.5 (complexity data) then growth_rate + 0.03 else growth_rate
  else growth_rate.

(** [data['value'] *= (1 + growth_rate)]. *)
Definition grow_sector (policy_effectiveness : Q) (data : SectorData) (random_effect : Q)
    : SectorData :=
  {| value := value data * (1 + synthetic_growth_rate policy_effectiveness data random_effect);
     complexity := complexity data;
     value_chain_position := value_chain_position data |}.

(** The loop over [self.export_sectors.items()]: the [i]-th sector uses the
    [i]-th draw. *)
Fixpoint synthetic_loop (policy_effectiveness : Q) (draw : nat -> Q) (i : nat)
    (sectors : list (string * SectorData)) : list (string * SectorData) :=
  match sectors with
  | [] => []
  | (sector, data) :: rest =>
      (sector, grow_sector policy_effectiveness data (draw i))
      :: synthetic_loop policy_effectiveness draw (S i) rest
  end.

(** [simulate_with_synthetic_data]. *)
Definition simulate_with_synthetic_data (self : StructuralTransformationModel)
    (draw : nat -> Q) : StructuralTransformationModel :=
  {| export_sectors :=
       synthetic_loop (industrial_policy_effectiveness self) draw 0 (export_sectors self);
     export_diversity_hhi := export_diversity_hhi self;
     export_diversity_sectors := export_diversity_sectors self;
     value_chain_position_by_year := value_chain_position_by_year self;
     capability_index := capability_index self;
     industrial_policy_effectiveness := industrial_policy_effectiveness self |}.

(** [simulate_capability_development]; [random_effect] is the value of
    [random.uniform(-0.005, 0.01)].  The mean of the value chain positions
    divides by [len(vcp_values)], which throws on an empty sector table
    before anything is stored. *)
Definition simulate_capability_development (self : StructuralTransformationModel)
    (year : Z) (random_effect : Q) : Py.outcome StructuralTransformationModel Q :=
  let vcp_values := map (fun sd => value_chain_position (snd sd)) (export_sectors self) in
  match vcp_values with
  | [] => Py.Raised self "division by zero"
  | _ =>
      let base_development := 0.008 in
      let vcp_effect := (Py.sum vcp_values / Py.len vcp_values) * 0.01 in
      let policy_effect := industrial_policy_effectiveness self * 0.01 in
      let total_improvement := base_development + vcp_effect + policy_effect + random_effect in
      let current_capability := capability_index self in
      let diminishing_factor := 1 - (current_capability * 0.5) in
      let new_capability :=
        Py.min 0.95 (current_capability + (total_improvement * diminishing_factor)) in
      Py.Returned
        {| export_sectors := export_sectors self;
           export_diversity_hhi := export_diversity_hhi self;
           export_diversity_sectors := export_diversity_sectors self;
           value_chain_position_by_year := value_chain_position_by_year self;
           capability_index := new_capability;
           industrial_policy_effectiveness := industrial_policy_effectiveness self |}
        new_capability
  end.

(** [integrate_industrial_policy]; [sine] is the value of
    [np.sin((year - 2025) * 0.5)] and [random_effect] that of
    [random.uniform(-0.04, 0.04)]. *)
Definition integrate_industrial_policy (self : StructuralTransformationModel)
    (year : Z) (sine random_effect : Q) : StructuralTransformationModel * Q :=
  let base_improvement := 0.01 in
  let policy_cycle := 0.02 * sine in
  let total_change := base_improvement + policy_cycle + random_effect in
  let current_effectiveness := industrial_policy_effectiveness self in
  let new_effectiveness := Py.max 0.2 (Py.min 0.9 (current_effectiveness + total_change)) in
  ({| export_sectors := export_sectors self;
      export_diversity_hhi := export_diversity_hhi self;
      export_diversity_sectors := export_diversity_sectors self;
      value_chain_position_by_year := value_chain_position_by_year self;
      capability_index := capability_index self;
      industrial_policy_effectiveness := new_effectiveness |},
   new_effectiveness).

(** The dictionary [simulate_step] returns. *)
Record StepResult : Type := {
  step_export_diversity_hhi : Q;
  step_export_sectors : list (string * Q);
  step_value_chain_position : list (string * Q);
  step_capability_index : Q;
  step_industrial_policy_effectiveness : Q
}.

(** The values one step draws, in the order of the calls. *)
Record StepDraws : Type := {
  growth_draw : nat -> Q;
  upgrade_draw : nat -> Q;
  capability_draw : Q;
  policy_sine : Q;
  policy_draw : Q
}.

(** [simulate_step] where no trade data is at hand for the year, so that
    the sector values come from [simulate_with_synthetic_data]; the four
    metrics follow in the order of the source, and the first call that
    throws ends the step. *)
Definition simulate_step (self : StructuralTransformationModel) (year : Z)
    (draws : StepDraws) : Py.outcome StructuralTransformationModel StepResult :=
  let self := simulate_with_synthetic_data self (growth_draw draws) in
  match calculate_export_diversification self year with
  | Py.Raised self msg => Py.Raised self msg
  | Py.Returned self diversity_hhi =>
      match simulate_value_chain_upgrading self year (upgrade_draw draws) with
      | Py.Raised self msg => Py.Raised self msg
      | Py.Returned self value_chain_metrics =>
          match simulate_capability_development self year (capability_draw draws) with
          | Py.Raised self msg => Py.Raised self msg
          | Py.Returned self capability_metrics =>
              let '(self, policy_metrics) :=
                integrate_industrial_policy self year (policy_sine draws) (policy_draw draws) in
              Py.Returned self
                {| step_export_diversity_hhi := diversity_hhi;
                   step_export_sectors := export_values (export_sectors self);
                   step_value_chain_position := value_chain_metrics;
                   step_capability_index := capability_metrics;
                   step_industrial_policy_effectiveness := policy_metrics |}
          end
      end
  end.

End Structural.

(** ** models/structural_transformation.py on binary64 *)

Module StructuralFloat.

(** [calculate_export_diversification] on the numbers the interpreter
    computes with: binary64 floats, every operation rounded to nearest.
    [sum] adds the values from left to right, [share ** 2] is the rounded
    square of the share, and a zero total throws [ZeroDivisionError], which
    is [None] here. *)
Definition total_exports (export_values : list (string * float)) : float :=
  fold_left (fun acc sv => (acc + snd sv)%float) export_values 0%float.

Fixpoint hhi_loop (values : list (string * float)) (total_exports hhi : float)
    (sector_shares : list (string * float)) : option (float * list (string * float)) :=
  match values with
  | [] => Some (hhi, sector_shares)
  | (sector, v) :: rest =>
      if PrimFloat.eqb total_exports 0%float then None
      else
        let share := (v / total_exports)%float in
        hhi_loop rest total_exports (hhi + share * share)%float
                 (sector_shares ++ [(sector, share)])
  end.

Definition calculate_export_diversification (export_values : list (string * float))
    : option float :=
  fst <$> hhi_loop export_values (total_exports export_values) 0%float [].

(** [{s: v*k for s, v in sectors.items()}]. *)
Definition rescale (k : float) (export_values : list (string * float))
    : list (string * float) :=
  map (fun sv => (fst sv, (snd sv * k)%float)) export_values.

End StructuralFloat.

(** ** models/exchange_rate.py *)

Module ExchangeRate.

(** The dictionary [simulate_exchange_rate] returns. *)
Record Results : Type := {
  year_index : Z;
  exchange_rate : Q;
  r_real_effective_rate : Q;
  depreciation_rate : Q;
  potential_depreciation : Q;
  r_foreign_reserves : Q;
  reserve_months : Q;
  r_trade_balance : Q;
  r_current_account_balance : Q;
  capital_account_balance : Q;
  overall_balance : Q;
  intervention_cost : Q;
  export_impact : Q;
  import_impact : Q;
  remittance_impact : Q;
  market_volatility : Q;
  exchange_rate_pressure : Q
}.

(** The attributes of an [ExchangeRateModel] instance. *)
Record ExchangeRateModel : Type := {
  initial_rate : Q;
  annual_depreciation : Q;
  volatility : Q;
  intervention_threshold : Q;
  intervention_strength : Q;
  remittance_sensitivity : Q;
  export_elasticity : Q;
  import_elasticity : Q;
  current_rate : Q;
  real_effective_rate : Q;
  foreign_reserves : Q;
  trade_balance : Q;
  current_account_balance : Q;
  historical_rates : gmap Z Q;
  historical_impacts : gmap Z Results
}.

(** [ExchangeRateModel.__init__]. *)
Definition init (config : list (string * Q)) : ExchangeRateModel :=
  let rate := Py.get config "initial_rate" 110.0 in
  {| initial_rate := rate;
     annual_depreciation := Py.get config "annual_depreciation" 0.03;
     volatility := Py.get config "volatility" 0.05;
     intervention_threshold := Py.get config "intervention_threshold" 0.08;
     intervention_strength := Py.get config "intervention_strength" 0.6;
     remittance_sensitivity := Py.get config "remittance_sensitivity" 0.4;
     export_elasticity := Py.get config "export_elasticity" 0.7;
     import_elasticity := Py.get config "import_elasticity" 0.6;
     current_rate := rate;
     real_effective_rate := 1.0;
     foreign_reserves := 35000;
     trade_balance := 0;
     current_account_balance := 0;
     historical_rates := {[ 0%Z := rate ]};
     historical_impacts := ∅ |}.

(** [self.foreign_reserves = r]. *)
Definition set_foreign_reserves (self : ExchangeRateModel) (r : Q) : ExchangeRateModel :=
  {| initial_rate := initial_rate self;
     annual_depreciation := annual_depreciation self;
     volatility := volatility self;
     intervention_threshold := intervention_threshold self;
     intervention_strength := intervention_strength self;
     remittance_sensitivity := remittance_sensitivity self;
     export_elasticity := export_elasticity self;
     import_elasticity := import_elasticity self;
     current_rate := current_rate self;
     real_effective_rate := real_effective_rate self;
     foreign_reserves := r;
     trade_balance := trade_balance self;
     current_account_balance := current_account_balance self;
     historical_rates := historical_rates self;
     historical_impacts := historical_impacts self |}.

(** The balance-of-payments aggregates at the head of the method. *)
Definition overall_balance_of (balance_of_payments : list (string * Q)) : Q :=
  let exports := Py.get balance_of_payments "exports" 0 in
  let imports := Py.get balance_of_payments "imports" 0 in
  let remittances := Py.get balance_of_payments "remittances" 0 in
  let fdi := Py.get balance_of_payments "fdi" 0 in
  let aid_loans := Py.get balance_of_payments "aid_loans" 0 in
  let profit_repatriation := Py.get balance_of_payments "profit_repatriation" 0 in
  let other_outflows := Py.get balance_of_payments "other_outflows" 0 in
  let trade_balance := exports - imports in
  let current_account_balance := trade_balance + remittances - profit_repatriation in
  let capital_account_balance := fdi + aid_loans - other_outflows in
  current_account_balance + capital_account_balance.

(** [simulate_exchange_rate].  [market_volatility] is the value drawn by
    [np.random.normal(0, self.volatility)].  The method throws where it
    divides [overall_balance] by [imports] when [imports] is zero, the
    reserves already updated, and where NumPy rejects a negative scale. *)
Definition simulate_exchange_rate (self : ExchangeRateModel) (yi : Z)
    (balance_of_payments central_bank_policy global_conditions : list (string * Q))
    (market_volatility : Q) : Py.outcome ExchangeRateModel Results :=
  let exports := Py.get balance_of_payments "exports" 0 in
  let imports := Py.get balance_of_payments "imports" 0 in
  let remittances := Py.get balance_of_payments "remittances" 0 in
  let fdi := Py.get balance_of_payments "fdi" 0 in
  let aid_loans := Py.get balance_of_payments "aid_loans" 0 in
  let profit_repatriation := Py.get balance_of_payments "profit_repatriation" 0 in
  let other_outflows := Py.get balance_of_payments "other_outflows" 0 in
  let trade_balance' := exports - imports in
  let current_account_balance' := trade_balance' + remittances - profit_repatriation in
  let capital_account_balance' := fdi + aid_loans - other_outflows in
  let overall_balance' := current_account_balance' + capital_account_balance' in
  let reserves := foreign_reserves self + overall_balance' in
  let self1 := set_foreign_reserves self reserves in
  let monthly_imports := imports / 12 in
  let reserve_months' :=
    if Qlt_le_dec 0 monthly_imports then reserves / monthly_imports else 12 in
  let reserve_pressure :=
    if Qlt_le_dec reserve_months' 6
    then Py.max 0 (Py.min 1 ((3 - reserve_months') / 3)) else 0 in
  if Qeq_bool imports 0 then Py.Raised self1 "float division by zero"
  else
    let base_pressure :=
      -0.3 * (overall_balance' / imports)
      + 0.2 * Py.get global_conditions "dollar_index" 1.0
      + -0.1 * Py.get global_conditions "global_risk_appetite" 0.5
      + 0.15 * Py.get global_conditions "regional_currency_trends" 0
      + 0.25 * Py.get global_conditions "oil_price_change" 0
      + 0.2 * reserve_pressure in
    if Qlt_le_dec (volatility self) 0 then Py.Raised self1 "scale < 0"
    else
      let total_pressure := base_pressure + market_volatility in
      let potential := annual_depreciation self + total_pressure * 0.1 in
      let intervention_stance := Py.get central_bank_policy "intervention_stance" 0.5 in
      let threshold := intervention_threshold self in
      let intervenes :=
        if Qlt_le_dec threshold (Qabs potential)
        then (if Qlt_le_dec 0.3 intervention_stance then true else false)
        else false in
      let intervention_effectiveness :=
        Py.min (intervention_strength self * intervention_stance) 0.8 in
      let actual :=
        if intervenes then potential * (1 - intervention_effectiveness) else potential in
      let cost :=
        if intervenes then Qabs (potential - actual) * imports * 0.5 else 0 in
      let reserves' := if intervenes then reserves - cost else reserves in
      let rate := current_rate self * (1 + actual) in
      let inflation_differential := 0.02 in
      let reer := real_effective_rate self * (1 + actual - inflation_differential) in
      let results :=
        {| year_index := yi;
           exchange_rate := rate;
           r_real_effective_rate := reer;
           depreciation_rate := actual;
           potential_depreciation := potential;
           r_foreign_reserves := reserves';
           reserve_months := reserve_months';
           r_trade_balance := trade_balance';
           r_current_account_balance := current_account_balance';
           capital_account_balance := capital_account_balance';
           overall_balance := overall_balance';
           intervention_cost := cost;
           export_impact := export_elasticity self * actual;
           import_impact := - import_elasticity self * actual;
           remittance_impact := remittance_sensitivity self * actual;
           market_volatility := market_volatility;
           exchange_rate_pressure := base_pressure |} in
      Py.Returned
        {| initial_rate := initial_rate self;
           annual_depreciation := annual_depreciation self;
           volatility := volatility self;
           intervention_threshold := intervention_threshold self;
           intervention_strength := intervention_strength self;
           remittance_sensitivity := remittance_sensitivity self;
           export_elasticity := export_elasticity self;
           import_elasticity := import_elasticity self;
           current_rate := rate;
           real_effective_rate := reer;
           foreign_reserves := reserves';
           trade_balance := trade_balance self;
           current_account_balance := current_account_balance self;
           historical_rates := <[ yi := rate ]> (historical_rates self);
           historical_impacts := <[ yi := results ]> (historical_impacts self) |}
        results.

End ExchangeRate.

(** ** JSON documents and [json.dump(..., indent=2)] *)

Module Json.

(** The values a result dictionary holds. *)
Inductive value : Type :=
| VNone
| VBool (b : bool)
| VNum (q : Q)
| VStr (s : string)
| VList (l : list value)
| VDict (d : list (string * value)).

Definition dict : Type := list (string * value).

(** [{'error': str(e)}]. *)
Definition error_entry (msg : string) : value := VDict [("error"%string, VStr msg)].

(** The number a value stands for in arithmetic, if it is one ([bool] is a
    number in Python). *)
Definition as_number (v : value) : option Q :=
  match v with
  | VNum q => Some q
  | VBool true => Some 1
  | VBool false => Some 0
  | _ => None
  end.

Definition quote_char : Ascii.ascii := Ascii.ascii_of_nat 34.
Definition backslash_char : Ascii.ascii := Ascii.ascii_of_nat 92.
Definition newline_char : Ascii.ascii := Ascii.ascii_of_nat 10.

(** [json.dump] with [ensure_ascii], the default: of the characters of a
    string (code points below U+0100 here) everything but the printable
    ASCII characters, and among these the quotation mark and the reverse
    solidus, is escaped. *)
Definition hex_digit (n : N) : Ascii.ascii :=
  Ascii.ascii_of_N (if (n <? 10)%N then 48 + n else 87 + n).

(** ['\\u{0:04x}'.format(n)]. *)
Definition unicode_escape (n : N) : string :=
  String backslash_char
    ("u00" +:+ String (hex_digit (n / 16)) (String (hex_digit (n mod 16)) EmptyString)).

Definition escape_char (c : Ascii.ascii) : string :=
  let n := Ascii.N_of_ascii c in
  if Ascii.eqb c quote_char then String backslash_char (String quote_char EmptyString)
  else if Ascii.eqb c backslash_char
       then String backslash_char (String backslash_char EmptyString)
  else if (n =? 8)%N then String backslash_char "b"
  else if (n =? 12)%N then String backslash_char "f"
  else if (n =? 10)%N then String backslash_char "n"
  else if (n =? 13)%N then String backslash_char "r"
  else if (n =? 9)%N then String backslash_char "t"
  else if (n <? 32)%N || (126 <? n)%N then unicode_escape n
  else String c EmptyString.

Fixpoint escape (s : string) : string :=
  match s with
  | EmptyString => EmptyString
  | String c rest => escape_char c +:+ escape rest
  end.

Definition json_string (s : string) : string :=
  String quote_char (escape s +:+ String quote_char EmptyString).

Definition join (sep : string) (items : list string) : string :=
  match items with
  | [] => EmptyString
  | x :: rest => fold_left (fun acc y => acc +:+ sep +:+ y) rest x
  end.

Fixpoint spaces (n : nat) : string :=
  match n with
  | O => EmptyString
  | S k => " " +:+ spaces k
  end.

(** The line break and indentation before an item at a nesting level. *)
Definition newline_indent (level : nat) : string :=
  String newline_char (spaces (2 * level)).

Section Encoder.

(** The text of a number, [float.__repr__] or [int.__repr__]. *)
Variable repr_num : Q -> string.

(** The encoder at a nesting level. *)
Fixpoint dumps (level : nat) (v : value) {struct v} : string :=
  match v with
  | VNone => "null"
  | VBool true => "true"
  | VBool false => "false"
  | VNum q => repr_num q
  | VStr s => json_string s
  | VList [] => "[]"
  | VList l =>
      "[" +:+ newline_indent (S level)
      +:+ join ("," +:+ newline_indent (S level)) (map (dumps (S level)) l)
      +:+ newline_indent level +:+ "]"
  | VDict [] => "{}"
  | VDict d =>
      "{" +:+ newline_indent (S level)
      +:+ join ("," +:+ newline_indent (S level))
            (map (fun kv => json_string (fst kv) +:+ ": " +:+ dumps (S level) (snd kv)) d)
      +:+ newline_indent level +:+ "}"
  end.

End Encoder.

End Json.

(** ** The wall clock *)

Module Clock.

(** A reading of [datetime.now()]. *)
Record datetime : Type := {
  year : N;
  month : N;
  day : N;
  hour : N;
  minute : N;
  second : N
}.

(** Two decimal digits, zero padded. *)
Definition pad2 (n : N) : string :=
  if (n <? 10)%N then "0" +:+ pretty n else pretty n.

(** [strftime("%Y-%m-%d %H:%M:%S")] for a four-digit year. *)
Definition strftime (t : datetime) : string :=
  pretty (year t) +:+ "-" +:+ pad2 (month t) +:+ "-" +:+ pad2 (day t)
  +:+ " " +:+ pad2 (hour t) +:+ ":" +:+ pad2 (minute t) +:+ ":" +:+ pad2 (second t).

End Clock.

(** ** models/geopolitical.py: [TradeWarImpactsModel]

    The per-conflict dictionaries of [active_trade_wars] are objects the
    model keeps and updates in place, so they live in a store and the model
    and its results hold their addresses. *)

Module TradeWars.

(** One per-conflict dictionary. *)
Record War : Type := {
  started_year : Z;
  intensity : Q;
  duration_years : Z
}.

(** The store of per-conflict dictionaries. *)
Record Heap : Type := {
  objects : gmap nat War;
  next : nat
}.

Definition alloc (h : Heap) (w : War) : nat * Heap :=
  (next h, {| objects := <[ next h := w ]> (objects h); next := S (next h) |}).

Definition store (h : Heap) (l : nat) (w : War) : Heap :=
  {| objects := <[ l := w ]> (objects h); next := next h |}.

(** The generator behind [np.random]: the sequence of its values and the
    number of values drawn so far. *)
Record Rng : Type := {
  draws : nat -> Q;
  position : nat
}.

Definition next_draw (g : Rng) : Q * Rng :=
  (draws g (position g), {| draws := draws g; position := S (position g) |}).

(** The dictionary [simulate_trade_wars] returns.  [active_trade_wars] is
    [self.active_trade_wars.copy()], a new dictionary of the same
    per-conflict objects; [new_trade_wars] holds copies of the objects. *)
Record Results : Type := {
  year_index : Z;
  simulation_year : Z;
  trade_war_probability : Q;
  active_trade_wars : list (string * nat);
  new_trade_wars : list (string * War);
  ended_trade_wars : list string;
  order_diversion_potential : list (string * Q);
  r_market_diversification : Q;
  r_secondary_sanction_exposure : Q;
  tariff_escalation : Q;
  order_diversion_opportunities : list (string * Q);
  sanction_risk : Q;
  opportunity_score : Q;
  vulnerability_score : Q
}.

(** The attributes of a [TradeWarImpactsModel] instance. *)
Record TradeWarImpactsModel : Type := {
  initial_probability : Q;
  annual_change : Q;
  current_probability : Q;
  model_active_trade_wars : list (string * nat);
  order_diversion : list (string * Q);
  market_diversification : Q;
  secondary_sanction_exposure : Q;
  historical_impacts : gmap Z Results
}.

(** The part of the interpreter state the method acts on. *)
Record State : Type := {
  heap : Heap;
  rng : Rng;
  model : TradeWarImpactsModel
}.

(** [TradeWarImpactsModel.__init__]. *)
Definition init (config : list (string * Q)) : TradeWarImpactsModel :=
  let initial := Py.get config "initial" 0.3 in
  {| initial_probability := initial;
     annual_change := Py.get config "annual_change" (-0.01);
     current_probability := initial;
     model_active_trade_wars := [];
     order_diversion :=
       [ ("rmg"%string, 0.6); ("footwear"%string, 0.5);
         ("light_manufacturing"%string, 0.4); ("electronics"%string, 0.3);
         ("other"%string, 0.2) ];
     market_diversification := 0.4;
     secondary_sanction_exposure := 0.3;
     historical_impacts := ∅ |}.

Definition potential_conflicts : list (string * string * Q) :=
  [ ("us"%string, "china"%string, 0.7);
    ("us"%string, "eu"%string, 0.5);
    ("china"%string, "india"%string, 0.6);
    ("china"%string, "vietnam"%string, 0.4) ].

(** The body of the loop over [potential_conflicts]. *)
Definition start_step (simulation_year : Z) (probability : Q)
    (acc : Heap * Rng * list (string * nat) * list (string * War))
    (conflict : string * string * Q)
    : Heap * Rng * list (string * nat) * list (string * War) :=
  let '(h, g, active, new_wars) := acc in
  let '(country_a, country_b, base_intensity) := conflict in
  let conflict_id := country_a +:+ "_" +:+ country_b in
  let reverse_id := country_b +:+ "_" +:+ country_a in
  if Py.contains active conflict_id || Py.contains active reverse_id then acc
  else
    let adjusted_probability :=
      if String.eqb country_a "us" && String.eqb country_b "china"
      then probability * 1.5 else probability in
    let '(u1, g1) := next_draw g in
    if Qlt_le_dec u1 adjusted_probability then
      let '(u2, g2) := next_draw g1 in
      let actual_intensity := base_intensity * (0.8 + 0.4 * u2) in
      let '(u3, g3) := next_draw g2 in
      let war :=
        {| started_year := simulation_year;
           intensity := actual_intensity;
           duration_years := Py.int (2 + 3 * u3) |} in
      let '(l, h') := alloc h war in
      (h', g3, Py.setitem active conflict_id l, Py.setitem new_wars conflict_id war)
    else (h, g1, active, new_wars).

(** The body of the loop over [self.active_trade_wars.items()]:
    [details['intensity'] = ...] writes into the stored object. *)
Definition update_step (simulation_year : Z) (acc : Heap * Rng * list string)
    (entry : string * nat) : Heap * Rng * list string :=
  let '(h, g, ended) := acc in
  match objects h !! snd entry with
  | None => acc
  | Some details =>
      let years_active := (simulation_year - started_year details)%Z in
      if (duration_years details <=? years_active)%Z then (h, g, ended ++ [fst entry])
      else
        let '(intensity_change, g') := next_draw g in
        (store h (snd entry)
           {| started_year := started_year details;
              intensity := Py.max 0.1 (Py.min 0.9 (intensity details + intensity_change));
              duration_years := duration_years details |},
         g', ended)
  end.

(** The body of the loop over [self.order_diversion]. *)
Definition diversion_step (acc : Rng * list (string * Q)) (entry : string * Q)
    : Rng * list (string * Q) :=
  let '(g, done) := acc in
  let '(u, g') := next_draw g in
  let improvement := 0.02 * u in
  (g', done ++ [(fst entry, Py.min 0.9 (snd entry + improvement))]).

(** [war['intensity'] for war in self.active_trade_wars.values()]. *)
Definition intensities (h : Heap) (active : list (string * nat)) : list Q :=
  omap (fun entry => intensity <$> objects h !! snd entry) active.

(** [TradeWarImpactsModel.simulate_trade_wars]. *)
Definition simulate_trade_wars (st : State) (yi sim_year : Z)
    (tension_level regional_cooperation : Q) : Py.outcome State Results :=
  let self := model st in
  let probability_change := annual_change self + (tension_level - 0.5) * 0.1 in
  let probability :=
    Py.max 0.05 (Py.min 0.8 (current_probability self + probability_change)) in
  let '(h1, g1, active1, new_wars) :=
    fold_left (start_step sim_year probability) potential_conflicts
              (heap st, rng st, model_active_trade_wars self, []) in
  let '(h2, g2, ended) :=
    fold_left (update_step sim_year) active1 (h1, g1, []) in
  let active2 := fold_left Py.delitem ended active1 in
  let '(g3, diversion) := fold_left diversion_step (order_diversion self) (g2, []) in
  let diversification_change := 0.02 * regional_cooperation - 0.01 * tension_level in
  let diversification :=
    Py.max 0.3 (Py.min 0.9 (market_diversification self + diversification_change)) in
  let sanction_exposure_change := 0.01 * tension_level - 0.02 * diversification in
  let exposure :=
    Py.max 0.1 (Py.min 0.7 (secondary_sanction_exposure self + sanction_exposure_change)) in
  let active_wars_intensity := Py.sum (intensities h2 active2) in
  let escalation :=
    match active2 with
    | [] => 0
    | _ => 0.1 * active_wars_intensity
    end in
  let opportunities :=
    map (fun entry => (fst entry, snd entry * active_wars_intensity * 0.5)) diversion in
  let updated history :=
    {| heap := h2;
       rng := g3;
       model :=
         {| initial_probability := initial_probability self;
            annual_change := annual_change self;
            current_probability := probability;
            model_active_trade_wars := active2;
            order_diversion := diversion;
            market_diversification := diversification;
            secondary_sanction_exposure := exposure;
            historical_impacts := history |} |} in
  match opportunities with
  | [] => Py.Raised (updated (historical_impacts self)) "division by zero"
  | _ =>
      let weighted_opportunity := Py.sum (Py.values opportunities) / Py.len opportunities in
      let risk := exposure * active_wars_intensity * 0.3 in
      let results :=
        {| year_index := yi;
           simulation_year := sim_year;
           trade_war_probability := probability;
           active_trade_wars := active2;
           new_trade_wars := new_wars;
           ended_trade_wars := ended;
           order_diversion_potential := diversion;
           r_market_diversification := diversification;
           r_secondary_sanction_exposure := exposure;
           tariff_escalation := escalation;
           order_diversion_opportunities := opportunities;
           sanction_risk := risk;
           opportunity_score := weighted_opportunity * 0.7 - risk * 0.3;
           vulnerability_score :=
             (1 - diversification) * 0.5 + exposure * 0.3 + escalation * 0.2 |} in
      Py.Returned (updated (<[ yi := results ]> (historical_impacts self))) results
  end.

(** What a reader of a result dictionary finds under
    ['active_trade_wars'] when the store is [h]: the per-conflict objects
    as they are at that moment. *)
Definition read_active_trade_wars (h : Heap) (r : Results) : list (string * option War) :=
  map (fun entry => (fst entry, objects h !! snd entry)) (active_trade_wars r).

Definition state_of {R} (o : Py.outcome State R) : State :=
  match o with
  | Py.Returned s _ => s
  | Py.Raised s _ => s
  end.

Definition result_of {R} (o : Py.outcome State R) : option R :=
  match o with
  | Py.Returned _ r => Some r
  | Py.Raised _ _ => None
  end.

End TradeWars.

(** ** simulation/simulation_engine.py *)

Module Engine.

Import Json.

(** What the engine stores for one guarded call: the dictionary the model
    returned, kept by reference, or the marker [{'error': str(e)}]. *)
Inductive entry (R : Type) : Type :=
| Obj (r : R)
| Error (msg : string).
Arguments Obj {R} r.
Arguments Error {R} msg.

(** The keys under which guarded calls are recorded: the ten models, the
    export sectors under [export.sector_details] and the import categories
    under [import.category_details]. *)
Inductive key : Type :=
| ModelKey (name : string)
| SectorKey (name : string)
| CategoryKey (name : string).

#[global] Instance key_eq_dec : EqDecision key.
Proof. solve_decision. Defined.

Record ExportSummary (R : Type) : Type := {
  total_exports : Q;
  sector_details : list (string * entry R)
}.
Arguments total_exports {R} _.
Arguments sector_details {R} _.

Record ImportSummary (R : Type) : Type := {
  total_imports : Q;
  category_details : list (string * entry R)
}.
Arguments total_imports {R} _.
Arguments category_details {R} _.

Record AggregateMetrics : Type := {
  trade_balance : Q;
  trade_openness : Q;
  export_to_gdp : Q;
  import_to_gdp : Q
}.

(** [year_results], one field per key, in the order the keys are set. *)
Record YearResults (R : Type) : Type := {
  global_market : entry R;
  geopolitical : entry R;
  investment : entry R;
  trade_policy : entry R;
  logistics : entry R;
  exchange_rate : entry R;
  compliance : entry R;
  structural_transformation : entry R;
  digital_trade : entry R;
  services_trade : entry R;
  export : ExportSummary R;
  import : ImportSummary R;
  aggregate_metrics : AggregateMetrics
}.
Arguments global_market {R} _.
Arguments geopolitical {R} _.
Arguments investment {R} _.
Arguments trade_policy {R} _.
Arguments logistics {R} _.
Arguments exchange_rate {R} _.
Arguments compliance {R} _.
Arguments structural_transformation {R} _.
Arguments digital_trade {R} _.
Arguments services_trade {R} _.
Arguments export {R} _.
Arguments import {R} _.
Arguments aggregate_metrics {R} _.

(** [self.results['metadata']]. *)
Record Metadata : Type := {
  md_scenario : string;
  md_start_year : Z;
  md_end_year : Z;
  md_timestamp : string
}.

(** The attributes of a [TradeSimulationEngine]; the model objects
    themselves live in the interpreter state, [export_models] and
    [import_models] are the keys of the two dictionaries of that name. *)
Record TradeSimulationEngine (R : Type) : Type := {
  config : dict;
  start_year : Z;
  end_year : Z;
  scenario : string;
  current_year : Z;
  export_models : list string;
  import_models : list string;
  metadata : Metadata;
  yearly_data : list (Z * YearResults R)
}.
Arguments config {R} _.
Arguments start_year {R} _.
Arguments end_year {R} _.
Arguments scenario {R} _.
Arguments current_year {R} _.
Arguments export_models {R} _.
Arguments import_models {R} _.
Arguments metadata {R} _.
Arguments yearly_data {R} _.

(** The interpreter state a year of simulation acts on: the model objects
    and the generators ([world]), and the record of the guarded calls made
    so far with what each left in the results ([calls], kept for the
    statement of properties; the code does not read it). *)
Record Process (W R : Type) : Type := {
  world : W;
  calls : list (key * entry R)
}.
Arguments world {W R} _.
Arguments calls {W R} _.


(** The truth value of a configuration entry in an [if]. *)
Definition truthy (v : value) : bool :=
  match v with
  | VNone => false
  | VBool b => b
  | VNum q => negb (Qeq_bool q 0)
  | VStr s => negb (String.eqb s "")
  | VList l => match l with [] => false | _ => true end
  | VDict d => match d with [] => false | _ => true end
  end.

Definition is_number (v : value) : bool :=
  match as_number v with
  | Some _ => true
  | None => false
  end.

(** The state a call leaves, whether it returned or raised. *)
Definition state_of {S A} (o : Py.outcome S A) : S :=
  match o with
  | Py.Returned s _ => s
  | Py.Raised s _ => s
  end.

(** The names under which the ten models are recorded, in call order. *)
Definition model_names : list string :=
  [ "global_market"; "geopolitical"; "investment"; "trade_policy"; "logistics";
    "exchange_rate"; "compliance"; "structural_transformation"; "digital_trade";
    "services_trade" ]%string.

(** The guarded calls of one simulated year, in the order of the code. *)
Definition guarded_calls {R} (self : TradeSimulationEngine R) : list key :=
  map ModelKey model_names
  ++ map SectorKey (export_models self)
  ++ map CategoryKey (import_models self).

(** What [year_results] holds for a guarded call. *)
Definition lookup_entry {R} (yr : YearResults R) (k : key) : option (entry R) :=
  match k with
  | ModelKey name =>
      if String.eqb name "global_market" then Some (global_market yr)
      else if String.eqb name "geopolitical" then Some (geopolitical yr)
      else if String.eqb name "investment" then Some (investment yr)
      else if String.eqb name "trade_policy" then Some (trade_policy yr)
      else if String.eqb name "logistics" then Some (logistics yr)
      else if String.eqb name "exchange_rate" then Some (exchange_rate yr)
      else if String.eqb name "compliance" then Some (compliance yr)
      else if String.eqb name "structural_transformation"
           then Some (structural_transformation yr)
      else if String.eqb name "digital_trade" then Some (digital_trade yr)
      else if String.eqb name "services_trade" then Some (services_trade yr)
      else None
  | SectorKey name => Py.lookup (sector_details (export yr)) name
  | CategoryKey name => Py.lookup (category_details (import yr)) name
  end.

(** The results of the earlier models that the sector and category loops
    read; [None] stands for the empty dictionary a failed call leaves. *)
Record Upstream (R : Type) : Type := {
  global_conditions : option R;
  investment_results : option R;
  trade_policy_results : option R;
  logistics_results : option R;
  exchange_rate_results : option R;
  compliance_results : option R;
  digital_trade_results : option R
}.
Arguments global_conditions {R} _.
Arguments investment_results {R} _.
Arguments trade_policy_results {R} _.
Arguments logistics_results {R} _.
Arguments exchange_rate_results {R} _.
Arguments compliance_results {R} _.
Arguments digital_trade_results {R} _.

(** The dictionary a guarded call leaves for the later ones: the result,
    or [{}] after an exception. *)
Definition conditions {R} (e : entry R) : option R :=
  match e with
  | Obj r => Some r
  | Error _ => None
  end.

(** The placeholder arguments of the exchange-rate call. *)
Definition bop_estimate : dict :=
  [ ("exports", VNum 50000); ("imports", VNum 60000); ("remittances", VNum 20000);
    ("fdi", VNum 3000); ("aid_loans", VNum 1000); ("profit_repatriation", VNum 1500);
    ("other_outflows", VNum 500) ]%string.

Definition cb_policy_estimate : dict :=
  [ ("intervention_stance", VNum 0.5); ("reserve_threshold", VNum 3.5);
    ("interest_rate_differential", VNum 0.02) ]%string.


(** The interface of the engine to the rest of the program: the state of
    the interpreter ([W]: the model objects and the generators), the result
    objects of the models ([R]) and the entry points the engine calls. *)
Class Models (W R : Type) : Type := {
  (** the dictionary a result object holds when it is read in a given
      state *)
  read : W -> R -> dict;
  (** the text of the exception thrown where a value that is not a number
      is used as one *)
  exc_text : value -> string;
  (** the text of a number in the output, [float.__repr__] *)
  repr_num : Q -> string;
  (** [random.seed(s); np.random.seed(s)] *)
  seed : value -> W -> W;
  (** [DataHandler(...)] and [initialize_models()]: the models are created
      and the keys of [export_models] and [import_models] returned *)
  initialize_models : dict -> W -> W * list string * list string;
  (** the entry points, each with the look-up of its model in
      [self.models], [self.export_models] or [self.import_models]; an
      earlier result passed on is [None] when the call that should have
      produced it raised; the investment step receives
      [{**global_conditions, **geopolitical_conditions}], given by its two
      operands *)
  simulate_global_markets : W -> Z -> Z -> string -> Py.outcome W R;
  simulate_geopolitical_environment : W -> Z -> Z -> Py.outcome W R;
  investment_simulate_step : W -> Z -> option R -> option R -> Py.outcome W R;
  get_overall_policy_environment : W -> Z -> Z -> Py.outcome W R;
  simulate_logistics_performance : W -> Z -> Z -> Q -> Q -> Q -> Py.outcome W R;
  simulate_exchange_rate : W -> Z -> dict -> dict -> option R -> Py.outcome W R;
  simulate_compliance_environment : W -> Z -> Z -> Q -> Q -> Py.outcome W R;
  structural_simulate_step : W -> Z -> Py.outcome W R;
  digital_trade_simulate_step : W -> Z -> option R -> Py.outcome W R;
  services_trade_simulate_step : W -> Z -> option R -> Py.outcome W R;
  export_simulate_year : string -> W -> Z -> dict -> Py.outcome W R;
  simulate_import_needs : string -> W -> Z -> dict -> Py.outcome W R
}.

Section WithModels.

Context {W R : Type} `{Models W R}.

(** The items of an earlier result, or of [{}]. *)
Definition items (w : W) (results : option R) : dict :=
  match results with
  | Some r => read w r
  | None => []
  end.

(** One [try: ... except Exception as e: ...] block around a model call:
    the result is kept, or the marker takes its place. *)
Definition attempt (k : key) (call : W -> Py.outcome W R) (p : Process W R)
    : Process W R * entry R :=
  match call (world p) with
  | Py.Returned w r => ({| world := w; calls := calls p ++ [(k, Obj r)] |}, Obj r)
  | Py.Raised w msg => ({| world := w; calls := calls p ++ [(k, Error msg)] |}, Error msg)
  end.

(** [sector_inputs]. *)
Definition sector_inputs (w : W) (up : Upstream R) : dict :=
  [ ("global_demand_growth",
     Py.get (items w (global_conditions up)) "demand_growth_rate" (VNum 0.03));
    ("tariff_changes",
     Py.get (items w (trade_policy_results up)) "effective_tariffs" (VDict []));
    ("exchange_rate_impact",
     Py.get (items w (exchange_rate_results up)) "impact_factor" (VNum 0));
    ("logistics_performance",
     Py.get (items w (logistics_results up)) "performance_index" (VNum 0.6));
    ("trade_policy_impact",
     Py.get (items w (trade_policy_results up)) "net_impact" (VNum 0));
    ("compliance_impact",
     Py.get (items w (compliance_results up)) "net_impact" (VNum 0));
    ("digital_adoption",
     Py.get (items w (digital_trade_results up)) "overall_adoption_rate" (VNum 0.5));
    ("competitor_growth",
     Py.get (items w (global_conditions up)) "competitor_growth" (VDict [])) ]%string.

(** [category_inputs]. *)
Definition category_inputs (w : W) (up : Upstream R) : dict :=
  [ ("domestic_production_growth",
     Py.get (items w (investment_results up)) "domestic_growth_rate" (VNum 0.05));
    ("consumption_demand_growth",
     Py.get (items w (global_conditions up)) "consumption_growth" (VNum 0.04));
    ("exchange_rate_impact",
     Py.get (items w (exchange_rate_results up)) "import_impact" (VNum 0));
    ("tariff_changes",
     Py.get (items w (trade_policy_results up)) "import_tariff_change" (VNum 0));
    ("global_price_changes",
     Py.get (items w (global_conditions up)) "global_price_changes" (VDict []));
    ("logistics_cost",
     Py.get (items w (logistics_results up)) "logistics_cost_factor" (VNum 0.1));
    ("domestic_capacity_investment",
     Py.get (items w (investment_results up)) "domestic_investment_level" (VNum 0.5))
  ]%string.

(** The end of one pass of a loop: the entry goes into the details under
    the name and into the record of calls. *)
Definition settle (k : key) (name : string) (e : entry R) (w : W) (p : Process W R)
    (total : Q) (details : list (string * entry R))
    : Process W R * Q * list (string * entry R) :=
  ({| world := w; calls := calls p ++ [(k, e)] |}, total, Py.setitem details name e).

(** One pass of the loop over [self.export_models.items()].  The [try]
    block also holds the addition to [total_exports] and, when [verbose],
    the formatting of the growth rate, both of which throw on a value that
    is not a number. *)
Definition export_step (year_index : Z) (verbose : bool) (up : Upstream R)
    (acc : Process W R * Q * list (string * entry R)) (sector_name : string)
    : Process W R * Q * list (string * entry R) :=
  let '(p, total_exports, all_export_results) := acc in
  let k := SectorKey sector_name in
  match export_simulate_year sector_name (world p) year_index
          (sector_inputs (world p) up) with
  | Py.Raised w msg => settle k sector_name (Error msg) w p total_exports all_export_results
  | Py.Returned w r =>
      let volume := Py.get (read w r) "export_volume" (VNum 0) in
      match as_number volume with
      | None =>
          settle k sector_name (Error (exc_text volume)) w p total_exports
            all_export_results
      | Some x =>
          let growth := Py.get (read w r) "growth_rate" (VNum 0) in
          if verbose && negb (is_number growth)
          then settle k sector_name (Error (exc_text growth)) w p (total_exports + x)
                 all_export_results
          else settle k sector_name (Obj r) w p (total_exports + x) all_export_results
      end
  end.

(** One pass of the loop over [self.import_models.items()]. *)
Definition import_step (year_index : Z) (up : Upstream R)
    (acc : Process W R * Q * list (string * entry R)) (category_name : string)
    : Process W R * Q * list (string * entry R) :=
  let '(p, total_imports, all_import_results) := acc in
  let k := CategoryKey category_name in
  match simulate_import_needs category_name (world p) year_index
          (category_inputs (world p) up) with
  | Py.Raised w msg =>
      settle k category_name (Error msg) w p total_imports all_import_results
  | Py.Returned w r =>
      let volume := Py.get (read w r) "import_volume" (VNum 0) in
      match as_number volume with
      | None =>
          settle k category_name (Error (exc_text volume)) w p total_imports
            all_import_results
      | Some x => settle k category_name (Obj r) w p (total_imports + x) all_import_results
      end
  end.

(** Step 6, outside every [try]: the division by [gdp] throws when the
    investment result carries a [gdp] that is zero or not a number. *)
Definition aggregate (w : W) (investment : option R) (total_exports total_imports : Q)
    : string + AggregateMetrics :=
  let gdp := Py.get (items w investment) "gdp" (VNum 1) in
  match as_number gdp with
  | None => inl (exc_text gdp)
  | Some g =>
      if Qeq_bool g 0 then inl "division by zero"%string
      else inr {| trade_balance := total_exports - total_imports;
                  trade_openness := (total_exports + total_imports) / g;
                  export_to_gdp := total_exports / g;
                  import_to_gdp := total_imports / g |}
  end.


(** [TradeSimulationEngine.simulate_year]. *)
Definition simulate_year (self : TradeSimulationEngine R) (p : Process W R) (year : Z)
    (verbose : bool) : Py.outcome (Process W R) (YearResults R) :=
  let year_index := (year - start_year self)%Z in
  let '(p1, global_market_entry) :=
    attempt (ModelKey "global_market")
      (fun w => simulate_global_markets w year_index year (scenario self)) p in
  let global := conditions global_market_entry in
  let '(p2, geopolitical_entry) :=
    attempt (ModelKey "geopolitical")
      (fun w => simulate_geopolitical_environment w year_index year) p1 in
  let geopolitical_conditions := conditions geopolitical_entry in
  let '(p3, investment_entry) :=
    attempt (ModelKey "investment")
      (fun w => investment_simulate_step w year global geopolitical_conditions) p2 in
  let '(p4, trade_policy_entry) :=
    attempt (ModelKey "trade_policy")
      (fun w => get_overall_policy_environment w year_index year) p3 in
  let trade_volume_estimate := 100000 in
  let infra_investment_estimate := 0.5 in
  let policy_effectiveness_estimate := 0.6 in
  let '(p5, logistics_entry) :=
    attempt (ModelKey "logistics")
      (fun w => simulate_logistics_performance w year_index year trade_volume_estimate
                  infra_investment_estimate policy_effectiveness_estimate) p4 in
  let '(p6, exchange_rate_entry) :=
    attempt (ModelKey "exchange_rate")
      (fun w => simulate_exchange_rate w year_index bop_estimate cb_policy_estimate global)
      p5 in
  let regulatory_dev_estimate := 0.6 in
  let buyer_req_estimate := 0.7 in
  let '(p7, compliance_entry) :=
    attempt (ModelKey "compliance")
      (fun w => simulate_compliance_environment w year_index year regulatory_dev_estimate
                  buyer_req_estimate) p6 in
  let '(p8, structural_entry) :=
    attempt (ModelKey "structural_transformation")
      (fun w => structural_simulate_step w year) p7 in
  let '(p9, digital_trade_entry) :=
    attempt (ModelKey "digital_trade")
      (fun w => digital_trade_simulate_step w year global) p8 in
  let '(p10, services_trade_entry) :=
    attempt (ModelKey "services_trade")
      (fun w => services_trade_simulate_step w year global) p9 in
  let up :=
    {| global_conditions := global;
       investment_results := conditions investment_entry;
       trade_policy_results := conditions trade_policy_entry;
       logistics_results := conditions logistics_entry;
       exchange_rate_results := conditions exchange_rate_entry;
       compliance_results := conditions compliance_entry;
       digital_trade_results := conditions digital_trade_entry |} in
  let '(p11, total_exports, all_export_results) :=
    fold_left (export_step year_index verbose up) (export_models self) (p10, 0, []) in
  let '(p12, total_imports, all_import_results) :=
    fold_left (import_step year_index up) (import_models self) (p11, 0, []) in
  match aggregate (world p12) (conditions investment_entry) total_exports total_imports with
  | inl msg => Py.Raised p12 msg
  | inr metrics =>
      Py.Returned p12
        {| global_market := global_market_entry;
           geopolitical := geopolitical_entry;
           investment := investment_entry;
           trade_policy := trade_policy_entry;
           logistics := logistics_entry;
           exchange_rate := exchange_rate_entry;
           compliance := compliance_entry;
           structural_transformation := structural_entry;
           digital_trade := digital_trade_entry;
           services_trade := services_trade_entry;
           export := {| total_exports := total_exports;
                        sector_details := all_export_results |};
           import := {| total_imports := total_imports;
                        category_details := all_import_results |};
           aggregate_metrics := metrics |}
  end.

(** What [json.dump] finds in the results when the state is [w]. *)
Definition entry_document (w : W) (e : entry R) : value :=
  match e with
  | Obj r => VDict (read w r)
  | Error msg => error_entry msg
  end.

Definition details_document (w : W) (details : list (string * entry R)) : value :=
  VDict (map (fun ne => (fst ne, entry_document w (snd ne))) details).

Definition year_document (w : W) (yr : YearResults R) : value :=
  VDict
    [ ("global_market", entry_document w (global_market yr));
      ("geopolitical", entry_document w (geopolitical yr));
      ("investment", entry_document w (investment yr));
      ("trade_policy", entry_document w (trade_policy yr));
      ("logistics", entry_document w (logistics yr));
      ("exchange_rate", entry_document w (exchange_rate yr));
      ("compliance", entry_document w (compliance yr));
      ("structural_transformation", entry_document w (structural_transformation yr));
      ("digital_trade", entry_document w (digital_trade yr));
      ("services_trade", entry_document w (services_trade yr));
      ("export",
       VDict [ ("total_exports", VNum (total_exports (export yr)));
               ("sector_details", details_document w (sector_details (export yr))) ]);
      ("import",
       VDict [ ("total_imports", VNum (total_imports (import yr)));
               ("category_details",
                details_document w (category_details (import yr))) ]);
      ("aggregate_metrics",
       VDict [ ("trade_balance", VNum (trade_balance (aggregate_metrics yr)));
               ("trade_openness", VNum (trade_openness (aggregate_metrics yr)));
               ("export_to_gdp", VNum (export_to_gdp (aggregate_metrics yr)));
               ("import_to_gdp", VNum (import_to_gdp (aggregate_metrics yr))) ])
    ]%string.

Definition metadata_document (m : Metadata) : value :=
  VDict [ ("scenario", VStr (md_scenario m));
          ("start_year", VNum (inject_Z (md_start_year m)));
          ("end_year", VNum (inject_Z (md_end_year m)));
          ("timestamp", VStr (md_timestamp m)) ]%string.

(** [self.results]; the integer keys of [yearly_data] are written as
    strings. *)
Definition yearly_document (w : W) (yearly : list (Z * YearResults R)) : value :=
  VDict (map (fun ky => (pretty (fst ky), year_document w (snd ky))) yearly).

Definition results_document (w : W) (self : TradeSimulationEngine R) : value :=
  VDict [ ("metadata", metadata_document (metadata self));
          ("yearly_data", yearly_document w (yearly_data self)) ]%string.


(** The engine and the rest of the program state during a run: the
    interpreter state with the record of calls, and the files of the
    results directory by name. *)
Record Run : Type := {
  process : Process W R;
  files : gmap string string
}.

(** [save_results(filename)]: [json.dump(self.results, f, indent=2)] into
    [<filename>.json], the write taken to succeed. *)
Definition save_results (self : TradeSimulationEngine R) (w : W)
    (filename : option string) (fs : gmap string string) : gmap string string :=
  let name := default ("simulation_results_" +:+ scenario self) filename in
  <[ name +:+ ".json" := dumps repr_num 0 (results_document w self) ]> fs.

Definition set_current_year (self : TradeSimulationEngine R) (year : Z)
    : TradeSimulationEngine R :=
  {| config := config self;
     start_year := start_year self;
     end_year := end_year self;
     scenario := scenario self;
     current_year := year;
     export_models := export_models self;
     import_models := import_models self;
     metadata := metadata self;
     yearly_data := yearly_data self |}.

(** [self.results['yearly_data'][year] = year_results]. *)
Definition store_year (self : TradeSimulationEngine R) (year : Z) (yr : YearResults R)
    : TradeSimulationEngine R :=
  {| config := config self;
     start_year := start_year self;
     end_year := end_year self;
     scenario := scenario self;
     current_year := current_year self;
     export_models := export_models self;
     import_models := import_models self;
     metadata := metadata self;
     yearly_data := Py.setitem (yearly_data self) year yr |}.

(** The body of the loop of [run_simulation] over the years that remain;
    an exception of [simulate_year] ends the run. *)
Fixpoint run_years (self : TradeSimulationEngine R) (st : Run) (years : list Z)
    (verbose : bool) : Py.outcome (TradeSimulationEngine R * Run) unit :=
  match years with
  | [] => Py.Returned (self, st) tt
  | year :: rest =>
      let self1 := set_current_year self year in
      match simulate_year self1 (process st) year verbose with
      | Py.Raised p msg => Py.Raised (self1, {| process := p; files := files st |}) msg
      | Py.Returned p year_results =>
          let self2 := store_year self1 year year_results in
          let fs :=
            if (year mod 5 =? 0)%Z
               && truthy (Py.get (config self2) "save_intermediate_results" (VBool false))
            then save_results self2 (world p)
                   (Some ("intermediate_" +:+ scenario self2 +:+ "_" +:+ pretty year))
                   (files st)
            else files st in
          run_years self2 {| process := p; files := fs |} rest verbose
      end
  end.

(** [range(self.start_year, self.end_year + 1)]. *)
Definition years_of (self : TradeSimulationEngine R) : list Z :=
  seqZ (start_year self) (end_year self + 1 - start_year self).

(** [TradeSimulationEngine.run_simulation]. *)
Definition run_simulation (self : TradeSimulationEngine R) (st : Run) (verbose : bool)
    : Py.outcome (TradeSimulationEngine R * Run) unit :=
  run_years self st (years_of self) verbose.

(** [TradeSimulationEngine.__init__]; [now] is what [datetime.now()]
    returns when the results are set up. *)
Definition construct (cfg : dict) (first last : Z) (name : string)
    (now : Clock.datetime) (w : W) : W * TradeSimulationEngine R :=
  let w1 := seed (Py.get cfg "random_seed" (VNum 42)) w in
  let '(w2, exports, imports) := initialize_models cfg w1 in
  (w2,
   {| config := cfg;
      start_year := first;
      end_year := last;
      scenario := name;
      current_year := first;
      export_models := exports;
      import_models := imports;
      metadata := {| md_scenario := name;
                     md_start_year := first;
                     md_end_year := last;
                     md_timestamp := Clock.strftime now |};
      yearly_data := [] |}).

(** [run_simulation_from_config] after the configuration is loaded: the
    engine is built, run and saved. *)
Definition run_and_save (cfg : dict) (first last : Z) (name : string)
    (now : Clock.datetime) (w : W) (fs : gmap string string)
    : Py.outcome (TradeSimulationEngine R * Run) unit :=
  let '(w', engine) := construct cfg first last name now w in
  match run_simulation engine {| process := {| world := w'; calls := [] |}; files := fs |}
          true with
  | Py.Raised s msg => Py.Raised s msg
  | Py.Returned (engine', st) _ =>
      Py.Returned
        (engine',
         {| process := process st;
            files := save_results engine' (world (process st)) None (files st) |})
        tt
  end.




(** The timestamp a run ends with. *)
Definition timestamp_of (o : Py.outcome (TradeSimulationEngine R * Run) unit) : string :=
  md_timestamp (metadata (fst (state_of o))).

(** The exceptions of a look-up in the results. *)
Inductive exception : Type :=
| KeyError (k : string)
| TypeError
| AttributeError.

Fixpoint find_key (d : dict) (k : string) : option value :=
  match d with
  | [] => None
  | (k', v) :: d' => if String.eqb k' k then Some v else find_key d' k
  end.

(** [v[k]] for a name [k]: a dictionary has the key or throws
    [KeyError]; no other value can be subscripted by a name. *)
Definition subscript (v : value) (k : string) : exception + value :=
  match v with
  | VDict d =>
      match find_key d k with
      | Some x => inr x
      | None => inl (KeyError k)
      end
  | _ => inl TypeError
  end.

(** [v[k1][k2]...]. *)
Definition path_of (v : value) (path : list string) : exception + value :=
  fold_left (fun acc k => match acc with
                          | inl e => inl e
                          | inr x => subscript x k
                          end) path (inr v).

(** [[self.results['yearly_data'][y][k1][k2] for y in years]], over the
    results of the years in order. *)
Fixpoint column (docs : list value) (path : list string) : exception + list value :=
  match docs with
  | [] => inr []
  | doc :: rest =>
      match path_of doc path with
      | inl e => inl e
      | inr v =>
          match column rest path with
          | inl e => inl e
          | inr vs => inr (v :: vs)
          end
      end
  end.

(** [...[y]['export']['sector_exports'].get(sector.sector_name, 0)]. *)
Definition sector_cell (doc : value) (sector : string) : exception + value :=
  match path_of doc ["export"; "sector_exports"]%string with
  | inl e => inl e
  | inr (VDict d) => inr (Py.get d sector (VNum 0))
  | inr _ => inl AttributeError
  end.

Fixpoint sector_column (docs : list value) (sector : string) : exception + list value :=
  match docs with
  | [] => inr []
  | doc :: rest =>
      match sector_cell doc sector with
      | inl e => inl e
      | inr v =>
          match sector_column rest sector with
          | inl e => inl e
          | inr vs => inr (v :: vs)
          end
      end
  end.

(** The loop over [self.export_models.values()]. *)
Fixpoint sector_columns (docs : list value) (sectors : list string)
    (data : list (string * list value)) : exception + list (string * list value) :=
  match sectors with
  | [] => inr data
  | sector :: rest =>
      match sector_column docs sector with
      | inl e => inl e
      | inr col => sector_columns docs rest (Py.setitem data ("Export_" +:+ sector) col)
      end
  end.

(** [generate_summary_dataframe]: the columns handed to [pd.DataFrame], or
    the exception of the first look-up that fails. *)
Definition generate_summary_dataframe (self : TradeSimulationEngine R) (w : W)
    : exception + list (string * list value) :=
  let years := Py.keys (yearly_data self) in
  let docs := map (fun ky => year_document w (snd ky)) (yearly_data self) in
  match column docs ["investment"; "gdp"]%string with
  | inl e => inl e
  | inr gdp =>
  match column docs ["export"; "total_exports"]%string with
  | inl e => inl e
  | inr total_exports =>
  match column docs ["import"; "total_imports"]%string with
  | inl e => inl e
  | inr total_imports =>
  match column docs ["aggregate_metrics"; "trade_balance"]%string with
  | inl e => inl e
  | inr trade_balance =>
  match column docs ["aggregate_metrics"; "trade_openness"]%string with
  | inl e => inl e
  | inr trade_openness =>
      sector_columns docs (export_models self)
        [ ("Year", map (fun y => VNum (inject_Z y)) years);
          ("GDP", gdp);
          ("Total_Exports", total_exports);
          ("Total_Imports", total_imports);
          ("Trade_Balance", trade_balance);
          ("Trade_Openness", trade_openness) ]%string
  end end end end end.

End WithModels.

End Engine.

(** ** A two-year run of the trade-war model

    The values the generator yields in a run in which a US-China trade war
    starts in 2025 and is still running in 2026, with the arguments the
    engine passes ([tension_level] and [regional_cooperation] at their
    defaults of 0.5). *)

Module TradeWarScenario.

Definition draws_2025_2026 : list Q :=
  [ (* 2025 *) 0.1; 0.5; 0.5; 0.9; 0.9; 0.9; 0.05; 0.5; 0.5; 0.5; 0.5; 0.5;
    (* 2026 *) 0.9; 0.9; 0.9; 0.1; 0.5; 0.5; 0.5; 0.5; 0.5 ].

Definition start : TradeWars.State :=
  {| TradeWars.heap := {| TradeWars.objects := ∅; TradeWars.next := 0 |};
     TradeWars.rng :=
       {| TradeWars.draws := fun n => nth n draws_2025_2026 0.5;
          TradeWars.position := 0 |};
     TradeWars.model := TradeWars.init [] |}.

Definition year_2025 : Py.outcome TradeWars.State TradeWars.Results :=
  TradeWars.simulate_trade_wars start 0 2025 0.5 0.5.

Definition year_2026 : Py.outcome TradeWars.State TradeWars.Results :=
  TradeWars.simulate_trade_wars (TradeWars.state_of year_2025) 1 2026 0.5 0.5.

End TradeWarScenario.

(** ** A small engine

    An instance of the interface with which the engine can be run: result
    objects are the dictionaries themselves, the state counts the calls that
    returned, the global-market and trade-policy models are missing from
    [self.models] (the look-up raises [KeyError]), the other models return a
    few values, and of the two export sectors the second one throws. *)

Module EngineScenario.

Import Json Engine.

Definition returns (w : nat) (d : dict) : Py.outcome nat dict := Py.Returned (S w) d.

(** Integers in decimal, other numbers as a fraction. *)
Definition repr_fraction (q : Q) : string :=
  let r := Qred q in
  if (Z.pos (Qden r) =? 1)%Z then pretty (Qnum r)
  else pretty (Qnum r) +:+ "/" +:+ pretty (Z.pos (Qden r)).

#[global] Instance models : Models nat dict := {|
  read := fun _ d => d;
  exc_text := fun _ => "unsupported operand type(s)"%string;
  repr_num := repr_fraction;
  seed := fun _ _ => 0%nat;
  initialize_models := fun _ w => (w, ["rmg"; "jute"]%string, ["fuel"]%string);
  simulate_global_markets := fun w _ _ _ => Py.Raised w "'global_market'";
  simulate_geopolitical_environment :=
    fun w _ _ => returns w [("trade_risk"%string, VNum 0.3)];
  investment_simulate_step := fun w _ _ _ => returns w [("gdp"%string, VNum 350)];
  get_overall_policy_environment := fun w _ _ => Py.Raised w "'trade_policy'";
  simulate_logistics_performance :=
    fun w _ _ _ _ _ => returns w [("overall_performance"%string, VNum 0.6)];
  simulate_exchange_rate :=
    fun w _ _ _ _ => returns w [("exchange_rate"%string, VNum 113.3)];
  simulate_compliance_environment :=
    fun w _ _ _ _ => returns w [("net_compliance_impact"%string, VNum 0.01)];
  structural_simulate_step :=
    fun w _ => returns w [("export_diversity_hhi"%string, VNum 0.7)];
  digital_trade_simulate_step :=
    fun w _ _ => returns w [("ecommerce_adoption_rate"%string, VNum 0.16)];
  services_trade_simulate_step :=
    fun w _ _ => returns w [("tourism_earnings"%string, VNum 0.4)];
  export_simulate_year :=
    fun name w _ _ =>
      if String.eqb name "rmg"
      then returns w [("export_volume"%string, VNum 40); ("growth_rate"%string, VNum 0.05)]
      else Py.Raised w "unsupported operand type(s) for -: 'str' and 'float'";
  simulate_import_needs :=
    fun _ w _ _ => returns w [("import_volume"%string, VNum 9)]
|}.

Definition baseline (now : Clock.datetime)
    : Py.outcome (TradeSimulationEngine dict * Run) unit :=
  run_and_save [] 2025 2027 "baseline" now 0%nat ∅.

Definition first_run : Clock.datetime :=
  {| Clock.year := 2026; Clock.month := 11; Clock.day := 4;
     Clock.hour := 3; Clock.minute := 0; Clock.second := 0 |}.

Definition second_run : Clock.datetime :=
  {| Clock.year := 2026; Clock.month := 11; Clock.day := 4;
     Clock.hour := 3; Clock.minute := 0; Clock.second := 1 |}.

End EngineScenario.

(** ** A small engine whose investment model reports a zero GDP *)

Module ZeroGdpScenario.

Import Json Engine.

Definition models : Models nat dict := {|
  read := fun _ d => d;
  exc_text := fun _ => "unsupported operand type(s)"%string;
  repr_num := EngineScenario.repr_fraction;
  seed := fun _ _ => 0%nat;
  initialize_models := fun _ w => (w, ["rmg"]%string, ["fuel"]%string);
  simulate_global_markets := fun w _ _ _ => Py.Raised w "'global_market'";
  simulate_geopolitical_environment :=
    fun w _ _ => EngineScenario.returns w [("trade_risk"%string, VNum 0.3)];
  investment_simulate_step :=
    fun w _ _ _ => EngineScenario.returns w [("gdp"%string, VNum 0)];
  get_overall_policy_environment := fun w _ _ => Py.Raised w "'trade_policy'";
  simulate_logistics_performance :=
    fun w _ _ _ _ _ => Py.Raised w "'logistics'";
  simulate_exchange_rate := fun w _ _ _ _ => Py.Raised w "'exchange_rate'";
  simulate_compliance_environment := fun w _ _ _ _ => Py.Raised w "'compliance'";
  structural_simulate_step := fun w _ => Py.Raised w "'structural_transformation'";
  digital_trade_simulate_step := fun w _ _ => Py.Raised w "'digital_trade'";
  services_trade_simulate_step := fun w _ _ => Py.Raised w "'services_trade'";
  export_simulate_year :=
    fun _ w _ _ =>
      EngineScenario.returns w
        [("export_volume"%string, VNum 40); ("growth_rate"%string, VNum 0.05)];
  simulate_import_needs :=
    fun _ w _ _ => EngineScenario.returns w [("import_volume"%string, VNum 9)]
|}.

Definition engine : TradeSimulationEngine dict :=
  snd (construct (H := models) [] 2025 2027 "baseline" EngineScenario.first_run 0%nat).

End ZeroGdpScenario.

(** * Properties *)

(** ** Clamping with [max] and [min] *)

Lemma py_max_lower a b : a <= Py.max a b.
Proof. unfold Py.max. destruct (Qlt_le_dec a b); lra. Qed.

Lemma py_clamp_bounds lo hi x : lo <= hi -> lo <= Py.max lo (Py.min hi x) <= hi.
Proof.
  intros Hlh. unfold Py.max, Py.min.
  destruct (Qlt_le_dec x hi); destruct (Qlt_le_dec lo _); lra.
Qed.

Lemma py_clamp_id lo hi x : lo <= x <= hi -> Py.max lo (Py.min hi x) == x.
Proof.
  intros [Hl Hh]. unfold Py.max, Py.min.
  destruct (Qlt_le_dec x hi); destruct (Qlt_le_dec lo _); lra.
Qed.

Lemma py_clamp_spec lo hi x : lo <= hi -> Py.max lo (Py.min hi x) == Py.clamp lo hi x.
Proof.
  intros Hlh. unfold Py.max, Py.min, Py.clamp.
  destruct (Qlt_le_dec x hi); destruct (Qlt_le_dec lo _);
    destruct (Qlt_le_dec x lo); try destruct (Qlt_le_dec hi x); lra.
Qed.

(** ** Export sectors *)

Section ExportSectorProperties.

Import ExportSector.

(** C1.  With global demand growth at its 3% baseline, no tariff changes, no
    competitors, drivers that leave competitiveness where it is and a zero
    noise draw, a sector whose previous competitiveness lies in [0.1, 1.0]
    exports the previous volume times [1 + base_growth_rate]: the effective
    growth rate is the base growth rate. *)
Theorem simulate_year_neutral_growth (self : ExportSectorModel) (year_index : Z) :
  0.1 <= prev_competitiveness self year_index <= 1.0 ->
  let results := snd (simulate_year self year_index 0.03 [] 0 0.6 0 0 0 [] 0) in
  export_volume results == prev_volume self year_index * (1 + base_growth_rate self)
  /\ growth_rate results == base_growth_rate self.
Proof.
  intros Hprev. cbn [snd simulate_year export_volume growth_rate].
  assert (Hchange : competitiveness_change 0 0.6 0 0 0 * 0.1 == 0)
    by (unfold competitiveness_change; lra).
  assert (Hcomp : Py.max 0.1 (Py.min 1.0 (prev_competitiveness self year_index
                    + competitiveness_change 0 0.6 0 0 0 * 0.1))
                  == prev_competitiveness self year_index).
  { rewrite py_clamp_id; lra. }
  cbn [weighted_tariff_impact competitor_impact_of fold_left].
  set (c := Py.max _ _) in *.
  assert (Hg : base_growth_rate self * (1 + 0.5 * (0.03 - 0.03)) + 0
               + (c - prev_competitiveness self year_index) * 2 + 0 + 0
               == base_growth_rate self) by (rewrite Hcomp; ring).
  split; [rewrite Hg; reflexivity | exact Hg].
Qed.

Lemma simulate_year_neutral_growth_witness :
  let self := init "rmg" 38000 0.05 0.06 "low"
                [("cost"%string, 0.8); ("quality"%string, 0.6)] 0.7 [] in
  let results := snd (simulate_year self 0 0.03 [] 0 0.6 0 0 0 [] 0) in
  0.1 <= prev_competitiveness self 0 <= 1.0
  /\ export_volume results == prev_volume self 0 * (1 + base_growth_rate self)
  /\ growth_rate results == base_growth_rate self.
Proof.
  split; [vm_compute; split; discriminate |].
  apply (simulate_year_neutral_growth
           (init "rmg" 38000 0.05 0.06 "low"
              [("cost"%string, 0.8); ("quality"%string, 0.6)] 0.7 []) 0).
  vm_compute. split; discriminate.
Defined.


(** C8.  The competitiveness a call of [simulate_year] returns and stores
    under its year index is the previous competitiveness plus 0.1 times the
    weighted sum of the five drivers, clamped to [0.1, 1.0]; so it lies in
    [0.1, 1.0] whatever the inputs are. *)
Theorem simulate_year_competitiveness_clamped
    (self : ExportSectorModel) (year_index : Z) (demand : Q)
    (tariffs : list (string * Q))
    (exchange_rate_impact logistics_performance trade_policy_impact
     compliance_impact digital_adoption : Q)
    (competitors : list (string * Q)) (noise : Q) :
  let step :=
    simulate_year self year_index demand tariffs exchange_rate_impact logistics_performance
      trade_policy_impact compliance_impact digital_adoption competitors noise in
  let weighted_sum :=
    0.2 * exchange_rate_impact + 0.3 * (logistics_performance - 0.6)
    + 0.2 * trade_policy_impact + 0.1 * digital_adoption - 0.2 * compliance_impact in
  competitiveness (snd step)
    == Py.clamp 0.1 1.0 (prev_competitiveness self year_index + 0.1 * weighted_sum)
  /\ historical_competitiveness (fst step) !! year_index = Some (competitiveness (snd step))
  /\ 0.1 <= competitiveness (snd step) <= 1.0.
Proof.
  cbn [fst snd simulate_year competitiveness historical_competitiveness].
  split; [| split].
  - rewrite py_clamp_spec by lra.
    unfold competitiveness_change, Py.clamp.
    repeat match goal with |- context [Qlt_le_dec ?a ?b] => destruct (Qlt_le_dec a b) end;
      lra.
  - apply lookup_insert_eq.
  - apply py_clamp_bounds. lra.
Qed.

(** What the three specialised models have in common: the base method
    records its own volume under the year index, and that is what the
    look-up of the following year finds. *)
Lemma base_volume_recorded (self : ExportSectorModel) (year_index : Z)
    (kwargs : SectorInputs) (noise : Q) :
  let step := simulate_year_kw self year_index kwargs noise in
  historical_volumes (fst step) !! year_index = Some (export_volume (snd step))
  /\ prev_volume (fst step) (year_index + 1) = export_volume (snd step).
Proof.
  cbn [fst snd simulate_year_kw simulate_year historical_volumes export_volume].
  split; [apply lookup_insert_eq |].
  unfold prev_volume. cbn [historical_volumes current_volume].
  replace (year_index + 1 - 1)%Z with year_index by lia.
  now rewrite lookup_insert_eq.
Qed.

Lemma scaled_volume_differs (results : YearResult) (factor : Q) :
  ~ factor == 1 -> ~ export_volume results == 0 ->
  ~ export_volume (scale_export_volume results factor) == export_volume results.
Proof.
  intros Hf Hv Heq. cbn [scale_export_volume export_volume] in Heq.
  apply Hf. apply (Qmult_inj_l _ _ (export_volume results)); [exact Hv |].
  rewrite Qmult_1_r. exact Heq.
Qed.

(** C9, as amended.  Each specialised model lets the base method record its
    volume under the year index and multiplies only the returned
    [export_volume] by its factor; the look-up of the following year finds
    the recorded, unadjusted volume; and when the factor is not 1 and the
    recorded volume is not 0, the returned volume differs from the recorded
    one. *)
Theorem specialised_adjustment_not_recorded
    (year_index : Z) (kwargs : SectorInputs) (noise : Q) :
  (forall self : RMGSectorModel,
     let base := simulate_year_kw (rmg_base self) year_index kwargs noise in
     let step := rmg_simulate_year self year_index kwargs noise in
     historical_volumes (rmg_base (fst step)) !! year_index = Some (export_volume (snd base))
     /\ export_volume (rmg_results (snd step))
        = export_volume (snd base) * rmg_multiplier self
     /\ prev_volume (rmg_base (fst step)) (year_index + 1) = export_volume (snd base)
     /\ (~ rmg_multiplier self == 1 -> ~ export_volume (snd base) == 0 ->
         ~ export_volume (rmg_results (snd step)) == export_volume (snd base)))
  /\ (forall (self : EmergingSectorModel) (new_patents : Z),
     let base := simulate_year_kw (em_base self) year_index kwargs noise in
     let step := emerging_simulate_year self year_index kwargs noise new_patents in
     historical_volumes (em_base (fst step)) !! year_index = Some (export_volume (snd base))
     /\ export_volume (em_results (snd step))
        = export_volume (snd base) * emerging_multiplier self
     /\ prev_volume (em_base (fst step)) (year_index + 1) = export_volume (snd base)
     /\ (~ emerging_multiplier self == 1 -> ~ export_volume (snd base) == 0 ->
         ~ export_volume (em_results (snd step)) == export_volume (snd base)))
  /\ (forall (self : TraditionalSectorModel) (price_draw seasonal_effect : Q),
     let base := simulate_year_kw (tr_base self) year_index kwargs noise in
     let step :=
       traditional_simulate_year self year_index kwargs noise price_draw seasonal_effect in
     let factor := traditional_multiplier self price_draw seasonal_effect in
     historical_volumes (tr_base (fst step)) !! year_index = Some (export_volume (snd base))
     /\ export_volume (tr_results (snd step)) = export_volume (snd base) * factor
     /\ prev_volume (tr_base (fst step)) (year_index + 1) = export_volume (snd base)
     /\ (~ factor == 1 -> ~ export_volume (snd base) == 0 ->
         ~ export_volume (tr_results (snd step)) == export_volume (snd base))).
Proof.
  split; [| split]; intros self.
  - intros base step.
    destruct (base_volume_recorded (rmg_base self) year_index kwargs noise) as [Hrec Hnext].
    subst base step. unfold rmg_simulate_year.
    destruct (simulate_year_kw (rmg_base self) year_index kwargs noise) as [b r] eqn:E.
    cbn [fst snd rmg_base rmg_results] in *.
    repeat split; try assumption.
    intros Hf Hv. now apply scaled_volume_differs.
  - intros new_patents base step.
    destruct (base_volume_recorded (em_base self) year_index kwargs noise) as [Hrec Hnext].
    subst base step. unfold emerging_simulate_year.
    destruct (simulate_year_kw (em_base self) year_index kwargs noise) as [b r] eqn:E.
    cbn [fst snd em_base em_results] in *.
    repeat split; try assumption.
    intros Hf Hv. now apply scaled_volume_differs.
  - intros price_draw seasonal_effect base step factor.
    destruct (base_volume_recorded (tr_base self) year_index kwargs noise) as [Hrec Hnext].
    subst base step factor. unfold traditional_simulate_year.
    destruct (simulate_year_kw (tr_base self) year_index kwargs noise) as [b r] eqn:E.
    cbn [fst snd tr_base tr_results] in *.
    repeat split; try assumption.
    intros Hf Hv. now apply scaled_volume_differs.
Qed.

(** C9, as stated, fails: a garment sector that has not exported yet
    ([current_volume] 0) has the factor 0.96, and the volume it returns is
    the volume it recorded, 0. *)
Lemma rmg_zero_volume_returned_equals_recorded :
  let self := rmg_init (init "rmg" 0 0.05 0.06 "low" [] 0.7 []) in
  let step := rmg_simulate_year self 0 default_inputs 0 in
  ~ rmg_multiplier self == 1
  /\ exists recorded,
       historical_volumes (rmg_base (fst step)) !! 0%Z = Some recorded
       /\ export_volume (rmg_results (snd step)) == recorded.
Proof.
  split; [vm_compute; discriminate |].
  eexists. split; [apply lookup_insert_eq |]. vm_compute. reflexivity.
Qed.

Lemma specialised_adjustment_not_recorded_witness :
  let self := rmg_init (init "rmg" 38000 0.05 0.06 "low" [] 0.7 []) in
  let base := simulate_year_kw (rmg_base self) 0 default_inputs 0 in
  let step := rmg_simulate_year self 0 default_inputs 0 in
  ~ rmg_multiplier self == 1
  /\ ~ export_volume (snd base) == 0
  /\ ~ export_volume (rmg_results (snd step)) == export_volume (snd base).
Proof.
  assert (Hf : ~ rmg_multiplier (rmg_init (init "rmg" 38000 0.05 0.06 "low" [] 0.7 [])) == 1)
    by (vm_compute; discriminate).
  assert (Hv : ~ export_volume
                   (snd (simulate_year_kw
                           (rmg_base (rmg_init (init "rmg" 38000 0.05 0.06 "low" [] 0.7 [])))
                           0 default_inputs 0)) == 0)
    by (vm_compute; discriminate).
  split; [exact Hf | split; [exact Hv |]].
  exact (proj2 (proj2 (proj2
           (proj1 (specialised_adjustment_not_recorded 0 default_inputs 0)
              (rmg_init (init "rmg" 38000 0.05 0.06 "low" [] 0.7 []))))) Hf Hv).
Defined.

End ExportSectorProperties.

(** ** Structural transformation *)

Section StructuralProperties.

Import Structural.



Lemma sum_from_zero (xs : list Q) (a : Q) :
  Forall (fun v => v == 0) xs -> fold_left Qplus xs a == a.
Proof.
  revert a. induction xs as [| x xs IH]; intros a Hz; cbn; [reflexivity |].
  inversion Hz as [| ? ? Hx Hxs]; subst.
  rewrite IH by assumption. rewrite Hx. ring.
Qed.

(** The loop ends with the accumulated index exactly when it never
    divides by a zero total. *)
Lemma hhi_loop_nonzero (values : list (string * Q)) (total hhi : Q)
    (shares : list (string * Q)) :
  ~ total == 0 ->
  hhi_loop values total hhi shares
  = Some (fold_left (fun acc sv => acc + (snd sv / total) ^ 2) values hhi,
          shares ++ map (fun sv => (fst sv, snd sv / total)) values).
Proof.
  intros Ht. revert hhi shares.
  induction values as [| [sector v] rest IH]; intros hhi shares; cbn.
  - now rewrite app_nil_r.
  - destruct (Qeq_bool total 0) eqn:E; [apply Qeq_bool_iff in E; contradiction |].
    rewrite IH. cbn. now rewrite <- app_assoc.
Qed.

Lemma hhi_loop_zero (values : list (string * Q)) (total hhi : Q)
    (shares : list (string * Q)) :
  total == 0 -> values <> [] -> hhi_loop values total hhi shares = None.
Proof.
  intros Ht Hne. destruct values as [| [sector v] rest]; [congruence |]. cbn.
  apply Qeq_bool_iff in Ht. now rewrite Ht.
Qed.










(** The sector table of the model and the factor 1000, with [sum] adding
    from left to right. *)
Example hhi_of_default_table_scaled_by_1000 :
  let sectors :=
    [ ("rmg"%string, 38.0%float); ("leather"%string, 1.8%float);
      ("jute"%string, 1.2%float); ("frozen_food"%string, 0.7%float);
      ("pharma"%string, 0.16%float); ("it_services"%string, 1.3%float);
      ("light_engineering"%string, 0.5%float); ("agro_processing"%string, 0.8%float);
      ("home_textiles"%string, 1.0%float); ("shipbuilding"%string, 0.3%float) ] in
  StructuralFloat.calculate_export_diversification sectors
  = Some 0.69383053572301856%float
  /\ StructuralFloat.calculate_export_diversification (StructuralFloat.rescale 1000 sectors)
     = Some 0.69383053572301823%float
  /\ StructuralFloat.calculate_export_diversification (StructuralFloat.rescale 1024 sectors)
     = Some 0.69383053572301856%float.
Proof. vm_compute. repeat split. Qed.


(** C10, as amended.  For a model with at least one sector,
    [calculate_export_diversification] returns an index exactly when the
    total of the sector values is not zero; with every sector value zero it
    ends in the division error and leaves the model as it was.  With no
    sector at all the loop does not run and the call returns 0. *)
Theorem diversification_defined_iff_total_nonzero
    (self : StructuralTransformationModel) (year : Z) :
  (export_sectors self <> [] ->
     ((exists s hhi, calculate_export_diversification self year = Py.Returned s hhi)
      <-> ~ total_exports_of self == 0)
     /\ (Forall (fun sd => value (snd sd) == 0) (export_sectors self) ->
         calculate_export_diversification self year
         = Py.Raised self "float division by zero"))
  /\ (export_sectors self = [] ->
      exists s, calculate_export_diversification self year = Py.Returned s 0).
Proof.
  split.
  - intros Hne.
    assert (Hvalues : export_values (export_sectors self) <> []).
    { unfold export_values. destruct (export_sectors self); [congruence | discriminate]. }
    assert (Hzero : total_exports_of self == 0 ->
                    calculate_export_diversification self year
                    = Py.Raised self "float division by zero").
    { intros Ht. unfold calculate_export_diversification.
      fold (total_exports_of self). now rewrite hhi_loop_zero. }
    split; [split |].
    + intros (s & hhi & Hret) Ht. rewrite (Hzero Ht) in Hret. discriminate.
    + intros Ht. unfold calculate_export_diversification.
      fold (total_exports_of self). rewrite hhi_loop_nonzero by assumption. eauto.
    + intros Hall. apply Hzero.
      unfold total_exports_of, Py.sum. apply sum_from_zero.
      unfold Py.values, export_values. rewrite map_map. cbn [snd fst].
      assert (Hmap : forall l : list (string * SectorData),
                 Forall (fun sd => value (snd sd) == 0) l ->
                 Forall (fun v => v == 0) (map (fun sd => value (snd sd)) l))
        by (intros l Hl; induction Hl; cbn; constructor; assumption).
      apply Hmap, Hall.
  - intros Hnil. unfold calculate_export_diversification. rewrite Hnil. cbn. eauto.
Qed.

Lemma diversification_defined_iff_total_nonzero_witness :
  let zero := {| value := 0; complexity := 0.3; value_chain_position := 0.25 |} in
  let self := init [("rmg"%string, zero); ("jute"%string, zero)] in
  export_sectors self <> []
  /\ Forall (fun sd => value (snd sd) == 0) (export_sectors self)
  /\ calculate_export_diversification self 2025 = Py.Raised self "float division by zero".
Proof.
  set (zero := {| value := 0; complexity := 0.3; value_chain_position := 0.25 |}).
  set (self := init [("rmg"%string, zero); ("jute"%string, zero)]).
  assert (Hne : export_sectors self <> []) by discriminate.
  assert (Hall : Forall (fun sd => value (snd sd) == 0) (export_sectors self))
    by (repeat constructor).
  split; [exact Hne | split; [exact Hall |]].
  exact (proj2 (proj1 (diversification_defined_iff_total_nonzero self 2025) Hne) Hall).
Defined.

(** C10, as stated, fails on a model with no sectors: the total is zero,
    yet the call returns the index 0 and no division is attempted. *)
Lemma diversification_empty_returns_zero :
  total_exports_of (init []) == 0
  /\ Forall (fun sd => value (snd sd) == 0) (export_sectors (init []))
  /\ exists s, calculate_export_diversification (init []) 2025 = Py.Returned s 0.
Proof.
  split; [reflexivity | split; [constructor |]]. cbn. eauto.
Qed.

Lemma upgrade_sector_not_below (capability : Q) (data : SectorData) (random_effect : Q) :
  0 <= capability -> 0 <= complexity data ->
  0 <= value_chain_position data <= 0.95 ->
  -0.005 <= random_effect <= 0.015 ->
  value_chain_position data
  <= value_chain_position (upgrade_sector capability data random_effect).
Proof.
  intros Hc Hx [Hp0 Hp1] [Hr0 Hr1]. cbn [upgrade_sector value_chain_position].
  assert (Hup : 0 <= (0.01 + capability * 0.02 + complexity data * 0.01 + random_effect)
                     * (1 - value_chain_position data * 0.7))
    by (apply Qmult_le_0_compat; lra).
  unfold Py.min.
  match goal with |- context [Qlt_le_dec ?a ?b] => destruct (Qlt_le_dec a b) end; lra.
Qed.

Lemma upgrade_loop_not_below (capability : Q) (draw : nat -> Q)
    (sectors : list (string * SectorData)) (i : nat) :
  0 <= capability ->
  Forall (fun sd => 0 <= value_chain_position (snd sd) <= 0.95
                    /\ 0 <= complexity (snd sd)) sectors ->
  (forall j, -0.005 <= draw j <= 0.015) ->
  Forall2 (fun old new => fst old = fst new
                          /\ value_chain_position (snd old) <= value_chain_position (snd new))
          sectors (upgrade_loop capability draw i sectors).
Proof.
  intros Hc Hs Hd. revert i.
  induction Hs as [| [sector data] rest [Hp Hx] _ IH]; intros i; cbn; constructor.
  - split; [reflexivity |]. cbn [snd] in *. now apply upgrade_sector_not_below.
  - apply IH.
Qed.

(** C4.  One step of [simulate_value_chain_upgrading] leaves no sector
    with a lower [value_chain_position] than it had, when every position is
    in [0, 0.95], complexities and the capability index are not negative
    and every random component lies in [-0.005, 0.015]. *)
Theorem value_chain_position_never_decreases
    (self : StructuralTransformationModel) (year : Z) (draw : nat -> Q) :
  0 <= capability_index self ->
  Forall (fun sd => 0 <= value_chain_position (snd sd) <= 0.95
                    /\ 0 <= complexity (snd sd)) (export_sectors self) ->
  (forall i, -0.005 <= draw i <= 0.015) ->
  Forall2 (fun old new => fst old = fst new
                          /\ value_chain_position (snd old) <= value_chain_position (snd new))
          (export_sectors self)
          (export_sectors (state_of (simulate_value_chain_upgrading self year draw))).
Proof.
  intros Hc Hs Hd.
  assert (Hloop := upgrade_loop_not_below (capability_index self) draw
                     (export_sectors self) 0 Hc Hs Hd).
  unfold simulate_value_chain_upgrading.
  destruct (positions_of _); cbn [state_of export_sectors]; exact Hloop.
Qed.

Lemma value_chain_position_never_decreases_witness :
  let self := init default_export_sectors in
  let draw := fun _ : nat => -0.005 in
  0 <= capability_index self
  /\ Forall (fun sd => 0 <= value_chain_position (snd sd) <= 0.95
                       /\ 0 <= complexity (snd sd)) (export_sectors self)
  /\ (forall i, -0.005 <= draw i <= 0.015)
  /\ Forall2 (fun old new => fst old = fst new
                /\ value_chain_position (snd old) <= value_chain_position (snd new))
       (export_sectors self)
       (export_sectors (state_of (simulate_value_chain_upgrading self 2025 draw))).
Proof.
  assert (Hc : 0 <= capability_index (init default_export_sectors)) by (cbn; lra).
  assert (Hs : Forall (fun sd => 0 <= value_chain_position (snd sd) <= 0.95
                                 /\ 0 <= complexity (snd sd))
                 (export_sectors (init default_export_sectors)))
    by (cbn; repeat constructor; cbn; lra).
  assert (Hd : forall i : nat, -0.005 <= (fun _ : nat => -0.005) i <= 0.015)
    by (intros i; cbn; lra).
  split; [exact Hc | split; [exact Hs | split; [exact Hd |]]].
  exact (value_chain_position_never_decreases (init default_export_sectors) 2025
           (fun _ => -0.005) Hc Hs Hd).
Defined.

End StructuralProperties.

(** ** Exchange rate *)

Section ExchangeRateProperties.

Import ExchangeRate.

(** C3.  On inputs for which the method returns (non-zero imports, a
    volatility NumPy accepts), a potential depreciation whose absolute value
    does not exceed the intervention threshold is applied as it is: the
    depreciation rate is the potential one, the intervention cost is 0 and
    the reserves change by the overall balance only, whatever the
    intervention stance in [central_bank_policy] is. *)
Theorem no_intervention_within_threshold
    (self : ExchangeRateModel) (yi : Z)
    (balance_of_payments central_bank_policy global_conditions : list (string * Q))
    (noise : Q) :
  ~ Py.get balance_of_payments "imports" 0 == 0 ->
  0 <= volatility self ->
  exists self' results,
    simulate_exchange_rate self yi balance_of_payments central_bank_policy
      global_conditions noise = Py.Returned self' results
    /\ (Qabs (potential_depreciation results) <= intervention_threshold self ->
        depreciation_rate results = potential_depreciation results
        /\ intervention_cost results = 0
        /\ foreign_reserves self'
           = foreign_reserves self + overall_balance_of balance_of_payments
        /\ r_foreign_reserves results = foreign_reserves self').
Proof.
  intros Himports Hvol. unfold simulate_exchange_rate.
  destruct (Qeq_bool _ 0) eqn:E; [apply Qeq_bool_iff in E; contradiction |].
  destruct (Qlt_le_dec (volatility self) 0) as [Hneg | _]; [lra |].
  do 2 eexists. split; [reflexivity |].
  cbn [potential_depreciation depreciation_rate intervention_cost foreign_reserves
       r_foreign_reserves].
  intros Hwithin.
  destruct (Qlt_le_dec (intervention_threshold self) _) as [Habove | _]; [lra |].
  repeat split.
Qed.

Lemma no_intervention_within_threshold_witness :
  let self := init [] in
  let bop :=
    [ ("exports"%string, 50000); ("imports"%string, 60000);
      ("remittances"%string, 20000); ("fdi"%string, 3000);
      ("aid_loans"%string, 1000); ("profit_repatriation"%string, 1500);
      ("other_outflows"%string, 500) ] in
  let policy := [("intervention_stance"%string, 1)] in
  ~ Py.get bop "imports" 0 == 0
  /\ 0 <= volatility self
  /\ exists self' results,
       simulate_exchange_rate self 0 bop policy [] 0 = Py.Returned self' results
       /\ (Qabs (potential_depreciation results) <= intervention_threshold self ->
           depreciation_rate results = potential_depreciation results
           /\ intervention_cost results = 0
           /\ foreign_reserves self' = foreign_reserves self + overall_balance_of bop
           /\ r_foreign_reserves results = foreign_reserves self').
Proof.
  set (bop := [ ("exports"%string, 50000); ("imports"%string, 60000);
                ("remittances"%string, 20000); ("fdi"%string, 3000);
                ("aid_loans"%string, 1000); ("profit_repatriation"%string, 1500);
                ("other_outflows"%string, 500) ]).
  assert (Hi : ~ Py.get bop "imports" 0 == 0) by (vm_compute; discriminate).
  assert (Hv : 0 <= volatility (init [])) by (vm_compute; discriminate).
  split; [exact Hi | split; [exact Hv |]].
  exact (no_intervention_within_threshold (init []) 0 bop
           [("intervention_stance"%string, 1)] [] 0 Hi Hv).
Defined.

(** At the placeholder balance of payments of the engine, an intervention
    stance of 1 and a zero noise draw, the potential depreciation is within
    the threshold and the central bank stays out. *)
Example placeholder_year_has_no_intervention :
  let bop :=
    [ ("exports"%string, 50000); ("imports"%string, 60000);
      ("remittances"%string, 20000); ("fdi"%string, 3000);
      ("aid_loans"%string, 1000); ("profit_repatriation"%string, 1500);
      ("other_outflows"%string, 500) ] in
  match simulate_exchange_rate (init []) 0 bop [("intervention_stance"%string, 1)] [] 0 with
  | Py.Returned self' results =>
      Qabs (potential_depreciation results) <= 0.08
      /\ intervention_cost results == 0
      /\ depreciation_rate results == potential_depreciation results
  | Py.Raised _ _ => False
  end.
Proof. vm_compute. repeat split; discriminate. Qed.

End ExchangeRateProperties.

(** ** Trade wars: the record of a year and the objects it shares *)

Section TradeWarProperties.

Import TradeWars TradeWarScenario.

(** C7, the failing run.  The dictionary returned for 2025 holds, under
    ['active_trade_wars'], the very per-conflict object the model keeps; the
    simulation of 2026 writes a new intensity into that object, so what the
    record of 2025 shows for the US-China conflict afterwards (0.85) is not
    what it showed when it was stored (0.75).  The copy under
    ['new_trade_wars'] still has the intensity of the moment it was made. *)
Theorem record_of_2025_changed_by_2026 :
  exists record stored_then stored_now,
    result_of year_2025 = Some record
    /\ read_active_trade_wars (heap (state_of year_2025)) record
       = [("us_china"%string, Some stored_then)]
    /\ read_active_trade_wars (heap (state_of year_2026)) record
       = [("us_china"%string, Some stored_now)]
    /\ intensity stored_then == 0.75
    /\ intensity stored_now == 0.85
    /\ exists copied, new_trade_wars record = [("us_china"%string, copied)]
                      /\ intensity copied == 0.7.
Proof.
  vm_compute. do 3 eexists.
  split; [reflexivity |]. split; [reflexivity |]. split; [reflexivity |].
  split; [reflexivity |]. split; [reflexivity |].
  eexists. split; reflexivity.
Qed.

End TradeWarProperties.

(** ** The engine *)

Lemma lookup_setitem_eq {K A} `{EqDecision K} (d : list (K * A)) (k : K) (v : A) :
  Py.lookup (Py.setitem d k v) k = Some v.
Proof.
  induction d as [| [k' v'] d IH]; cbn.
  - destruct (decide (k = k)); congruence.
  - destruct (decide (k' = k)) as [-> | Hne]; cbn.
    + destruct (decide (k = k)); congruence.
    + destruct (decide (k' = k)); [contradiction | exact IH].
Qed.

Lemma lookup_setitem_ne {K A} `{EqDecision K} (d : list (K * A)) (k k0 : K) (v : A) :
  k <> k0 -> Py.lookup (Py.setitem d k v) k0 = Py.lookup d k0.
Proof.
  intros Hne. induction d as [| [k' v'] d IH]; cbn.
  - destruct (decide (k = k0)); [contradiction | reflexivity].
  - destruct (decide (k' = k)) as [-> | Hk]; cbn.
    + destruct (decide (k = k0)); [contradiction | reflexivity].
    + destruct (decide (k' = k0)); [reflexivity | exact IH].
Qed.

Lemma keys_setitem_new {K A} `{EqDecision K} (d : list (K * A)) (k : K) (v : A) :
  ~ In k (Py.keys d) -> Py.keys (Py.setitem d k v) = Py.keys d ++ [k].
Proof.
  induction d as [| [k' v'] d IH]; cbn; intros Hnot; [reflexivity |].
  destruct (decide (k' = k)) as [-> | Hk]; [tauto |].
  cbn. f_equal. apply IH. tauto.
Qed.

Section EngineProperties.

Import Json Engine.

Context {W R : Type} `{Models W R}.

Lemma attempt_calls (k : key) (call : W -> Py.outcome W R) (p p' : Process W R)
    (e : entry R) :
  attempt k call p = (p', e) -> calls p' = calls p ++ [(k, e)].
Proof.
  unfold attempt. destruct (call (world p)); intros [= <- <-]; reflexivity.
Qed.

(** A loop whose every pass ends in [settle] records one call per name and
    leaves, under each name, the entry it recorded. *)
Lemma settled_loop (K : string -> key)
    (step : Process W R * Q * list (string * entry R) -> string
            -> Process W R * Q * list (string * entry R)) :
  (forall p t d name, exists e w t', step (p, t, d) name = settle (K name) name e w p t' d) ->
  forall names p t d,
    NoDup names ->
    (forall n, In n names -> Py.lookup d n = None) ->
    exists made,
      calls (fst (fst (fold_left step names (p, t, d)))) = calls p ++ made
      /\ map fst made = map K names
      /\ (forall n e, In (K n, e) made ->
          (forall n', K n' = K n -> n' = n) ->
          Py.lookup (snd (fold_left step names (p, t, d))) n = Some e)
      /\ (forall n, ~ In n names ->
          Py.lookup (snd (fold_left step names (p, t, d))) n = Py.lookup d n).
Proof.
  intros Hstep names.
  induction names as [| name rest IH]; intros p t d Hnodup Hfresh.
  - exists []. cbn. rewrite app_nil_r.
    split; [reflexivity | split; [reflexivity | split; [intros ? ? [] | reflexivity]]].
  - destruct (Hstep p t d name) as (e & w & t' & Hs).
    cbn [fold_left]. rewrite Hs. unfold settle.
    apply NoDup_cons in Hnodup as [Hnotin Hnodup].
    destruct (IH {| world := w; calls := calls p ++ [(K name, e)] |} t'
                 (Py.setitem d name e) Hnodup) as (made & Hcalls & Hkeys & Hin & Hout).
    { intros n Hn. rewrite lookup_setitem_ne.
      - apply Hfresh. now right.
      - intros ->. apply Hnotin. now apply list_elem_of_In. }
    exists ((K name, e) :: made). repeat split.
    + rewrite Hcalls. cbn [calls]. now rewrite <- app_assoc.
    + cbn. now rewrite Hkeys.
    + intros n e0 [Heq | Hmade] Hinj.
      * injection Heq as Hk <-. apply Hinj in Hk. subst n.
        rewrite Hout by (intros Hc; apply Hnotin; now apply list_elem_of_In).
        apply lookup_setitem_eq.
      * now apply Hin.
    + intros n Hn. rewrite Hout by (intros Hc; apply Hn; now right).
      apply lookup_setitem_ne. intros ->. apply Hn. now left.
Qed.


Lemma export_step_settles (year_index : Z) (verbose : bool) (up : Upstream R)
    (p : Process W R) (t : Q) (d : list (string * entry R)) (name : string) :
  exists e w t',
    export_step year_index verbose up (p, t, d) name
    = settle (SectorKey name) name e w p t' d.
Proof.
  unfold export_step.
  destruct (export_simulate_year _ _ _ _) as [w r | w msg]; [| eauto].
  destruct (as_number _); [| eauto].
  destruct (verbose && negb _); eauto.
Qed.

Lemma import_step_settles (year_index : Z) (up : Upstream R)
    (p : Process W R) (t : Q) (d : list (string * entry R)) (name : string) :
  exists e w t',
    import_step year_index up (p, t, d) name
    = settle (CategoryKey name) name e w p t' d.
Proof.
  unfold import_step.
  destruct (simulate_import_needs _ _ _ _) as [w r | w msg]; [| eauto].
  destruct (as_number _); eauto.
Qed.

Lemma made_key_is_named {A} (K : string -> key) (made : list (key * A))
    (names : list string) (k : key) (e : A) :
  map fst made = map K names -> In (k, e) made -> exists n, k = K n.
Proof.
  intros Hkeys Hin.
  assert (Hk : In k (map K names)).
  { rewrite <- Hkeys. apply in_map_iff. now exists (k, e). }
  apply in_map_iff in Hk as (n & <- & _). now exists n.
Qed.

(** One simulated year: every guarded call is made, whatever the calls
    before it did; what each left is what the year's results hold under its
    key; and the only exception that leaves [simulate_year] is the one of
    the division by [gdp] in the aggregation. *)
Lemma simulate_year_guards (self : TradeSimulationEngine R) (p : Process W R)
    (year : Z) (verbose : bool) :
  NoDup (export_models self) ->
  NoDup (import_models self) ->
  exists made,
    calls (state_of (simulate_year self p year verbose)) = calls p ++ made
    /\ map fst made = guarded_calls self
    /\ (forall p' yr,
          simulate_year self p year verbose = Py.Returned p' yr ->
          forall k e, In (k, e) made -> lookup_entry yr k = Some e)
    /\ (forall p' msg,
          simulate_year self p year verbose = Py.Raised p' msg ->
          exists e total_exports total_imports,
            In (ModelKey "investment", e) made
            /\ aggregate (world p') (conditions e) total_exports total_imports = inl msg).
Proof.
  intros Hexp Himp. unfold simulate_year.
  destruct (attempt (ModelKey "global_market") _ p) as [p1 e1] eqn:A1.
  destruct (attempt (ModelKey "geopolitical") _ p1) as [p2 e2] eqn:A2.
  destruct (attempt (ModelKey "investment") _ p2) as [p3 e3] eqn:A3.
  destruct (attempt (ModelKey "trade_policy") _ p3) as [p4 e4] eqn:A4.
  destruct (attempt (ModelKey "logistics") _ p4) as [p5 e5] eqn:A5.
  destruct (attempt (ModelKey "exchange_rate") _ p5) as [p6 e6] eqn:A6.
  destruct (attempt (ModelKey "compliance") _ p6) as [p7 e7] eqn:A7.
  destruct (attempt (ModelKey "structural_transformation") _ p7) as [p8 e8] eqn:A8.
  destruct (attempt (ModelKey "digital_trade") _ p8) as [p9 e9] eqn:A9.
  destruct (attempt (ModelKey "services_trade") _ p9) as [p10 e10] eqn:A10.
  apply attempt_calls in A1, A2, A3, A4, A5, A6, A7, A8, A9, A10.
  set (up := {| global_conditions := conditions e1 |}).
  destruct (settled_loop SectorKey (export_step (year - start_year self) verbose up)
              (export_step_settles _ _ _) (export_models self) p10 0 [] Hexp
              ltac:(reflexivity)) as (made_x & Hcx & Hkx & Hinx & _).
  destruct (fold_left (export_step _ _ _) _ _) as [[p11 te] dx] eqn:Fx.
  cbn [fst snd] in Hcx, Hinx.
  destruct (settled_loop CategoryKey (import_step (year - start_year self) up)
              (import_step_settles _ _) (import_models self) p11 0 [] Himp
              ltac:(reflexivity)) as (made_i & Hci & Hki & Hini & _).
  destruct (fold_left (import_step _ _) _ _) as [[p12 ti] di] eqn:Fi.
  cbn [fst snd] in Hci, Hini.
  exists ([ (ModelKey "global_market", e1); (ModelKey "geopolitical", e2);
            (ModelKey "investment", e3); (ModelKey "trade_policy", e4);
            (ModelKey "logistics", e5); (ModelKey "exchange_rate", e6);
            (ModelKey "compliance", e7); (ModelKey "structural_transformation", e8);
            (ModelKey "digital_trade", e9); (ModelKey "services_trade", e10) ]
          ++ made_x ++ made_i).
  assert (Hcalls : calls p12 = calls p ++
            ([ (ModelKey "global_market", e1); (ModelKey "geopolitical", e2);
               (ModelKey "investment", e3); (ModelKey "trade_policy", e4);
               (ModelKey "logistics", e5); (ModelKey "exchange_rate", e6);
               (ModelKey "compliance", e7); (ModelKey "structural_transformation", e8);
               (ModelKey "digital_trade", e9); (ModelKey "services_trade", e10) ]
             ++ made_x ++ made_i)).
  { rewrite Hci, Hcx, A10, A9, A8, A7, A6, A5, A4, A3, A2, A1.
    repeat rewrite <- app_assoc. reflexivity. }
  split; [| split; [| split]].
  - destruct (aggregate _ _ _ _); exact Hcalls.
  - unfold guarded_calls. rewrite !map_app, Hkx, Hki. reflexivity.
  - intros p' yr Hret.
    destruct (aggregate _ _ _ _) as [msg | metrics]; [discriminate |].
    injection Hret as <- <-.
    intros k e Hin. apply in_app_or in Hin as [Hmodel | Hin].
    + cbn in Hmodel.
      repeat (destruct Hmodel as [[= <- <-] | Hmodel]; [reflexivity |]).
      destruct Hmodel.
    + apply in_app_or in Hin as [Hx | Hi].
      * destruct (made_key_is_named _ _ _ _ _ Hkx Hx) as [n ->].
        cbn [lookup_entry export sector_details].
        apply Hinx; [exact Hx | now intros n' [= ->]].
      * destruct (made_key_is_named _ _ _ _ _ Hki Hi) as [n ->].
        cbn [lookup_entry import category_details].
        apply Hini; [exact Hi | now intros n' [= ->]].
  - intros p' msg Hraise.
    destruct (aggregate _ _ _ _) as [msg' | metrics] eqn:Hagg; [| discriminate].
    injection Hraise as <- <-.
    exists e3, te, ti. split; [| exact Hagg].
    cbn. tauto.
Qed.


Lemma run_years_raises_in_a_year (years : list Z) :
  forall (self : TradeSimulationEngine R) (st : Run) (verbose : bool) s' msg,
    run_years self st years verbose = Py.Raised s' msg ->
    exists year self_y p_y,
      In year years
      /\ start_year self_y = start_year self
      /\ scenario self_y = scenario self
      /\ export_models self_y = export_models self
      /\ import_models self_y = import_models self
      /\ simulate_year self_y p_y year verbose = Py.Raised (process (snd s')) msg.
Proof.
  induction years as [| year rest IH]; intros self st verbose s' msg Hrun; [discriminate |].
  cbn [run_years] in Hrun.
  destruct (simulate_year (set_current_year self year) (process st) year verbose)
    as [p yr | p msg'] eqn:Hyear.
  - apply IH in Hrun as (y & self_y & p_y & Hin & Hs & Hc & Hx & Hi & Hraise).
    exists y, self_y, p_y.
    repeat split; [now right | exact Hs | exact Hc | exact Hx | exact Hi | exact Hraise].
  - injection Hrun as <- <-.
    exists year, (set_current_year self year), (process st).
    repeat split; [now left | exact Hyear].
Qed.

Lemma attempt_guarded (k : key) (call : W -> Py.outcome W R) (p p' : Process W R)
    (e : entry R) :
  attempt k call p = (p', e) ->
  world p' = state_of (call (world p))
  /\ e = match call (world p) with
         | Py.Returned _ r => Obj r
         | Py.Raised _ msg => Error msg
         end.
Proof.
  unfold attempt. destruct (call (world p)); intros [= <- <-]; split; reflexivity.
Qed.

(** A loop whose every pass makes one call in the state the pass before
    left and ends in [settle]: the calls are made one after the other
    whatever they do, and under each name stands what its pass left. *)
Lemma traced_loop (K : string -> key)
    (step : Process W R * Q * list (string * entry R) -> string
            -> Process W R * Q * list (string * entry R))
    (call : string -> W -> Py.outcome W R) (ent : string -> W -> entry R) :
  (forall p t d name, exists t',
      step (p, t, d) name
      = settle (K name) name (ent name (world p)) (state_of (call name (world p))) p t' d) ->
  forall names p t d,
    NoDup names ->
    world (fst (fst (fold_left step names (p, t, d))))
    = fold_left (fun w name => state_of (call name w)) names (world p)
    /\ (forall before name after,
          names = before ++ name :: after ->
          Py.lookup (snd (fold_left step names (p, t, d))) name
          = Some (ent name (fold_left (fun w n => state_of (call n w)) before (world p))))
    /\ (forall n, ~ In n names ->
        Py.lookup (snd (fold_left step names (p, t, d))) n = Py.lookup d n).
Proof.
  intros Hstep names.
  induction names as [| name0 rest IH]; intros p t d Hnodup.
  - cbn. split; [reflexivity | split; [| reflexivity]].
    intros [| ? ?] ? ? Heq; discriminate.
  - destruct (Hstep p t d name0) as (t' & Hs).
    cbn [fold_left]. rewrite Hs. unfold settle.
    apply NoDup_cons in Hnodup as [Hnotin Hnodup].
    rewrite list_elem_of_In in Hnotin.
    destruct (IH {| world := state_of (call name0 (world p));
                    calls := calls p ++ [(K name0, ent name0 (world p))] |} t'
                 (Py.setitem d name0 (ent name0 (world p))) Hnodup)
      as (Hworld & Hin & Hout).
    cbn [world] in Hworld, Hin.
    split; [exact Hworld | split].
    + intros [| b before] name after Heq; cbn in Heq; injection Heq as <- Hrest.
      * rewrite Hout by exact Hnotin. apply lookup_setitem_eq.
      * cbn [fold_left]. now apply (Hin before name after).
    + intros n Hn. rewrite Hout by (intros Hc; apply Hn; now right).
      apply lookup_setitem_ne. intros ->. apply Hn. now left.
Qed.

Lemma export_step_traces (year_index : Z) (verbose : bool) (up : Upstream R)
    (p : Process W R) (t : Q) (d : list (string * entry R)) (name : string) :
  exists t',
    export_step year_index verbose up (p, t, d) name
    = settle (SectorKey name) name
        (match export_simulate_year name (world p) year_index
                 (sector_inputs (world p) up) with
         | Py.Raised _ msg => Error msg
         | Py.Returned w r =>
             match as_number (Py.get (read w r) "export_volume" (VNum 0)) with
             | None => Error (exc_text (Py.get (read w r) "export_volume" (VNum 0)))
             | Some _ =>
                 if verbose && negb (is_number (Py.get (read w r) "growth_rate" (VNum 0)))
                 then Error (exc_text (Py.get (read w r) "growth_rate" (VNum 0)))
                 else Obj r
             end
         end)
        (state_of (export_simulate_year name (world p) year_index
                     (sector_inputs (world p) up)))
        p t' d.
Proof.
  unfold export_step.
  destruct (export_simulate_year _ _ _ _) as [w r | w msg]; [| eauto].
  destruct (as_number _); [| eauto].
  destruct (verbose && negb _); eauto.
Qed.

Lemma import_step_traces (year_index : Z) (up : Upstream R)
    (p : Process W R) (t : Q) (d : list (string * entry R)) (name : string) :
  exists t',
    import_step year_index up (p, t, d) name
    = settle (CategoryKey name) name
        (match simulate_import_needs name (world p) year_index
                 (category_inputs (world p) up) with
         | Py.Raised _ msg => Error msg
         | Py.Returned w r =>
             match as_number (Py.get (read w r) "import_volume" (VNum 0)) with
             | None => Error (exc_text (Py.get (read w r) "import_volume" (VNum 0)))
             | Some _ => Obj r
             end
         end)
        (state_of (simulate_import_needs name (world p) year_index
                     (category_inputs (world p) up)))
        p t' d.
Proof.
  unfold import_step.
  destruct (simulate_import_needs _ _ _ _) as [w r | w msg]; [| eauto].
  destruct (as_number _); eauto.
Qed.

(** [simulate_year] reads of the engine its first year, its scenario and
    its two tables of models. *)
Lemma simulate_year_reads (a b : TradeSimulationEngine R) (p : Process W R) (year : Z)
    (verbose : bool) :
  start_year a = start_year b ->
  scenario a = scenario b ->
  export_models a = export_models b ->
  import_models a = import_models b ->
  simulate_year a p year verbose = simulate_year b p year verbose.
Proof.
  intros Hstart Hscen Hx Hi. unfold simulate_year.
  rewrite Hstart, Hscen, Hx, Hi. reflexivity.
Qed.

(** A year returns when the [gdp] of the investment result can be divided
    by. *)
Lemma simulate_year_returns (self : TradeSimulationEngine R) (p : Process W R)
    (year : Z) (verbose : bool) :
  (forall w y gl ge w' r w'',
     investment_simulate_step w y gl ge = Py.Returned w' r ->
     exists g, as_number (Py.get (read w'' r) "gdp" (VNum 1)) = Some g
               /\ Qeq_bool g 0 = false) ->
  exists p' yr, simulate_year self p year verbose = Py.Returned p' yr.
Proof.
  intros Hgdp. unfold simulate_year.
  destruct (attempt (ModelKey "global_market") _ p) as [p1 e1].
  destruct (attempt (ModelKey "geopolitical") _ p1) as [p2 e2].
  destruct (attempt (ModelKey "investment") _ p2) as [p3 e3] eqn:A3.
  destruct (attempt (ModelKey "trade_policy") _ p3) as [p4 e4].
  destruct (attempt (ModelKey "logistics") _ p4) as [p5 e5].
  destruct (attempt (ModelKey "exchange_rate") _ p5) as [p6 e6].
  destruct (attempt (ModelKey "compliance") _ p6) as [p7 e7].
  destruct (attempt (ModelKey "structural_transformation") _ p7) as [p8 e8].
  destruct (attempt (ModelKey "digital_trade") _ p8) as [p9 e9].
  destruct (attempt (ModelKey "services_trade") _ p9) as [p10 e10].
  destruct (fold_left (export_step _ _ _) _ _) as [[p11 te] dx].
  destruct (fold_left (import_step _ _) _ _) as [[p12 ti] di].
  assert (Hagg : exists m, aggregate (world p12) (conditions e3) te ti = inr m).
  { apply attempt_guarded in A3 as [_ ->]. unfold aggregate.
    destruct (investment_simulate_step _ _ _ _) as [w' r | w' msg] eqn:Hcall.
    - destruct (Hgdp _ _ _ _ _ _ (world p12) Hcall) as (g & Hg & Hnz).
      cbn [conditions items]. rewrite Hg, Hnz. eauto.
    - cbn. eauto. }
  destruct Hagg as [m ->]. eauto.
Qed.

(** The years of a run that returns: each is simulated and stored under
    its number, in order. *)
Lemma run_years_stores (years : list Z) :
  forall (self : TradeSimulationEngine R) (st : Run) (verbose : bool) e' st',
    run_years self st years verbose = Py.Returned (e', st') tt ->
    NoDup years ->
    (forall y, In y years -> ~ In y (Py.keys (yearly_data self))) ->
    Py.keys (yearly_data e') = Py.keys (yearly_data self) ++ years
    /\ (forall y, ~ In y years ->
        Py.lookup (yearly_data e') y = Py.lookup (yearly_data self) y)
    /\ (forall y, In y years ->
        exists p p' yr,
          Py.lookup (yearly_data e') y = Some yr
          /\ simulate_year self p y verbose = Py.Returned p' yr).
Proof.
  induction years as [| year rest IH]; intros self st verbose e' st' Hrun Hnodup Hfresh.
  - injection Hrun as <- <-. rewrite app_nil_r.
    split; [reflexivity | split; [reflexivity | intros y []]].
  - cbn [run_years] in Hrun.
    destruct (simulate_year (set_current_year self year) (process st) year verbose)
      as [p yr | p msg] eqn:Hyear; [| discriminate].
    apply NoDup_cons in Hnodup as [Hnotin Hnodup].
    rewrite list_elem_of_In in Hnotin.
    apply IH in Hrun as (Hkeys & Hout & Hin); [| exact Hnodup |].
    + cbn [yearly_data store_year set_current_year] in Hkeys, Hout.
      split; [| split].
      * rewrite Hkeys, keys_setitem_new by (apply Hfresh; now left).
        now rewrite <- app_assoc.
      * intros y Hy. rewrite Hout by (intros Hc; apply Hy; now right).
        apply lookup_setitem_ne. intros ->. apply Hy. now left.
      * intros y [<- | Hy].
        -- exists (process st), p, yr. split.
           ++ rewrite Hout by exact Hnotin. apply lookup_setitem_eq.
           ++ rewrite <- Hyear. now apply simulate_year_reads.
        -- destruct (Hin y Hy) as (q & q' & yr' & Hl & Hs).
           exists q, q', yr'. split; [exact Hl |].
           rewrite <- Hs. now apply simulate_year_reads.
    + intros y Hy. cbn [yearly_data store_year set_current_year].
      rewrite keys_setitem_new by (apply Hfresh; now left).
      rewrite in_app_iff. intros [Hc | [-> | []]]; [| contradiction].
      apply (Hfresh y); [now right | exact Hc].
Qed.

Lemma run_years_returns (years : list Z) :
  forall (self : TradeSimulationEngine R) (st : Run) (verbose : bool),
    (forall w y gl ge w' r w'',
       investment_simulate_step w y gl ge = Py.Returned w' r ->
       exists g, as_number (Py.get (read w'' r) "gdp" (VNum 1)) = Some g
                 /\ Qeq_bool g 0 = false) ->
    exists e' st', run_years self st years verbose = Py.Returned (e', st') tt.
Proof.
  induction years as [| year rest IH]; intros self st verbose Hgdp; [cbn; eauto |].
  cbn [run_years].
  destruct (simulate_year_returns (set_current_year self year) (process st) year verbose
              Hgdp) as (p & yr & ->).
  apply IH, Hgdp.
Qed.

(** C5.  In [simulate_year] every model call is guarded on its own.  The
    ten model calls, then one call for each export sector and one for each
    import category, are made one after the other, each in the state the
    call before it left, whether that call returned or raised.  When the
    year returns, its results hold under each key what the call left: the
    result where it returned (for a sector or category, where the volume,
    and when [verbose] the growth rate, is a number), the marker
    [{'error': msg}] where it raised [msg].  The only exception that leaves
    [simulate_year] is the one of the division by [gdp] in the aggregation.
    [run_simulation] raises only what a year's aggregation raised; a run
    that returns has simulated and stored every year from the first to the
    last; and the run returns whenever the [gdp] of every investment result
    is a number other than zero, however many model calls raise. *)
Theorem model_exceptions_are_contained
    (self : TradeSimulationEngine R) (st : Run) (verbose : bool) :
  NoDup (export_models self) ->
  NoDup (import_models self) ->
  let entry_of (o : Py.outcome W R) : entry R :=
    match o with
    | Py.Returned _ r => Obj r
    | Py.Raised _ msg => Error msg
    end in
  let through (call : string -> W -> Py.outcome W R) (names : list string) (w : W) : W :=
    fold_left (fun w name => state_of (call name w)) names w in
  (forall (p : Process W R) (year : Z),
     let year_index := (year - start_year self)%Z in
     let o1 := simulate_global_markets (world p) year_index year (scenario self) in
     let global := conditions (entry_of o1) in
     let o2 := simulate_geopolitical_environment (state_of o1) year_index year in
     let o3 := investment_simulate_step (state_of o2) year global
                 (conditions (entry_of o2)) in
     let o4 := get_overall_policy_environment (state_of o3) year_index year in
     let o5 := simulate_logistics_performance (state_of o4) year_index year
                 100000 0.5 0.6 in
     let o6 := simulate_exchange_rate (state_of o5) year_index bop_estimate
                 cb_policy_estimate global in
     let o7 := simulate_compliance_environment (state_of o6) year_index year 0.6 0.7 in
     let o8 := structural_simulate_step (state_of o7) year in
     let o9 := digital_trade_simulate_step (state_of o8) year global in
     let o10 := services_trade_simulate_step (state_of o9) year global in
     let up :=
       {| global_conditions := global;
          investment_results := conditions (entry_of o3);
          trade_policy_results := conditions (entry_of o4);
          logistics_results := conditions (entry_of o5);
          exchange_rate_results := conditions (entry_of o6);
          compliance_results := conditions (entry_of o7);
          digital_trade_results := conditions (entry_of o9) |} in
     let sector (name : string) (w : W) :=
       export_simulate_year name w year_index (sector_inputs w up) in
     let category (name : string) (w : W) :=
       simulate_import_needs name w year_index (category_inputs w up) in
     let after_sectors := through sector (export_models self) (state_of o10) in
     world (state_of (simulate_year self p year verbose))
     = through category (import_models self) after_sectors
     /\ (forall p' yr,
           simulate_year self p year verbose = Py.Returned p' yr ->
           global_market yr = entry_of o1
           /\ geopolitical yr = entry_of o2
           /\ investment yr = entry_of o3
           /\ trade_policy yr = entry_of o4
           /\ logistics yr = entry_of o5
           /\ exchange_rate yr = entry_of o6
           /\ compliance yr = entry_of o7
           /\ structural_transformation yr = entry_of o8
           /\ digital_trade yr = entry_of o9
           /\ services_trade yr = entry_of o10
           /\ (forall before name rest,
                 export_models self = before ++ name :: rest ->
                 match sector name (through sector before (state_of o10)) with
                 | Py.Raised _ msg =>
                     Py.lookup (sector_details (export yr)) name = Some (Error msg)
                 | Py.Returned w r =>
                     let volume := Py.get (read w r) "export_volume" (VNum 0) in
                     let growth := Py.get (read w r) "growth_rate" (VNum 0) in
                     (is_number volume = true ->
                      verbose = false \/ is_number growth = true ->
                      Py.lookup (sector_details (export yr)) name = Some (Obj r))
                     /\ (is_number volume = false ->
                         Py.lookup (sector_details (export yr)) name
                         = Some (Error (exc_text volume)))
                     /\ (is_number volume = true ->
                         verbose = true ->
                         is_number growth = false ->
                         Py.lookup (sector_details (export yr)) name
                         = Some (Error (exc_text growth)))
                 end)
           /\ (forall before name rest,
                 import_models self = before ++ name :: rest ->
                 match category name (through category before after_sectors) with
                 | Py.Raised _ msg =>
                     Py.lookup (category_details (import yr)) name = Some (Error msg)
                 | Py.Returned w r =>
                     let volume := Py.get (read w r) "import_volume" (VNum 0) in
                     (is_number volume = true ->
                      Py.lookup (category_details (import yr)) name = Some (Obj r))
                     /\ (is_number volume = false ->
                         Py.lookup (category_details (import yr)) name
                         = Some (Error (exc_text volume)))
                 end))
     /\ (forall p' msg,
           simulate_year self p year verbose = Py.Raised p' msg ->
           exists total_exports total_imports,
             aggregate (world p') (conditions (entry_of o3)) total_exports total_imports
             = inl msg))
  /\ (forall s' msg,
        run_simulation self st verbose = Py.Raised s' msg ->
        exists year p,
          In year (years_of self)
          /\ simulate_year self p year verbose = Py.Raised (process (snd s')) msg)
  /\ (forall e' st',
        run_simulation self st verbose = Py.Returned (e', st') tt ->
        yearly_data self = [] ->
        Py.keys (yearly_data e') = years_of self
        /\ forall year,
             In year (years_of self) ->
             exists p p' yr,
               Py.lookup (yearly_data e') year = Some yr
               /\ simulate_year self p year verbose = Py.Returned p' yr)
  /\ ((forall w y gl ge w' r w'',
         investment_simulate_step w y gl ge = Py.Returned w' r ->
         exists g, as_number (Py.get (read w'' r) "gdp" (VNum 1)) = Some g
                   /\ Qeq_bool g 0 = false) ->
      exists e' st', run_simulation self st verbose = Py.Returned (e', st') tt).
Proof.
  intros Hexp Himp entry_of through.
  split; [| split; [| split]].
  - intros p year. cbv zeta. unfold simulate_year.
    destruct (attempt (ModelKey "global_market") _ p) as [p1 e1] eqn:A1.
    destruct (attempt (ModelKey "geopolitical") _ p1) as [p2 e2] eqn:A2.
    destruct (attempt (ModelKey "investment") _ p2) as [p3 e3] eqn:A3.
    destruct (attempt (ModelKey "trade_policy") _ p3) as [p4 e4] eqn:A4.
    destruct (attempt (ModelKey "logistics") _ p4) as [p5 e5] eqn:A5.
    destruct (attempt (ModelKey "exchange_rate") _ p5) as [p6 e6] eqn:A6.
    destruct (attempt (ModelKey "compliance") _ p6) as [p7 e7] eqn:A7.
    destruct (attempt (ModelKey "structural_transformation") _ p7) as [p8 e8] eqn:A8.
    destruct (attempt (ModelKey "digital_trade") _ p8) as [p9 e9] eqn:A9.
    destruct (attempt (ModelKey "services_trade") _ p9) as [p10 e10] eqn:A10.
    apply attempt_guarded in A1 as [W1 E1], A2 as [W2 E2], A3 as [W3 E3], A4 as [W4 E4],
      A5 as [W5 E5], A6 as [W6 E6], A7 as [W7 E7], A8 as [W8 E8], A9 as [W9 E9],
      A10 as [W10 E10].
    unfold entry_of.
    rewrite <- W1, <- E1, <- W2, <- E2, <- W3, <- E3, <- W4, <- E4, <- W5, <- E5,
      <- W6, <- E6, <- W7, <- E7, <- W8, <- E8, <- W9, <- E9, <- W10, <- E10.
    set (up := {| global_conditions := conditions e1 |}).
    destruct (traced_loop SectorKey (export_step (year - start_year self) verbose up)
                (fun name w =>
                   export_simulate_year name w (year - start_year self)
                     (sector_inputs w up))
                (fun name w =>
                   match export_simulate_year name w (year - start_year self)
                           (sector_inputs w up) with
                   | Py.Raised _ msg => Error msg
                   | Py.Returned w r =>
                       match as_number (Py.get (read w r) "export_volume" (VNum 0)) with
                       | None =>
                           Error (exc_text (Py.get (read w r) "export_volume" (VNum 0)))
                       | Some _ =>
                           if verbose
                              && negb (is_number
                                         (Py.get (read w r) "growth_rate" (VNum 0)))
                           then Error (exc_text
                                         (Py.get (read w r) "growth_rate" (VNum 0)))
                           else Obj r
                       end
                   end)
                (export_step_traces _ _ _) (export_models self) p10 0 [] Hexp)
      as (Hwx & Hinx & _).
    destruct (fold_left (export_step _ _ _) _ _) as [[p11 te] dx] eqn:Fx.
    cbn [fst snd] in Hwx, Hinx.
    destruct (traced_loop CategoryKey (import_step (year - start_year self) up)
                (fun name w =>
                   simulate_import_needs name w (year - start_year self)
                     (category_inputs w up))
                (fun name w =>
                   match simulate_import_needs name w (year - start_year self)
                           (category_inputs w up) with
                   | Py.Raised _ msg => Error msg
                   | Py.Returned w r =>
                       match as_number (Py.get (read w r) "import_volume" (VNum 0)) with
                       | None =>
                           Error (exc_text (Py.get (read w r) "import_volume" (VNum 0)))
                       | Some _ => Obj r
                       end
                   end)
                (import_step_traces _ _) (import_models self) p11 0 [] Himp)
      as (Hwi & Hini & _).
    destruct (fold_left (import_step _ _) _ _) as [[p12 ti] di] eqn:Fi.
    cbn [fst snd] in Hwi, Hini.
    unfold through. rewrite <- Hwx, <- Hwi.
    split; [destruct (aggregate _ _ _ _); reflexivity | split].
    + intros p' yr Hret.
      destruct (aggregate _ _ _ _) as [msg | metrics]; [discriminate |].
      injection Hret as <- <-. cbn.
      do 10 (split; [reflexivity |]). split.
      * intros before name rest Hsplit. specialize (Hinx before name rest Hsplit).
        rewrite Hinx.
        destruct (export_simulate_year _ _ _ _) as [w r | w msg]; [| reflexivity].
        unfold is_number.
        destruct (as_number (Py.get (read w r) "export_volume" (VNum 0))).
        -- split; [| split; [discriminate |]].
           ++ intros _ [-> | Hg]; [reflexivity |].
              destruct (as_number (Py.get (read w r) "growth_rate" (VNum 0)));
                [now rewrite andb_false_r | discriminate].
           ++ intros _ -> Hg.
              destruct (as_number (Py.get (read w r) "growth_rate" (VNum 0)));
                [discriminate | reflexivity].
        -- split; [discriminate | split; [reflexivity | discriminate]].
      * intros before name rest Hsplit. specialize (Hini before name rest Hsplit).
        rewrite Hini.
        destruct (simulate_import_needs _ _ _ _) as [w r | w msg]; [| reflexivity].
        unfold is_number.
        destruct (as_number (Py.get (read w r) "import_volume" (VNum 0)));
          split; (reflexivity || discriminate || (intros; reflexivity)).
    + intros p' msg Hraise.
      destruct (aggregate _ _ _ _) as [msg' | metrics] eqn:Hagg; [| discriminate].
      injection Hraise as <- <-. eauto.
  - intros s' msg Hrun.
    apply run_years_raises_in_a_year in Hrun as (year & self_y & p_y & Hin & Hs & Hc & Hx & Hi & Hy).
    exists year, p_y. split; [exact Hin |].
    rewrite <- Hy. symmetry. now apply simulate_year_reads.
  - intros e' st' Hrun Hempty. unfold run_simulation in Hrun.
    apply run_years_stores in Hrun as (Hkeys & _ & Hin).
    + rewrite Hempty in Hkeys. split; [exact Hkeys | exact Hin].
    + apply NoDup_seqZ.
    + intros y _. rewrite Hempty. intros [].
  - intros Hgdp. apply run_years_returns, Hgdp.
Qed.

End EngineProperties.

Section SmallEngine.

Import Json Engine EngineScenario.

Lemma model_exceptions_are_contained_witness :
  let engine := snd (construct [] 2025 2027 "baseline" first_run 0%nat) in
  let st := {| process := {| world := 0%nat; calls := [] |}; files := ∅ |} in
  NoDup (export_models engine)
  /\ NoDup (import_models engine)
  /\ (forall p' yr,
        simulate_year engine (process st) 2025 true = Py.Returned p' yr ->
        global_market yr = Error "'global_market'"
        /\ geopolitical yr = Obj [("trade_risk"%string, VNum 0.3)]
        /\ Py.lookup (sector_details (export yr)) "jute"
           = Some (Error "unsupported operand type(s) for -: 'str' and 'float'")
        /\ Py.lookup (category_details (import yr)) "fuel"
           = Some (Obj [("import_volume"%string, VNum 9)]))
  /\ exists e' st',
       run_simulation engine st true = Py.Returned (e', st') tt
       /\ Py.keys (yearly_data e') = [2025; 2026; 2027]%Z.
Proof.
  cbv zeta.
  assert (Hx : NoDup (export_models (snd (construct [] 2025 2027 "baseline" first_run 0%nat))))
    by (cbn; repeat (apply NoDup_cons_2 || apply NoDup_nil_2);
        rewrite list_elem_of_In; cbn; intuition discriminate).
  assert (Hi : NoDup (import_models (snd (construct [] 2025 2027 "baseline" first_run 0%nat))))
    by (cbn; repeat (apply NoDup_cons_2 || apply NoDup_nil_2);
        rewrite list_elem_of_In; cbn; intuition discriminate).
  destruct (model_exceptions_are_contained
              (snd (construct [] 2025 2027 "baseline" first_run 0%nat))
              {| process := {| world := 0%nat; calls := [] |}; files := ∅ |}
              true Hx Hi) as (Hyear & _ & Hstored & Hreturns).
  split; [exact Hx | split; [exact Hi | split]].
  - intros p' yr Hret.
    destruct (Hyear {| world := 0%nat; calls := [] |} 2025%Z) as (_ & Hresults & _).
    destruct (Hresults p' yr Hret)
      as (Hglobal & Hgeo & _ & _ & _ & _ & _ & _ & _ & _ & Hsectors & Hcategories).
    split; [exact Hglobal | split; [exact Hgeo | split]].
    + exact (Hsectors ["rmg"%string] "jute"%string [] eq_refl).
    + exact (proj1 (Hcategories [] "fuel"%string [] eq_refl) eq_refl).
  - destruct Hreturns as (e' & st' & Hrun).
    { intros w y gl ge w' r w'' Hcall. injection Hcall as _ <-.
      exists 350. split; reflexivity. }
    exists e', st'. split; [exact Hrun |].
    exact (proj1 (Hstored e' st' Hrun eq_refl)).
Defined.

(** The year 2025 of the small engine: two models and one sector raise,
    the markers stand under their keys, and all thirteen calls are made. *)
Example small_engine_year_2025 :
  let engine := snd (construct [] 2025 2027 "baseline" first_run 0%nat) in
  match simulate_year engine {| world := 0%nat; calls := [] |} 2025 true with
  | Py.Returned p yr =>
      lookup_entry yr (ModelKey "global_market") = Some (Error "'global_market'")
      /\ lookup_entry yr (ModelKey "trade_policy") = Some (Error "'trade_policy'")
      /\ lookup_entry yr (SectorKey "jute")
         = Some (Error "unsupported operand type(s) for -: 'str' and 'float'")
      /\ map fst (calls p) = guarded_calls engine
      /\ world p = 10%nat
  | Py.Raised _ _ => False
  end.
Proof. vm_compute. repeat split. Qed.

End SmallEngine.

Section Reproducibility.

Import Json Engine.

Context {W R : Type} `{Models W R}.



Lemma run_years_keeps_metadata (years : list Z) :
  forall (a : TradeSimulationEngine R) (sa : Run) (verbose : bool),
    metadata (fst (state_of (run_years a sa years verbose))) = metadata a.
Proof.
  induction years as [| year rest IH]; intros a sa verbose; [reflexivity |].
  cbn [run_years].
  destruct (simulate_year (set_current_year a year) (process sa) year verbose)
    as [p yr | p msg]; [| reflexivity].
  now rewrite IH.
Qed.

(** The timestamp a run ends with is the formatted reading of the clock at
    construction. *)
Lemma run_and_save_timestamp (cfg : dict) (first last : Z) (name : string)
    (now : Clock.datetime) (w : W) (fs : gmap string string) :
  timestamp_of (run_and_save cfg first last name now w fs) = Clock.strftime now.
Proof.
  unfold run_and_save, construct, timestamp_of, run_simulation.
  destruct (initialize_models cfg _) as [[w2 exports] imports].
  match goal with
  | |- context [run_years ?a ?st ?ys true] =>
      pose proof (run_years_keeps_metadata ys a st true) as Hm;
      destruct (run_years a st ys true) as [[e1 s1] [] | [e1 s1] m1]
  end; cbn in Hm |- *; now rewrite Hm.
Qed.




(** The results two completed runs hand to [json.dump] differ whenever the
    clock readings of their constructions format to different texts: the
    timestamp is part of the document. *)
Theorem documents_differ_with_clock
    (cfg : dict) (first last : Z) (name : string) (w : W) (fs : gmap string string)
    (t1 t2 : Clock.datetime) (e1 e2 : TradeSimulationEngine R) (s1 s2 : Run) :
  run_and_save cfg first last name t1 w fs = Py.Returned (e1, s1) tt ->
  run_and_save cfg first last name t2 w fs = Py.Returned (e2, s2) tt ->
  Clock.strftime t1 <> Clock.strftime t2 ->
  results_document (world (process s1)) e1 <> results_document (world (process s2)) e2.
Proof.
  intros Hrun1 Hrun2 Hclock Hdoc.
  pose proof (run_and_save_timestamp cfg first last name t1 w fs) as Hts1.
  pose proof (run_and_save_timestamp cfg first last name t2 w fs) as Hts2.
  unfold timestamp_of in Hts1, Hts2. rewrite Hrun1 in Hts1. rewrite Hrun2 in Hts2.
  cbn in Hts1, Hts2.
  unfold results_document, metadata_document in Hdoc.
  injection Hdoc as _ _ _ Hts _. congruence.
Qed.

End Reproducibility.

Section SmallEngineRuns.

Import Json Engine EngineScenario.



End SmallEngineRuns.

Section SmallEngineDocuments.

Import Json Engine EngineScenario.

Lemma documents_differ_with_clock_witness :
  exists e1 s1 e2 s2,
    run_and_save (H := models) [] 2025 2027 "baseline" first_run 0%nat ∅
    = Py.Returned (e1, s1) tt
    /\ run_and_save (H := models) [] 2025 2027 "baseline" second_run 0%nat ∅
       = Py.Returned (e2, s2) tt
    /\ Clock.strftime first_run <> Clock.strftime second_run
    /\ results_document (world (process s1)) e1
       <> results_document (world (process s2)) e2.
Proof.
  assert (H1 : { x | run_and_save (H := models) [] 2025 2027 "baseline" first_run 0%nat ∅
                     = Py.Returned x tt })
    by (eexists; vm_compute; reflexivity).
  assert (H2 : { x | run_and_save (H := models) [] 2025 2027 "baseline" second_run 0%nat ∅
                     = Py.Returned x tt })
    by (eexists; vm_compute; reflexivity).
  destruct H1 as [[e1 s1] H1], H2 as [[e2 s2] H2].
  assert (Hclock : Clock.strftime first_run <> Clock.strftime second_run)
    by (vm_compute; discriminate).
  exists e1, s1, e2, s2.
  split; [exact H1 |]. split; [exact H2 |]. split; [exact Hclock |].
  exact (documents_differ_with_clock (H := models) [] 2025 2027 "baseline" 0%nat ∅
           first_run second_run e1 e2 s1 s2 H1 H2 Hclock).
Defined.

End SmallEngineDocuments.

(** ** Export sectors: shares, tariffs, competitors and consecutive years *)

Section ExportSectorYears.

Import ExportSector.

Lemma py_len_cons {A} (x : A) (xs : list A) : Py.len (x :: xs) == Py.len xs + 1.
Proof.
  unfold Py.len. cbn [length]. rewrite Nat2Z.inj_succ, <- Z.add_1_r, inject_Z_plus.
  reflexivity.
Qed.

Lemma py_len_nonneg {A} (xs : list A) : 0 <= Py.len xs.
Proof.
  unfold Py.len. change 0 with (inject_Z 0). rewrite <- Zle_Qle. lia.
Qed.

Lemma py_len_pos {A} (xs : list A) : xs <> [] -> 0 < Py.len xs.
Proof.
  destruct xs as [| x xs]; [congruence | intros _].
  rewrite py_len_cons. pose proof (py_len_nonneg xs). lra.
Qed.

Lemma py_min_cases (a b : Q) :
  (b < a /\ Py.min a b = b) \/ (a <= b /\ Py.min a b = a).
Proof. unfold Py.min. destruct (Qlt_le_dec b a); [left | right]; split; auto. Qed.

Lemma sum_from_bounds (xs : list Q) (lo hi a : Q) :
  Forall (fun v => lo <= v <= hi) xs ->
  a + Py.len xs * lo <= fold_left Qplus xs a <= a + Py.len xs * hi.
Proof.
  revert a. induction xs as [| x xs IH]; intros a Hall.
  - assert (H0 : Py.len (@nil Q) == 0) by reflexivity.
    cbn [fold_left]. rewrite H0. lra.
  - inversion Hall as [| ? ? Hx Hxs]; subst. cbn [fold_left].
    specialize (IH (a + x) Hxs). rewrite py_len_cons. lra.
Qed.

(** The market share a call of [simulate_year] returns and stores under its
    year index is the previous share moved by a fifth of the gap between the
    sector's growth and global demand growth, clamped to [0, 1]. *)
Theorem simulate_year_market_share_clamped
    (self : ExportSectorModel) (year_index : Z) (demand : Q)
    (tariffs : list (string * Q))
    (exchange_rate_impact logistics_performance trade_policy_impact
     compliance_impact digital_adoption : Q)
    (competitors : list (string * Q)) (noise : Q) :
  let step :=
    simulate_year self year_index demand tariffs exchange_rate_impact logistics_performance
      trade_policy_impact compliance_impact digital_adoption competitors noise in
  r_global_market_share (snd step)
    == Py.clamp 0 1 (prev_market_share self year_index
                     * (1 + 0.2 * (growth_rate (snd step) - demand)))
  /\ historical_market_shares (fst step) !! year_index
     = Some (r_global_market_share (snd step))
  /\ 0 <= r_global_market_share (snd step) <= 1.
Proof.
  cbn [fst snd simulate_year r_global_market_share historical_market_shares growth_rate].
  split; [| split].
  - apply py_clamp_spec. lra.
  - apply lookup_insert_eq.
  - apply py_clamp_bounds. lra.
Qed.

Lemma mean_within_bounds (factors : list (string * Q)) (lo hi : Q) :
  factors <> [] ->
  Forall (fun kv => lo <= snd kv <= hi) factors ->
  lo <= Py.sum (Py.values factors) / Py.len factors <= hi.
Proof.
  intros Hne Hall.
  assert (Hlen : 0 < Py.len factors) by now apply py_len_pos.
  assert (Hvals : Forall (fun v => lo <= v <= hi) (Py.values factors)).
  { unfold Py.values. clear Hne Hlen.
    induction Hall as [| kv rest Hkv _ IH]; cbn; constructor; assumption. }
  pose proof (sum_from_bounds _ lo hi 0 Hvals) as [Hlo Hhi].
  assert (Hsame : Py.len (Py.values factors) == Py.len factors).
  { unfold Py.len, Py.values. now rewrite length_map. }
  rewrite Hsame in Hlo, Hhi. unfold Py.sum.
  set (s := fold_left Qplus _ 0) in *. set (n := Py.len _) in *.
  split.
  - apply Qle_shift_div_l; [exact Hlen | lra].
  - apply Qle_shift_div_r; [exact Hlen | lra].
Qed.

(** The overall competitiveness score lies in [0, 1], the range its
    docstring gives, whenever every factor does; this includes the score
    0.5 of a sector without factors. *)
Theorem overall_competitiveness_in_unit_interval (factors : list (string * Q)) :
  Forall (fun kv => 0 <= snd kv <= 1) factors ->
  0 <= calculate_overall_competitiveness factors <= 1.
Proof.
  intros Hall. unfold calculate_overall_competitiveness.
  destruct factors as [| kv rest] eqn:E; [lra |]. rewrite <- E in *.
  apply mean_within_bounds; [congruence | exact Hall].
Qed.

Lemma overall_competitiveness_in_unit_interval_witness :
  let factors := [("cost"%string, 0.7); ("quality"%string, 0.7); ("reliability"%string, 0.7)] in
  Forall (fun kv => 0 <= snd kv <= 1) factors
  /\ 0 <= calculate_overall_competitiveness factors <= 1.
Proof.
  assert (Hall : Forall (fun kv : string * Q => 0 <= snd kv <= 1)
                   [("cost"%string, 0.7); ("quality"%string, 0.7); ("reliability"%string, 0.7)])
    by (repeat constructor; cbn; discriminate).
  split; [exact Hall |].
  exact (overall_competitiveness_in_unit_interval _ Hall).
Defined.

Lemma tariff_impact_nonpositive (self : ExportSectorModel) (tariffs : list (string * Q)) :
  0 <= tariff_exposure self ->
  Forall (fun kv => 0 <= snd kv) tariffs ->
  weighted_tariff_impact self tariffs <= 0.
Proof.
  intros He Hall. unfold weighted_tariff_impact.
  destruct tariffs as [| kv rest] eqn:E; [lra |]. rewrite <- E in *.
  assert (Hlen : 0 < Py.len tariffs) by (apply py_len_pos; congruence).
  assert (Hsum : 0 <= Py.sum (Py.values tariffs)).
  { assert (Hv : Forall (fun v => 0 <= v <= v) (Py.values tariffs)).
    { unfold Py.values. clear -Hall.
      induction Hall as [| x xs Hx _ IH]; cbn; constructor; [lra | assumption]. }
    clear -Hall. unfold Py.sum, Py.values.
    assert (Hgen : forall a, 0 <= a -> 0 <= fold_left Qplus (map snd tariffs) a).
    { induction Hall as [| x xs Hx _ IH]; intros a Ha; cbn; [exact Ha |].
      apply IH. lra. }
    apply Hgen. lra. }
  assert (Hmean : 0 <= Py.sum (Py.values tariffs) / Py.len tariffs).
  { apply Qle_shift_div_l; [exact Hlen | lra]. }
  assert (Hneg : - Py.sum (Py.values tariffs) / Py.len tariffs
                 == - (Py.sum (Py.values tariffs) / Py.len tariffs)).
  { field. lra. }
  rewrite Hneg.
  pose proof (Qmult_le_0_compat _ _ Hmean He) as Hprod.
  set (m := Py.sum _ / _) in *. set (e := tariff_exposure self) in *.
  assert (Hring : - m * e == - (m * e)) by ring. rewrite Hring. lra.
Qed.

(** Tariff increases never raise exports: for a sector with a nonnegative
    exposure and previous volume, a year in which no tariff change is
    negative has a nonpositive tariff impact, and its growth rate and its
    volume are at most those of the same year without tariff changes. *)
Theorem tariff_increases_never_raise_exports
    (self : ExportSectorModel) (year_index : Z) (demand : Q)
    (tariffs : list (string * Q))
    (exchange_rate_impact logistics_performance trade_policy_impact
     compliance_impact digital_adoption : Q)
    (competitors : list (string * Q)) (noise : Q) :
  0 <= prev_volume self year_index ->
  0 <= tariff_exposure self ->
  Forall (fun kv => 0 <= snd kv) tariffs ->
  let with_tariffs :=
    snd (simulate_year self year_index demand tariffs exchange_rate_impact
           logistics_performance trade_policy_impact compliance_impact digital_adoption
           competitors noise) in
  let without :=
    snd (simulate_year self year_index demand [] exchange_rate_impact
           logistics_performance trade_policy_impact compliance_impact digital_adoption
           competitors noise) in
  tariff_impact with_tariffs <= 0
  /\ growth_rate with_tariffs <= growth_rate without
  /\ export_volume with_tariffs <= export_volume without.
Proof.
  intros Hvol Hexp Hall.
  pose proof (tariff_impact_nonpositive self tariffs Hexp Hall) as Htar.
  cbn [snd simulate_year tariff_impact growth_rate export_volume].
  change (weighted_tariff_impact self []) with 0.
  set (t := weighted_tariff_impact self tariffs) in *.
  set (c := Py.max _ _). set (a := base_growth_rate self * _).
  set (k := competitor_impact_of self competitors).
  set (p := prev_competitiveness self year_index).
  set (v := prev_volume self year_index) in *.
  split; [exact Htar |]. split; [lra |].
  rewrite !(Qmult_comm v). apply Qmult_le_compat_r; [lra | exact Hvol].
Qed.

Lemma tariff_increases_never_raise_exports_witness :
  let self := init "rmg" 38000 0.05 0.06 "low" [("cost"%string, 0.8)] 0.7 [] in
  let tariffs := [("US"%string, 0.1); ("EU"%string, 0)] in
  0 <= prev_volume self 0
  /\ 0 <= tariff_exposure self
  /\ Forall (fun kv => 0 <= snd kv) tariffs
  /\ export_volume (snd (simulate_year self 0 0.03 tariffs 0 0.6 0 0 0.5 [] 0))
     <= export_volume (snd (simulate_year self 0 0.03 [] 0 0.6 0 0 0.5 [] 0)).
Proof.
  assert (Hvol : 0 <= prev_volume
                        (init "rmg" 38000 0.05 0.06 "low" [("cost"%string, 0.8)] 0.7 []) 0)
    by (vm_compute; discriminate).
  assert (Hexp : 0 <= tariff_exposure
                        (init "rmg" 38000 0.05 0.06 "low" [("cost"%string, 0.8)] 0.7 []))
    by (vm_compute; discriminate).
  assert (Hall : Forall (fun kv : string * Q => 0 <= snd kv)
                   [("US"%string, 0.1); ("EU"%string, 0)])
    by (repeat constructor; cbn; discriminate).
  split; [exact Hvol | split; [exact Hexp | split; [exact Hall |]]].
  exact (proj2 (proj2 (tariff_increases_never_raise_exports _ 0 0.03 _ 0 0.6 0 0 0.5 [] 0
                         Hvol Hexp Hall))).
Defined.

Lemma competitor_impact_nonpositive (self : ExportSectorModel)
    (competitors : list (string * Q)) :
  Forall (fun kv => base_growth_rate self <= snd kv) competitors ->
  competitor_impact_of self competitors <= 0.
Proof.
  intros Hall. unfold competitor_impact_of.
  assert (Hgen : forall acc, acc <= 0 ->
             fold_left (fun a (cg : string * Q) => a - (snd cg - base_growth_rate self) * 0.2)
                       competitors acc <= 0).
  { induction Hall as [| kv rest Hkv _ IH]; intros acc Hacc; cbn [fold_left]; [exact Hacc |].
    apply IH. lra. }
  apply Hgen. lra.
Qed.

(** Faster competitors never raise exports: when no competitor grows more
    slowly than the sector's base growth rate, the competitor impact is
    nonpositive, and the growth rate and the volume of the year are at most
    those of the same year without competitors. *)
Theorem faster_competitors_never_raise_exports
    (self : ExportSectorModel) (year_index : Z) (demand : Q)
    (tariffs : list (string * Q))
    (exchange_rate_impact logistics_performance trade_policy_impact
     compliance_impact digital_adoption : Q)
    (competitors : list (string * Q)) (noise : Q) :
  0 <= prev_volume self year_index ->
  Forall (fun kv => base_growth_rate self <= snd kv) competitors ->
  let with_competitors :=
    snd (simulate_year self year_index demand tariffs exchange_rate_impact
           logistics_performance trade_policy_impact compliance_impact digital_adoption
           competitors noise) in
  let without :=
    snd (simulate_year self year_index demand tariffs exchange_rate_impact
           logistics_performance trade_policy_impact compliance_impact digital_adoption
           [] noise) in
  competitor_impact with_competitors <= 0
  /\ growth_rate with_competitors <= growth_rate without
  /\ export_volume with_competitors <= export_volume without.
Proof.
  intros Hvol Hall.
  pose proof (competitor_impact_nonpositive self competitors Hall) as Himpact.
  cbn [snd simulate_year competitor_impact growth_rate export_volume].
  change (competitor_impact_of self []) with 0.
  set (k := competitor_impact_of self competitors) in *.
  set (t := weighted_tariff_impact self tariffs).
  set (c := Py.max _ _). set (a := base_growth_rate self * _).
  set (p := prev_competitiveness self year_index).
  set (v := prev_volume self year_index) in *.
  split; [exact Himpact |]. split; [lra |].
  rewrite !(Qmult_comm v). apply Qmult_le_compat_r; [lra | exact Hvol].
Qed.

Lemma faster_competitors_never_raise_exports_witness :
  let self := init "rmg" 38000 0.05 0.06 "low" [("cost"%string, 0.8)] 0.7 [] in
  let competitors := [("vietnam"%string, 0.08); ("india"%string, 0.05)] in
  0 <= prev_volume self 0
  /\ Forall (fun kv => base_growth_rate self <= snd kv) competitors
  /\ export_volume (snd (simulate_year self 0 0.03 [] 0 0.6 0 0 0.5 competitors 0))
     <= export_volume (snd (simulate_year self 0 0.03 [] 0 0.6 0 0 0.5 [] 0)).
Proof.
  assert (Hvol : 0 <= prev_volume
                        (init "rmg" 38000 0.05 0.06 "low" [("cost"%string, 0.8)] 0.7 []) 0)
    by (vm_compute; discriminate).
  assert (Hall : Forall (fun kv : string * Q =>
                           base_growth_rate
                             (init "rmg" 38000 0.05 0.06 "low" [("cost"%string, 0.8)] 0.7 [])
                           <= snd kv)
                   [("vietnam"%string, 0.08); ("india"%string, 0.05)])
    by (repeat constructor; cbn; discriminate).
  split; [exact Hvol | split; [exact Hall |]].
  exact (proj2 (proj2 (faster_competitors_never_raise_exports _ 0 0.03 [] 0 0.6 0 0 0.5 _ 0
                         Hvol Hall))).
Defined.


Lemma base_result_shape (self : ExportSectorModel) (year_index : Z)
    (kwargs : SectorInputs) (noise : Q) :
  let results := snd (simulate_year_kw self year_index kwargs noise) in
  export_volume results = prev_volume self year_index * (1 + growth_rate results)
  /\ r_year_index results = year_index.
Proof. split; reflexivity. Qed.

(** Consecutive years chain: the volume a year returns is the volume the
    year before returned, grown by the year's own effective growth rate, and
    the year indices count up by one. *)
Theorem consecutive_years_chain
    (years : list (SectorInputs * Q)) (self : ExportSectorModel) (year_index : Z)
    (k : nat) (r r' : YearResult) :
  snd (simulate_years self year_index years) !! k = Some r ->
  snd (simulate_years self year_index years) !! S k = Some r' ->
  export_volume r' = export_volume r * (1 + growth_rate r')
  /\ r_year_index r' = (r_year_index r + 1)%Z.
Proof.
  revert self year_index k.
  induction years as [| [kwargs noise] rest IH]; intros self year_index k; [discriminate |].
  cbn [simulate_years].
  pose proof (base_volume_recorded self year_index kwargs noise) as [_ Hnext].
  pose proof (base_result_shape self year_index kwargs noise) as [_ Hindex].
  destruct (simulate_year_kw self year_index kwargs noise) as [self' results] eqn:Estep.
  cbn [fst snd] in Hnext, Hindex.
  destruct (simulate_years self' (year_index + 1) rest) as [self'' later] eqn:Erest.
  cbn [snd]. destruct k as [| k].
  - intros Hr Hr'. cbn in Hr. injection Hr as <-.
    change ((results :: later) !! 1%nat) with (later !! 0%nat) in Hr'.
    destruct rest as [| [kwargs' noise'] rest'];
      [cbn in Erest; injection Erest as _ <-; discriminate |].
    cbn [simulate_years] in Erest.
    pose proof (base_result_shape self' (year_index + 1) kwargs' noise') as [Hvol Hidx].
    destruct (simulate_year_kw self' (year_index + 1) kwargs' noise') as [s2 r2].
    destruct (simulate_years s2 (year_index + 1 + 1) rest') as [s3 l3].
    injection Erest as _ <-. cbn in Hr'. injection Hr' as <-.
    cbn [snd] in Hvol, Hidx. rewrite Hvol, Hidx, Hnext, Hindex. split; reflexivity.
  - intros Hr Hr'.
    change ((results :: later) !! S k) with (later !! k) in Hr.
    change ((results :: later) !! S (S k)) with (later !! S k) in Hr'.
    specialize (IH self' (year_index + 1)%Z k). rewrite Erest in IH. now apply IH.
Qed.

Lemma consecutive_years_chain_witness :
  let self := init "rmg" 38000 0.05 0.06 "low" [("cost"%string, 0.8)] 0.7 [] in
  let results := snd (simulate_years self 0 [(default_inputs, 0); (default_inputs, 0.01)]) in
  exists r r',
    results !! 0%nat = Some r /\ results !! 1%nat = Some r'
    /\ export_volume r' = export_volume r * (1 + growth_rate r').
Proof.
  eexists _, _. split; [reflexivity |]. split; [reflexivity |].
  refine (proj1 (consecutive_years_chain
                   [(default_inputs, 0); (default_inputs, 0.01)]
                   (init "rmg" 38000 0.05 0.06 "low" [("cost"%string, 0.8)] 0.7 [])
                   0 0 _ _ _ _)); reflexivity.
Defined.




(** The garment model never updates its buyer concentration or its
    compliance cost structure: after any number of years both are what they
    were, and every year reports the same buyer concentration, one point
    below the stored one and at least 0.5. *)
Theorem rmg_buyer_concentration_never_moves
    (years : list (SectorInputs * Q)) (self : RMGSectorModel) (year_index : Z) :
  let run := rmg_simulate_years self year_index years in
  buyer_concentration (fst run) = buyer_concentration self
  /\ compliance_cost_structure (fst run) = compliance_cost_structure self
  /\ rmg_multiplier (fst run) = rmg_multiplier self
  /\ Forall (fun r => res_buyer_concentration r
                      = Py.max 0.5 (buyer_concentration self - 0.01)) (snd run).
Proof.
  revert self year_index.
  induction years as [| [kwargs noise] rest IH]; intros self year_index.
  - cbn. repeat split. constructor.
  - cbn [rmg_simulate_years]. unfold rmg_simulate_year.
    destruct (simulate_year_kw (rmg_base self) year_index kwargs noise) as [base results].
    match goal with
    | |- context [rmg_simulate_years ?s ?i rest] =>
        specialize (IH s i); destruct (rmg_simulate_years s i rest) as [self'' later]
    end.
    cbn [fst snd buyer_concentration compliance_cost_structure] in *.
    destruct IH as (Hb & Hc & Hm & Hall).
    repeat split; try assumption.
    constructor; [reflexivity | exact Hall].
Qed.

(** The garment model's capabilities only grow, and only to their caps:
    after any number of years the fashion responsiveness is at least what
    it was and at most 0.9, and the backward linkage development at least
    what it was and at most 0.8, when they start at or below these caps. *)
Theorem rmg_capabilities_grow_to_cap
    (years : list (SectorInputs * Q)) (self : RMGSectorModel) (year_index : Z) :
  fashion_responsiveness self <= 0.9 ->
  backward_linkage_development self <= 0.8 ->
  let after := fst (rmg_simulate_years self year_index years) in
  fashion_responsiveness self <= fashion_responsiveness after <= 0.9
  /\ backward_linkage_development self <= backward_linkage_development after <= 0.8.
Proof.
  revert self year_index.
  induction years as [| [kwargs noise] rest IH]; intros self year_index Hf Hl.
  - cbn. lra.
  - cbn zeta. cbn [rmg_simulate_years]. unfold rmg_simulate_year.
    destruct (simulate_year_kw (rmg_base self) year_index kwargs noise) as [base results].
    match goal with
    | |- context [rmg_simulate_years ?s ?i rest] =>
        specialize (IH s i); cbn zeta in IH;
        destruct (rmg_simulate_years s i rest) as [self'' later]
    end.
    cbn [fst fashion_responsiveness backward_linkage_development] in *.
    destruct (py_min_cases 0.9 (fashion_responsiveness self + 0.02)) as [[? Ef] | [? Ef]];
      destruct (py_min_cases 0.8 (backward_linkage_development self + 0.015))
        as [[? El] | [? El]];
      rewrite Ef, El in IH; destruct IH as [[? ?] [? ?]]; lra.
Qed.

Lemma rmg_capabilities_grow_to_cap_witness :
  let self := rmg_init (init "rmg" 38000 0.05 0.06 "low" [] 0.7 []) in
  let after := fst (rmg_simulate_years self 0 (repeat (default_inputs, 0) 5)) in
  fashion_responsiveness self <= 0.9
  /\ backward_linkage_development self <= 0.8
  /\ fashion_responsiveness self <= fashion_responsiveness after <= 0.9.
Proof.
  assert (Hf : fashion_responsiveness (rmg_init (init "rmg" 38000 0.05 0.06 "low" [] 0.7 []))
               <= 0.9) by (cbn; discriminate).
  assert (Hl : backward_linkage_development
                 (rmg_init (init "rmg" 38000 0.05 0.06 "low" [] 0.7 [])) <= 0.8)
    by (cbn; discriminate).
  split; [exact Hf | split; [exact Hl |]].
  exact (proj1 (rmg_capabilities_grow_to_cap (repeat (default_inputs, 0) 5) _ 0 Hf Hl)).
Defined.

(** The emerging-sector premium: the factor applied to the returned volume
    is at most 1.18, and at least 1 when reputation and quality are not
    negative, so the returned volume of a sector with a nonnegative recorded
    volume lies between the recorded volume and 1.18 times it. *)
Theorem emerging_premium_bounds
    (self : EmergingSectorModel) (year_index : Z) (kwargs : SectorInputs)
    (noise : Q) (new_patents : Z) :
  0 <= global_reputation self ->
  0 <= product_quality_level self ->
  let recorded := export_volume (snd (simulate_year_kw (em_base self) year_index kwargs noise)) in
  let returned :=
    export_volume (em_results (snd (emerging_simulate_year self year_index kwargs noise
                                      new_patents))) in
  0 <= recorded ->
  1 <= emerging_multiplier self <= 1.18
  /\ recorded <= returned <= 1.18 * recorded.
Proof.
  intros Hrep Hqual recorded returned Hrec.
  assert (Hm : 1 <= emerging_multiplier self <= 1.18).
  { unfold emerging_multiplier, emerging_reputation, emerging_quality, r_and_d_investment,
      Py.min.
    repeat match goal with |- context [Qlt_le_dec ?a ?b] => destruct (Qlt_le_dec a b) end;
      lra. }
  split; [exact Hm |].
  subst recorded returned. unfold emerging_simulate_year in *.
  destruct (simulate_year_kw (em_base self) year_index kwargs noise) as [base results].
  cbn [snd em_results scale_export_volume export_volume] in *.
  set (v := export_volume results) in *. set (f := emerging_multiplier self) in *.
  destruct Hm as [Hlo Hhi]. split.
  - assert (H1 : v * 1 <= v * f).
    { rewrite !(Qmult_comm v). apply Qmult_le_compat_r; assumption. }
    lra.
  - rewrite (Qmult_comm 1.18). rewrite !(Qmult_comm v).
    apply Qmult_le_compat_r; assumption.
Qed.

Lemma emerging_premium_bounds_witness :
  let self := emerging_init (init "ict" 1500 0.12 0.01 "medium" [("skills"%string, 0.6)] 0.2 []) in
  let recorded := export_volume (snd (simulate_year_kw (em_base self) 0 default_inputs 0)) in
  let returned :=
    export_volume (em_results (snd (emerging_simulate_year self 0 default_inputs 0 2))) in
  0 <= global_reputation self /\ 0 <= product_quality_level self /\ 0 <= recorded
  /\ recorded <= returned <= 1.18 * recorded.
Proof.
  assert (Hrep : 0 <= global_reputation
                   (emerging_init (init "ict" 1500 0.12 0.01 "medium"
                                     [("skills"%string, 0.6)] 0.2 [])))
    by (vm_compute; discriminate).
  assert (Hqual : 0 <= product_quality_level
                    (emerging_init (init "ict" 1500 0.12 0.01 "medium"
                                      [("skills"%string, 0.6)] 0.2 [])))
    by (vm_compute; discriminate).
  assert (Hrec : 0 <= export_volume
                   (snd (simulate_year_kw
                           (em_base (emerging_init (init "ict" 1500 0.12 0.01 "medium"
                                                      [("skills"%string, 0.6)] 0.2 [])))
                           0 default_inputs 0)))
    by (vm_compute; discriminate).
  split; [exact Hrep | split; [exact Hqual | split; [exact Hrec |]]].
  exact (proj2 (emerging_premium_bounds _ 0 default_inputs 0 2 Hrep Hqual Hrec)).
Defined.

End ExportSectorYears.

(** ** Structural transformation: synthetic growth, the index, capability,
    policy and the whole step *)

Section StructuralYears.

Import Structural.

Lemma synthetic_growth_rate_lower (policy : Q) (data : SectorData) (draw : Q) :
  0 <= complexity data -> 0 <= value_chain_position data -> -0.04 <= draw ->
  0.01 <= synthetic_growth_rate policy data draw.
Proof.
  intros Hc Hv Hd. unfold synthetic_growth_rate.
  destruct (Qlt_le_dec 0.6 policy); [destruct (Qlt_le_dec 0.5 (complexity data)) |]; lra.
Qed.

Lemma synthetic_growth_rate_upper (policy : Q) (data : SectorData) (draw : Q) :
  complexity data <= 1 -> value_chain_position data <= 1 -> draw <= 0.08 ->
  synthetic_growth_rate policy data draw <= 0.25.
Proof.
  intros Hc Hv Hd. unfold synthetic_growth_rate.
  destruct (Qlt_le_dec 0.6 policy); [destruct (Qlt_le_dec 0.5 (complexity data)) |]; lra.
Qed.

Lemma synthetic_loop_lookup (policy : Q) (draw : nat -> Q)
    (sectors : list (string * SectorData)) (k i : nat) :
  synthetic_loop policy draw k sectors !! i
  = (fun sd => (fst sd, grow_sector policy (snd sd) (draw (k + i)%nat))) <$> sectors !! i.
Proof.
  revert k i. induction sectors as [| [sector data] rest IH]; intros k i; [reflexivity |].
  destruct i as [| i]; cbn.
  - now rewrite Nat.add_0_r.
  - rewrite IH. now rewrite Nat.add_succ_r.
Qed.

(** Synthetic exports never shrink: with draws in the range of
    [random.uniform(-0.04, 0.08)], a sector whose complexity and value chain
    position lie in [0, 1] grows by between 1% and 25% in a synthetic year,
    and keeps its name, complexity and position. *)
Theorem synthetic_exports_never_shrink
    (self : StructuralTransformationModel) (draw : nat -> Q) (i : nat)
    (sector : string) (data : SectorData) :
  (forall j, -0.04 <= draw j <= 0.08) ->
  export_sectors self !! i = Some (sector, data) ->
  0 <= complexity data <= 1 ->
  0 <= value_chain_position data <= 1 ->
  0 <= value data ->
  exists data',
    export_sectors (simulate_with_synthetic_data self draw) !! i = Some (sector, data')
    /\ complexity data' = complexity data
    /\ value_chain_position data' = value_chain_position data
    /\ 1.01 * value data <= value data' <= 1.25 * value data.
Proof.
  intros Hdraw Hlook [Hc0 Hc1] [Hv0 Hv1] Hval.
  exists (grow_sector (industrial_policy_effectiveness self) data (draw i)).
  split; [| split; [reflexivity | split; [reflexivity |]]].
  - unfold simulate_with_synthetic_data. cbn [export_sectors].
    rewrite synthetic_loop_lookup, Hlook. reflexivity.
  - destruct (Hdraw i) as [Hlo Hhi].
    pose proof (synthetic_growth_rate_lower (industrial_policy_effectiveness self)
                  data (draw i) Hc0 Hv0 Hlo) as Hg0.
    pose proof (synthetic_growth_rate_upper (industrial_policy_effectiveness self)
                  data (draw i) Hc1 Hv1 Hhi) as Hg1.
    cbn [grow_sector value].
    set (g := synthetic_growth_rate _ _ _) in *. set (v := value data) in *.
    rewrite (Qmult_comm 1.01), (Qmult_comm 1.25), !(Qmult_comm v).
    split; apply Qmult_le_compat_r; lra.
Qed.

Lemma synthetic_exports_never_shrink_witness :
  let self := init default_export_sectors in
  let draw := fun _ : nat => -0.04 in
  let rmg := {| value := 38.0; complexity := 0.3; value_chain_position := 0.25 |} in
  (forall j, -0.04 <= draw j <= 0.08)
  /\ export_sectors self !! 0%nat = Some ("rmg"%string, rmg)
  /\ exists data',
       export_sectors (simulate_with_synthetic_data self draw) !! 0%nat
       = Some ("rmg"%string, data')
       /\ 1.01 * value rmg <= value data' <= 1.25 * value rmg.
Proof.
  assert (Hdraw : forall j : nat, -0.04 <= (fun _ : nat => -0.04) j <= 0.08)
    by (intros j; split; discriminate).
  split; [exact Hdraw | split; [reflexivity |]].
  destruct (synthetic_exports_never_shrink (init default_export_sectors)
              (fun _ : nat => -0.04) 0 "rmg"
              {| value := 38.0; complexity := 0.3; value_chain_position := 0.25 |}
              Hdraw eq_refl)
    as (data' & Hlook & _ & _ & Hbounds);
    try (cbn; split; discriminate); try (cbn; discriminate).
  exists data'. split; [exact Hlook | exact Hbounds].
Defined.

Lemma sum_from_nonneg (xs : list Q) (a : Q) :
  Forall (fun v => 0 <= v) xs -> a <= fold_left Qplus xs a.
Proof.
  revert a. induction xs as [| x xs IH]; intros a Hall; cbn; [lra |].
  inversion Hall as [| ? ? Hx Hxs]; subst. specialize (IH (a + x) Hxs). lra.
Qed.

Lemma squares_below_square_of_sum (values : list (string * Q)) (t a b : Q) :
  0 < t -> 0 <= a -> b * (t * t) <= a * a ->
  Forall (fun sv => 0 <= snd sv) values ->
  fold_left (fun acc sv => acc + (snd sv / t) ^ 2) values b * (t * t)
  <= fold_left Qplus (Py.values values) a * fold_left Qplus (Py.values values) a.
Proof.
  intros Ht. revert a b.
  induction values as [| [sector v] rest IH]; intros a b Ha Hb Hall; cbn; [exact Hb |].
  inversion Hall as [| ? ? Hv Hrest]; subst. cbn [snd] in Hv.
  apply IH; [lra | | exact Hrest].
  assert (Hsq : (v / t) ^ 2 * (t * t) == v * v) by (field; lra).
  assert (Hav : 0 <= a * v) by (apply Qmult_le_0_compat; assumption).
  assert (Hexp : (b + (v / t) ^ 2) * (t * t) == b * (t * t) + (v / t) ^ 2 * (t * t)) by ring.
  rewrite Hexp, Hsq.
  assert (Hsum : (a + v) * (a + v) == a * a + v * v + 2 * (a * v)) by ring.
  rewrite Hsum. lra.
Qed.

Lemma squares_nonneg (values : list (string * Q)) (t b : Q) :
  0 <= b -> 0 <= fold_left (fun acc sv => acc + (snd sv / t) ^ 2) values b.
Proof.
  revert b. induction values as [| [sector v] rest IH]; intros b Hb; cbn; [exact Hb |].
  apply IH. cbn [snd].
  assert (Hsq : 0 <= (v / t) ^ 2).
  { assert (Heq : (v / t) ^ 2 == (v / t) * (v / t)) by (cbn; ring).
    rewrite Heq. apply Qsqr_nonneg. }
  lra.
Qed.

Lemma value_below_sum (xs : list Q) (a v : Q) :
  Forall (fun x => 0 <= x) xs -> 0 <= a -> In v xs -> v <= fold_left Qplus xs a.
Proof.
  revert a. induction xs as [| x xs IH]; intros a Hall Ha Hin; [destruct Hin |].
  inversion Hall as [| ? ? Hx Hxs]; subst. cbn [fold_left].
  destruct Hin as [-> | Hin].
  - pose proof (sum_from_nonneg xs (a + v) Hxs). lra.
  - apply IH; [exact Hxs | lra | exact Hin].
Qed.

(** The index [calculate_export_diversification] returns for nonnegative
    sector values with a positive total lies in [0, 1], as its docstring
    says; the shares it stores for the year are those of the sectors, in
    their order, and each lies in [0, 1]. *)
Theorem hhi_between_zero_and_one (self : StructuralTransformationModel) (year : Z) :
  Forall (fun sd => 0 <= value (snd sd)) (export_sectors self) ->
  0 < total_exports_of self ->
  exists s hhi shares,
    calculate_export_diversification self year = Py.Returned s hhi
    /\ 0 <= hhi <= 1
    /\ export_diversity_sectors s = export_diversity_sectors self ++ [shares]
    /\ Py.keys shares = Py.keys (export_sectors self)
    /\ Forall (fun kv => 0 <= snd kv <= 1) shares.
Proof.
  intros Hall Htotal.
  assert (Hne : ~ total_exports_of self == 0) by lra.
  unfold calculate_export_diversification. fold (total_exports_of self).
  rewrite (hhi_loop_nonzero _ _ _ _ Hne).
  eexists _, _, _. split; [reflexivity |]. cbn [export_diversity_sectors app].
  set (values := export_values (export_sectors self)).
  set (t := total_exports_of self) in *.
  assert (Hvalues : Forall (fun sv => 0 <= snd sv) values).
  { subst values. unfold export_values. clear -Hall.
    induction Hall as [| sd rest Hsd _ IH]; cbn; constructor; assumption. }
  split; [split |]; [| | split; [reflexivity | split]].
  - apply squares_nonneg. lra.
  - pose proof (squares_below_square_of_sum values t 0 0 Htotal ltac:(lra) ltac:(lra) Hvalues)
      as Hsq.
    change (fold_left Qplus (Py.values values) 0) with t in Hsq.
    set (h := fold_left _ values 0) in *.
    assert (Htt : 0 < t * t) by (apply Qmult_lt_0_compat; assumption).
    apply (Qmult_le_r _ _ (t * t)); [exact Htt | lra].
  - change (Py.keys (map (fun sv : string * Q => (fst sv, snd sv / t)) values)
            = Py.keys (export_sectors self)).
    unfold Py.keys, values, export_values. rewrite !map_map. reflexivity.
  - change (Forall (fun kv : string * Q => 0 <= snd kv <= 1)
              (map (fun sv : string * Q => (fst sv, snd sv / t)) values)).
    assert (Hbelow : forall sv, In sv values -> snd sv <= t).
    { intros sv Hin. unfold t, total_exports_of, Py.sum. fold values.
      apply value_below_sum; [| lra | unfold Py.values; now apply in_map].
      unfold Py.values. clear -Hvalues.
      induction Hvalues; cbn; constructor; assumption. }
    clear -Hvalues Hbelow Htotal.
    induction values as [| sv rest IH]; cbn [map]; constructor.
    + inversion Hvalues as [| ? ? Hsv _]; subst. cbn [snd].
      pose proof (Hbelow sv (or_introl eq_refl)) as Hle.
      split; [apply Qle_shift_div_l; lra | apply Qle_shift_div_r; lra].
    + inversion Hvalues; subst. apply IH; [assumption |].
      intros sv' Hin. apply Hbelow. now right.
Qed.

Lemma hhi_between_zero_and_one_witness :
  let self := init default_export_sectors in
  Forall (fun sd => 0 <= value (snd sd)) (export_sectors self)
  /\ 0 < total_exports_of self
  /\ exists s hhi,
       calculate_export_diversification self 2025 = Py.Returned s hhi /\ 0 <= hhi <= 1.
Proof.
  assert (Hall : Forall (fun sd : string * SectorData => 0 <= value (snd sd))
                   (export_sectors (init default_export_sectors)))
    by (repeat constructor; cbn; discriminate).
  assert (Htotal : 0 < total_exports_of (init default_export_sectors))
    by (vm_compute; reflexivity).
  split; [exact Hall | split; [exact Htotal |]].
  destruct (hhi_between_zero_and_one (init default_export_sectors) 2025 Hall Htotal)
    as (s & hhi & shares & Hret & Hbounds & _).
  exists s, hhi. split; [exact Hret | exact Hbounds].
Defined.

(** The capability index never decreases and never passes 0.95: for a
    non-empty sector table with nonnegative value chain positions, a
    nonnegative policy effectiveness and a draw in the range of
    [random.uniform(-0.005, 0.01)], a capability in [0, 0.95] is followed by
    one at least as high and at most 0.95, which is both returned and
    stored. *)
Theorem capability_never_decreases
    (self : StructuralTransformationModel) (year : Z) (draw : Q) :
  export_sectors self <> [] ->
  Forall (fun sd => 0 <= value_chain_position (snd sd)) (export_sectors self) ->
  0 <= industrial_policy_effectiveness self ->
  -0.005 <= draw ->
  0 <= capability_index self <= 0.95 ->
  exists s new,
    simulate_capability_development self year draw = Py.Returned s new
    /\ capability_index s = new
    /\ capability_index self <= new <= 0.95.
Proof.
  intros Hne Hall Hpol Hdraw [Hc0 Hc1].
  unfold simulate_capability_development.
  set (vcp_values := map (fun sd => value_chain_position (snd sd)) (export_sectors self)).
  assert (Hvne : vcp_values <> []).
  { subst vcp_values. destruct (export_sectors self); [congruence | discriminate]. }
  assert (Hmean : 0 <= Py.sum vcp_values / Py.len vcp_values).
  { apply Qle_shift_div_l; [now apply py_len_pos |].
    assert (Hv : Forall (fun v => 0 <= v) vcp_values).
    { subst vcp_values. clear -Hall.
      induction Hall as [| sd rest Hsd _ IH]; cbn; constructor; assumption. }
    pose proof (sum_from_nonneg vcp_values 0 Hv) as Hs. unfold Py.sum. lra. }
  destruct vcp_values as [| v0 vs] eqn:E; [congruence |]. rewrite <- E in *.
  eexists _, _. split; [reflexivity |]. cbn [capability_index].
  split; [reflexivity |].
  set (m := Py.sum vcp_values / Py.len vcp_values) in *.
  set (c := capability_index self) in *. set (p := industrial_policy_effectiveness self) in *.
  assert (Hprod : 0 <= (0.008 + m * 0.01 + p * 0.01 + draw) * (1 - c * 0.5)).
  { apply Qmult_le_0_compat; lra. }
  set (d := (0.008 + m * 0.01 + p * 0.01 + draw) * (1 - c * 0.5)) in *.
  unfold Py.min. destruct (Qlt_le_dec (c + d) 0.95); lra.
Qed.

Lemma capability_never_decreases_witness :
  let self := init default_export_sectors in
  export_sectors self <> []
  /\ 0 <= capability_index self <= 0.95
  /\ exists s new,
       simulate_capability_development self 2025 (-0.005) = Py.Returned s new
       /\ capability_index self <= new <= 0.95.
Proof.
  assert (Hne : export_sectors (init default_export_sectors) <> []) by discriminate.
  assert (Hall : Forall (fun sd : string * SectorData => 0 <= value_chain_position (snd sd))
                   (export_sectors (init default_export_sectors)))
    by (repeat constructor; cbn; discriminate).
  assert (Hpol : 0 <= industrial_policy_effectiveness (init default_export_sectors))
    by (cbn; discriminate).
  assert (Hdraw : -0.005 <= -0.005) by discriminate.
  assert (Hcap : 0 <= capability_index (init default_export_sectors) <= 0.95)
    by (cbn; split; discriminate).
  split; [exact Hne | split; [exact Hcap |]].
  destruct (capability_never_decreases (init default_export_sectors) 2025 (-0.005)
              Hne Hall Hpol Hdraw Hcap) as (s & new & Hret & _ & Hbounds).
  exists s, new. split; [exact Hret | exact Hbounds].
Defined.

(** The policy effectiveness [integrate_industrial_policy] returns and
    stores is the current one plus the base improvement, the cycle term and
    the draw, clamped to [0.2, 0.9]; nothing else in the model changes. *)
Theorem policy_effectiveness_clamped
    (self : StructuralTransformationModel) (year : Z) (sine draw : Q) :
  let step := integrate_industrial_policy self year sine draw in
  snd step == Py.clamp 0.2 0.9
                (industrial_policy_effectiveness self + (0.01 + 0.02 * sine + draw))
  /\ industrial_policy_effectiveness (fst step) = snd step
  /\ 0.2 <= snd step <= 0.9
  /\ export_sectors (fst step) = export_sectors self
  /\ capability_index (fst step) = capability_index self.
Proof.
  cbn [fst snd integrate_industrial_policy industrial_policy_effectiveness
       export_sectors capability_index].
  split; [apply py_clamp_spec; lra |].
  split; [reflexivity |]. split; [apply py_clamp_bounds; lra |]. split; reflexivity.
Qed.

(** One year moves policy effectiveness by at most five points down and
    seven points up, when it starts in [0.2, 0.9], the sine lies in [-1, 1]
    and the draw in the range of [random.uniform(-0.04, 0.04)]. *)
Theorem policy_effectiveness_moves_slowly
    (self : StructuralTransformationModel) (year : Z) (sine draw : Q) :
  0.2 <= industrial_policy_effectiveness self <= 0.9 ->
  -1 <= sine <= 1 ->
  -0.04 <= draw <= 0.04 ->
  let new := snd (integrate_industrial_policy self year sine draw) in
  industrial_policy_effectiveness self - 0.05 <= new
  /\ new <= industrial_policy_effectiveness self + 0.07.
Proof.
  intros Heff Hsine Hdraw. cbn [snd integrate_industrial_policy].
  rewrite py_clamp_spec by lra. unfold Py.clamp.
  repeat match goal with |- context [Qlt_le_dec ?a ?b] => destruct (Qlt_le_dec a b) end;
    lra.
Qed.

Lemma policy_effectiveness_moves_slowly_witness :
  let self := init default_export_sectors in
  0.2 <= industrial_policy_effectiveness self <= 0.9
  /\ industrial_policy_effectiveness self - 0.05
     <= snd (integrate_industrial_policy self 2025 0 0.04)
  /\ snd (integrate_industrial_policy self 2025 0 0.04)
     <= industrial_policy_effectiveness self + 0.07.
Proof.
  assert (Heff : 0.2 <= industrial_policy_effectiveness (init default_export_sectors) <= 0.9)
    by (cbn; split; discriminate).
  split; [exact Heff |].
  apply (policy_effectiveness_moves_slowly (init default_export_sectors) 2025 0 0.04 Heff);
    split; discriminate.
Defined.

(** A step on an empty sector table throws: the index 0 is appended for the
    year and the empty positions are stored under it, then the mean of the
    positions divides by zero; capability and policy are not reached. *)
Theorem simulate_step_empty_table_raises
    (self : StructuralTransformationModel) (year : Z) (draws : StepDraws) :
  export_sectors self = [] ->
  exists s,
    simulate_step self year draws = Py.Raised s "division by zero"
    /\ export_diversity_hhi s = export_diversity_hhi self ++ [0]
    /\ value_chain_position_by_year s !! year = Some []
    /\ capability_index s = capability_index self
    /\ industrial_policy_effectiveness s = industrial_policy_effectiveness self.
Proof.
  intros Hnil. unfold simulate_step, simulate_with_synthetic_data.
  rewrite Hnil. cbn.
  eexists. split; [reflexivity |]. cbn.
  split; [reflexivity |]. split; [apply lookup_insert_eq |]. split; reflexivity.
Qed.

Lemma simulate_step_empty_table_raises_witness :
  let draws := {| growth_draw := fun _ => 0; upgrade_draw := fun _ => 0;
                  capability_draw := 0; policy_sine := 0; policy_draw := 0 |} in
  export_sectors (init []) = []
  /\ exists s, simulate_step (init []) 2025 draws = Py.Raised s "division by zero".
Proof.
  split; [reflexivity |].
  destruct (simulate_step_empty_table_raises (init []) 2025
              {| growth_draw := fun _ => 0; upgrade_draw := fun _ => 0;
                 capability_draw := 0; policy_sine := 0; policy_draw := 0 |} eq_refl)
    as (s & Hraised & _).
  exists s. exact Hraised.
Defined.

Lemma synthetic_loop_positive (policy : Q) (draw : nat -> Q)
    (sectors : list (string * SectorData)) (k : nat) :
  Forall (fun sd => 0 < value (snd sd) /\ 0 <= complexity (snd sd)
                    /\ 0 <= value_chain_position (snd sd)) sectors ->
  (forall i, -0.04 <= draw i) ->
  Forall (fun v => 0 < v)
         (Py.values (export_values (synthetic_loop policy draw k sectors))).
Proof.
  intros Hall Hdraw. revert k.
  induction Hall as [| [sector data] rest (Hv & Hc & Hp) _ IH]; intros k; cbn;
    constructor; [| apply IH].
  cbn [snd] in *.
  pose proof (synthetic_growth_rate_lower policy data (draw k) Hc Hp (Hdraw k)) as Hg.
  apply Qmult_lt_0_compat; lra.
Qed.

Lemma sum_from_positive (xs : list Q) (a : Q) :
  xs <> [] -> Forall (fun v => 0 < v) xs -> a < fold_left Qplus xs a.
Proof.
  intros Hne Hall. destruct xs as [| x xs]; [congruence |].
  inversion Hall as [| ? ? Hx Hxs]; subst. cbn.
  assert (Hnonneg : Forall (fun v => 0 <= v) xs).
  { clear -Hxs. induction Hxs; constructor; [lra | assumption]. }
  pose proof (sum_from_nonneg xs (a + x) Hnonneg). lra.
Qed.

Lemma synthetic_loop_keys (policy : Q) (draw : nat -> Q)
    (sectors : list (string * SectorData)) (k : nat) :
  Py.keys (synthetic_loop policy draw k sectors) = Py.keys sectors.
Proof.
  revert k. induction sectors as [| [sector data] rest IH]; intros k; cbn; [reflexivity |].
  f_equal. apply IH.
Qed.

Lemma upgrade_loop_keys (capability : Q) (draw : nat -> Q)
    (sectors : list (string * SectorData)) (k : nat) :
  Py.keys (upgrade_loop capability draw k sectors) = Py.keys sectors.
Proof.
  revert k. induction sectors as [| [sector data] rest IH]; intros k; cbn; [reflexivity |].
  f_equal. apply IH.
Qed.

(** A step on a non-empty table of sectors with positive values and
    nonnegative complexity and position, with growth draws of at least
    -0.04, returns; what it returns is what it stored: the index appended
    for the year, the positions stored under the year, the capability and
    the policy effectiveness, and the values of the sectors, whose names and
    order are those it started with. *)
Theorem simulate_step_returns
    (self : StructuralTransformationModel) (year : Z) (draws : StepDraws) :
  export_sectors self <> [] ->
  Forall (fun sd => 0 < value (snd sd) /\ 0 <= complexity (snd sd)
                    /\ 0 <= value_chain_position (snd sd)) (export_sectors self) ->
  (forall i, -0.04 <= growth_draw draws i) ->
  exists s r,
    simulate_step self year draws = Py.Returned s r
    /\ export_diversity_hhi s = export_diversity_hhi self ++ [step_export_diversity_hhi r]
    /\ value_chain_position_by_year s !! year = Some (step_value_chain_position r)
    /\ capability_index s = step_capability_index r
    /\ industrial_policy_effectiveness s = step_industrial_policy_effectiveness r
    /\ step_export_sectors r = export_values (export_sectors s)
    /\ Py.keys (export_sectors s) = Py.keys (export_sectors self).
Proof.
  intros Hne Hall Hdraw.
  set (self1 := simulate_with_synthetic_data self (growth_draw draws)).
  assert (Hkeys1 : Py.keys (export_sectors self1) = Py.keys (export_sectors self))
    by apply synthetic_loop_keys.
  assert (Hne1 : export_sectors self1 <> []).
  { intros Hnil. rewrite Hnil in Hkeys1. destruct (export_sectors self); [congruence |].
    discriminate. }
  assert (Htotal : ~ total_exports_of self1 == 0).
  { pose proof (synthetic_loop_positive (industrial_policy_effectiveness self)
                  (growth_draw draws) (export_sectors self) 0 Hall Hdraw) as Hpos.
    assert (Hvne : Py.values (export_values (export_sectors self1)) <> []).
    { destruct (export_sectors self1); [congruence | discriminate]. }
    pose proof (sum_from_positive _ 0 Hvne Hpos) as Hsum.
    unfold total_exports_of, Py.sum. lra. }
  unfold simulate_step. fold self1.
  unfold calculate_export_diversification. fold (total_exports_of self1).
  rewrite (hhi_loop_nonzero _ _ _ _ Htotal).
  unfold simulate_value_chain_upgrading. cbn [export_sectors capability_index].
  set (upgraded := upgrade_loop (capability_index self1) (upgrade_draw draws) 0
                     (export_sectors self1)).
  assert (Hkeys2 : Py.keys upgraded = Py.keys (export_sectors self1))
    by apply upgrade_loop_keys.
  assert (Hpositions : positions_of upgraded <> []).
  { intros Hnil. destruct upgraded as [| x xs]; [| discriminate].
    destruct (export_sectors self1); [congruence | discriminate]. }
  destruct (positions_of upgraded) as [| p0 ps] eqn:Epos; [congruence |].
  unfold simulate_capability_development. cbn [export_sectors].
  destruct (map (fun sd => value_chain_position (snd sd)) upgraded) as [| v0 vs] eqn:Evcp.
  { destruct upgraded; [discriminate Epos | discriminate Evcp]. }
  cbn [integrate_industrial_policy].
  eexists _, _. split; [reflexivity |].
  cbn [export_diversity_hhi value_chain_position_by_year capability_index
       industrial_policy_effectiveness export_sectors step_export_diversity_hhi
       step_value_chain_position step_capability_index
       step_industrial_policy_effectiveness step_export_sectors].
  split; [reflexivity |]. split; [apply lookup_insert_eq |].
  split; [reflexivity |]. split; [reflexivity |]. split; [reflexivity |].
  now rewrite Hkeys2, Hkeys1.
Qed.

Lemma simulate_step_returns_witness :
  let self := init default_export_sectors in
  let draws := {| growth_draw := fun _ => -0.04; upgrade_draw := fun _ => 0;
                  capability_draw := 0; policy_sine := 0; policy_draw := 0 |} in
  export_sectors self <> []
  /\ (forall i, -0.04 <= growth_draw draws i)
  /\ exists s r,
       simulate_step self 2025 draws = Py.Returned s r
       /\ export_diversity_hhi s = export_diversity_hhi self ++ [step_export_diversity_hhi r].
Proof.
  assert (Hne : export_sectors (init default_export_sectors) <> []) by discriminate.
  assert (Hall : Forall (fun sd : string * SectorData =>
                           0 < value (snd sd) /\ 0 <= complexity (snd sd)
                           /\ 0 <= value_chain_position (snd sd))
                   (export_sectors (init default_export_sectors)))
    by (repeat constructor; cbn; discriminate).
  assert (Hdraw : forall i : nat,
             -0.04 <= growth_draw
                        {| growth_draw := fun _ => -0.04; upgrade_draw := fun _ => 0;
                           capability_draw := 0; policy_sine := 0; policy_draw := 0 |} i)
    by (intros i; cbn; discriminate).
  split; [exact Hne | split; [exact Hdraw |]].
  destruct (simulate_step_returns (init default_export_sectors) 2025 _ Hne Hall Hdraw)
    as (s & r & Hret & Hhhi & _).
  exists s, r. split; [exact Hret | exact Hhhi].
Defined.

End StructuralYears.

(** ** Exchange rate: the zero-import error, intervention and reserves *)

Section ExchangeRateYears.

Import ExchangeRate.

(** With zero imports the method throws at the division of the overall
    balance by imports; by then the reserves have been changed by the
    overall balance, and nothing else in the model has changed. *)
Theorem zero_imports_raise_after_reserves_update
    (self : ExchangeRateModel) (yi : Z)
    (balance_of_payments central_bank_policy global_conditions : list (string * Q))
    (noise : Q) :
  Py.get balance_of_payments "imports" 0 == 0 ->
  exists s msg,
    simulate_exchange_rate self yi balance_of_payments central_bank_policy
      global_conditions noise = Py.Raised s msg
    /\ foreign_reserves s = foreign_reserves self + overall_balance_of balance_of_payments
    /\ current_rate s = current_rate self
    /\ real_effective_rate s = real_effective_rate self
    /\ historical_rates s = historical_rates self
    /\ historical_impacts s = historical_impacts self.
Proof.
  intros Himports. unfold simulate_exchange_rate.
  destruct (Qeq_bool (Py.get balance_of_payments "imports" 0) 0) eqn:E.
  - do 2 eexists. split; [reflexivity |]. repeat split.
  - apply Qeq_bool_neq in E. contradiction.
Qed.

Lemma zero_imports_raise_after_reserves_update_witness :
  let bop := [("exports"%string, 100)] in
  Py.get bop "imports" 0 == 0
  /\ exists s msg,
       simulate_exchange_rate (init []) 0 bop [] [] 0 = Py.Raised s msg
       /\ foreign_reserves s = foreign_reserves (init []) + overall_balance_of bop.
Proof.
  assert (Hi : Py.get [("exports"%string, 100)] "imports" 0 == 0) by reflexivity.
  split; [exact Hi |].
  destruct (zero_imports_raise_after_reserves_update (init []) 0
              [("exports"%string, 100)] [] [] 0 Hi) as (s & msg & Hraised & Hres & _).
  exists s, msg. split; [exact Hraised | exact Hres].
Defined.

Lemma intervention_effectiveness_bounds (strength stance : Q) :
  0 <= strength -> 0 <= stance -> 0 <= Py.min (strength * stance) 0.8 <= 0.8.
Proof.
  intros Hs Ht. pose proof (Qmult_le_0_compat _ _ Hs Ht) as Hprod.
  unfold Py.min. destruct (Qlt_le_dec 0.8 (strength * stance)); lra.
Qed.

Lemma dampened_bounds (p e : Q) :
  0 <= e <= 0.8 ->
  Qabs (p * (1 - e)) <= Qabs p /\ 0 <= p * (1 - e) * p.
Proof.
  intros [He0 He1].
  assert (Habs : Qabs (p * (1 - e)) == Qabs p * (1 - e)).
  { rewrite Qabs_Qmult, (Qabs_pos (1 - e)) by lra. reflexivity. }
  pose proof (Qabs_nonneg p) as Hp.
  assert (H2 : Qabs p * (1 - e) <= Qabs p * 1).
  { rewrite !(Qmult_comm (Qabs p)). apply Qmult_le_compat_r; lra. }
  split; [rewrite Habs; lra |].
  assert (Hsq : p * (1 - e) * p == (p * p) * (1 - e)) by ring.
  rewrite Hsq. apply Qmult_le_0_compat; [apply Qsqr_nonneg | lra].
Qed.

(** Intervention dampens and never reverses: for a nonnegative intervention
    strength, the depreciation applied has the sign of the potential one
    and is at most as large in absolute value. *)
Theorem intervention_dampens
    (self : ExchangeRateModel) (yi : Z)
    (balance_of_payments central_bank_policy global_conditions : list (string * Q))
    (noise : Q) :
  ~ Py.get balance_of_payments "imports" 0 == 0 ->
  0 <= volatility self ->
  0 <= intervention_strength self ->
  exists s r,
    simulate_exchange_rate self yi balance_of_payments central_bank_policy
      global_conditions noise = Py.Returned s r
    /\ Qabs (depreciation_rate r) <= Qabs (potential_depreciation r)
    /\ 0 <= depreciation_rate r * potential_depreciation r.
Proof.
  intros Himports Hvol Hstrength. unfold simulate_exchange_rate.
  destruct (Qeq_bool (Py.get balance_of_payments "imports" 0) 0) eqn:E;
    [apply Qeq_bool_iff in E; contradiction |].
  destruct (Qlt_le_dec (volatility self) 0) as [Hneg | _]; [lra |].
  do 2 eexists. split; [reflexivity |].
  cbn [potential_depreciation depreciation_rate].
  set (p := annual_depreciation self + _).
  set (stance := Py.get central_bank_policy "intervention_stance" 0.5).
  pose proof (Qabs_nonneg p) as Hp.
  destruct (Qlt_le_dec (intervention_threshold self) (Qabs p)) as [Habove | Hwithin];
    [destruct (Qlt_le_dec 0.3 stance) as [Hstance | Hstance] |].
  - pose proof (intervention_effectiveness_bounds (intervention_strength self) stance
                  Hstrength ltac:(lra)) as He.
    destruct (dampened_bounds p _ He) as [Hhi Hsign].
    split; assumption.
  - split; [lra | apply Qsqr_nonneg].
  - split; [lra | apply Qsqr_nonneg].
Qed.

Lemma intervention_dampens_witness :
  let bop :=
    [ ("exports"%string, 50000); ("imports"%string, 60000);
      ("remittances"%string, 2000) ] in
  let policy := [("intervention_stance"%string, 1)] in
  ~ Py.get bop "imports" 0 == 0
  /\ 0 <= volatility (init [])
  /\ 0 <= intervention_strength (init [])
  /\ exists s r,
       simulate_exchange_rate (init []) 0 bop policy [] 1 = Py.Returned s r
       /\ Qabs (depreciation_rate r) <= Qabs (potential_depreciation r).
Proof.
  set (bop := [ ("exports"%string, 50000); ("imports"%string, 60000);
                ("remittances"%string, 2000) ]).
  assert (Hi : ~ Py.get bop "imports" 0 == 0) by (vm_compute; discriminate).
  assert (Hv : 0 <= volatility (init [])) by (vm_compute; discriminate).
  assert (Hs : 0 <= intervention_strength (init [])) by (vm_compute; discriminate).
  split; [exact Hi | split; [exact Hv | split; [exact Hs |]]].
  destruct (intervention_dampens (init []) 0 bop [("intervention_stance"%string, 1)] [] 1
              Hi Hv Hs) as (s & r & Hret & Hhi & _).
  exists s, r. split; [exact Hret | exact Hhi].
Defined.

(** The reserves a returning call reports and stores are the previous
    reserves plus the overall balance less the intervention cost, which for
    positive imports is never negative; the rate it reports and stores
    under the year index is the previous rate times one plus the applied
    depreciation; and the model's own trade and current account balances
    are never written. *)
Theorem reserves_accounting
    (self : ExchangeRateModel) (yi : Z)
    (balance_of_payments central_bank_policy global_conditions : list (string * Q))
    (noise : Q) :
  0 < Py.get balance_of_payments "imports" 0 ->
  0 <= volatility self ->
  exists s r,
    simulate_exchange_rate self yi balance_of_payments central_bank_policy
      global_conditions noise = Py.Returned s r
    /\ r_foreign_reserves r
       == foreign_reserves self + overall_balance_of balance_of_payments
          - intervention_cost r
    /\ 0 <= intervention_cost r
    /\ foreign_reserves s = r_foreign_reserves r
    /\ exchange_rate r = current_rate self * (1 + depreciation_rate r)
    /\ current_rate s = exchange_rate r
    /\ historical_rates s !! yi = Some (exchange_rate r)
    /\ historical_impacts s !! yi = Some r
    /\ trade_balance s = trade_balance self
    /\ current_account_balance s = current_account_balance self.
Proof.
  intros Himports Hvol. unfold simulate_exchange_rate.
  destruct (Qeq_bool (Py.get balance_of_payments "imports" 0) 0) eqn:E; [apply Qeq_bool_iff in E; lra |].
  destruct (Qlt_le_dec (volatility self) 0) as [Hneg | _]; [lra |].
  do 2 eexists. split; [reflexivity |].
  cbn [r_foreign_reserves intervention_cost foreign_reserves exchange_rate
       depreciation_rate current_rate historical_rates historical_impacts
       trade_balance current_account_balance].
  fold (overall_balance_of balance_of_payments).
  set (imports := Py.get balance_of_payments "imports" 0) in *.
  set (p := annual_depreciation self + _).
  set (stance := Py.get central_bank_policy "intervention_stance" 0.5).
  destruct (Qlt_le_dec (intervention_threshold self) (Qabs p)) as [Habove | Hwithin];
    [destruct (Qlt_le_dec 0.3 stance) as [Hstance | Hstance] |];
    cbv iota;
    (split; [ring |]);
    (split;
     [| split; [reflexivity |]; split; [reflexivity |]; split; [reflexivity |];
        split; [apply lookup_insert_eq |]; split; [apply lookup_insert_eq |];
        split; reflexivity]);
    try lra.
  match goal with |- 0 <= Qabs ?x * _ * _ => pose proof (Qabs_nonneg x) as Ha end.
  apply Qmult_le_0_compat; [apply Qmult_le_0_compat |]; lra.
Qed.

Lemma reserves_accounting_witness :
  let bop :=
    [ ("exports"%string, 50000); ("imports"%string, 60000);
      ("remittances"%string, 2000) ] in
  let policy := [("intervention_stance"%string, 1)] in
  0 < Py.get bop "imports" 0
  /\ 0 <= volatility (init [])
  /\ exists s r,
       simulate_exchange_rate (init []) 0 bop policy [] 1 = Py.Returned s r
       /\ r_foreign_reserves r
          == foreign_reserves (init []) + overall_balance_of bop - intervention_cost r
       /\ 0 <= intervention_cost r.
Proof.
  set (bop := [ ("exports"%string, 50000); ("imports"%string, 60000);
                ("remittances"%string, 2000) ]).
  assert (Hi : 0 < Py.get bop "imports" 0) by (vm_compute; reflexivity).
  assert (Hv : 0 <= volatility (init [])) by (vm_compute; discriminate).
  split; [exact Hi | split; [exact Hv |]].
  destruct (reserves_accounting (init []) 0 bop [("intervention_stance"%string, 1)] [] 1
              Hi Hv) as (s & r & Hret & Hres & Hcost & _).
  exists s, r. split; [exact Hret | split; [exact Hres | exact Hcost]].
Defined.

End ExchangeRateYears.

(** ** Trade wars: what every year keeps *)

Section TradeWarYears.

Import TradeWars.

(** Whatever the inputs and the draws, and whether the call returns or
    throws, it leaves the trade war probability in [0.05, 0.8], the market
    diversification in [0.3, 0.9] and the secondary sanction exposure in
    [0.1, 0.7]. *)
Theorem trade_war_state_stays_in_range
    (st : State) (yi sim_year : Z) (tension_level regional_cooperation : Q) :
  let after := model (state_of (simulate_trade_wars st yi sim_year tension_level
                                  regional_cooperation)) in
  0.05 <= current_probability after <= 0.8
  /\ 0.3 <= market_diversification after <= 0.9
  /\ 0.1 <= secondary_sanction_exposure after <= 0.7.
Proof.
  unfold simulate_trade_wars.
  destruct (fold_left (start_step sim_year _) potential_conflicts _)
    as [[[h1 g1] active1] new_wars].
  destruct (fold_left (update_step sim_year) active1 _) as [[h2 g2] ended].
  destruct (fold_left diversion_step _ _) as [g3 diversion].
  destruct (map _ diversion);
    cbn [state_of model current_probability market_diversification
         secondary_sanction_exposure];
    (split; [| split]); apply py_clamp_bounds; lra.
Qed.

Lemma diversion_loop (entries : list (string * Q)) :
  forall (g : Rng) (done : list (string * Q)),
  exists g' added,
    fold_left diversion_step entries (g, done) = (g', done ++ added)
    /\ Py.keys added = Py.keys entries
    /\ Forall (fun kv => snd kv <= 0.9) added
    /\ draws g' = draws g.
Proof.
  induction entries as [| [sector potential] rest IH]; intros g done.
  - exists g, []. cbn. rewrite app_nil_r. repeat split. constructor.
  - cbn [fold_left diversion_step next_draw fst snd].
    destruct (IH {| draws := draws g; position := S (position g) |}
                 (done ++ [(sector, Py.min 0.9 (potential + 0.02 * draws g (position g)))]))
      as (g' & added & Hfold & Hkeys & Hall & Hdraws).
    exists g', ((sector, Py.min 0.9 (potential + 0.02 * draws g (position g))) :: added).
    split; [rewrite Hfold, <- app_assoc; reflexivity |].
    split; [unfold Py.keys in *; cbn [map fst]; now rewrite Hkeys |].
    split; [| exact Hdraws].
    constructor; [| exact Hall]. cbn [snd]. unfold Py.min.
    destruct (Qlt_le_dec _ 0.9); lra.
Qed.

(** The order diversion table keeps its sectors and their order, and no
    potential in it exceeds 0.9 after a call; with a non-empty table the
    call returns. *)
Theorem order_diversion_keeps_sectors
    (st : State) (yi sim_year : Z) (tension_level regional_cooperation : Q) :
  order_diversion (model st) <> [] ->
  exists s r,
    simulate_trade_wars st yi sim_year tension_level regional_cooperation
    = Py.Returned s r
    /\ Py.keys (order_diversion (model s)) = Py.keys (order_diversion (model st))
    /\ Forall (fun kv => snd kv <= 0.9) (order_diversion (model s))
    /\ order_diversion_potential r = order_diversion (model s)
    /\ historical_impacts (model s) !! yi = Some r.
Proof.
  intros Hne. unfold simulate_trade_wars.
  destruct (fold_left (start_step sim_year _) potential_conflicts _)
    as [[[h1 g1] active1] new_wars].
  destruct (fold_left (update_step sim_year) active1 _) as [[h2 g2] ended].
  destruct (diversion_loop (order_diversion (model st)) g2 [])
    as (g3 & diversion & Hfold & Hkeys & Hall & _).
  rewrite Hfold. cbn [app].
  destruct diversion as [| d0 ds].
  { destruct (order_diversion (model st)); [congruence | discriminate]. }
  cbn [map]. do 2 eexists. split; [reflexivity |].
  cbn [model order_diversion order_diversion_potential historical_impacts].
  split; [exact Hkeys |]. split; [exact Hall |]. split; [reflexivity |].
  apply lookup_insert_eq.
Qed.

Lemma order_diversion_keeps_sectors_witness :
  let st := TradeWarScenario.start in
  order_diversion (model st) <> []
  /\ exists s r,
       simulate_trade_wars st 0 2025 0.5 0.5 = Py.Returned s r
       /\ Py.keys (order_diversion (model s)) = Py.keys (order_diversion (model st)).
Proof.
  assert (Hne : order_diversion (model TradeWarScenario.start) <> []) by discriminate.
  split; [exact Hne |].
  destruct (order_diversion_keeps_sectors TradeWarScenario.start 0 2025 0.5 0.5 Hne)
    as (s & r & Hret & Hkeys & _).
  exists s, r. split; [exact Hret | exact Hkeys].
Defined.






Lemma no_intensity_scores (diversion : list (string * Q)) (intensity exposure : Q) :
  diversion <> [] ->
  intensity == 0 ->
  let opportunities :=
    map (fun entry : string * Q => (fst entry, snd entry * intensity * 0.5)) diversion in
  exposure * intensity * 0.3 == 0
  /\ Forall (fun kv => snd kv == 0) opportunities
  /\ Py.sum (Py.values opportunities) / Py.len opportunities * 0.7
     - exposure * intensity * 0.3 * 0.3 == 0.
Proof.
  intros Hne Hzero opportunities.
  assert (Hall : Forall (fun kv : string * Q => snd kv == 0) opportunities).
  { subst opportunities. clear Hne.
    induction diversion as [| d ds IH]; cbn [map]; constructor; [| exact IH].
    cbn [snd]. rewrite Hzero. ring. }
  assert (Hsum : Py.sum (Py.values opportunities) == 0).
  { unfold Py.sum. apply sum_from_zero. unfold Py.values.
    clear -Hall. induction Hall; cbn [map]; constructor; assumption. }
  assert (Hlen : 0 < Py.len opportunities).
  { apply py_len_pos. subst opportunities. destruct diversion; [congruence | discriminate]. }
  split; [rewrite Hzero; ring |]. split; [exact Hall |].
  rewrite Hsum, Hzero. set (n := Py.len opportunities) in *. field. lra.
Qed.

(** A year that ends with no active trade war reports no tariff escalation,
    no sanction risk and an opportunity score of zero. *)
Theorem peace_has_no_opportunity
    (st : State) (yi sim_year : Z) (tension_level regional_cooperation : Q)
    (r : Results) :
  result_of (simulate_trade_wars st yi sim_year tension_level regional_cooperation)
  = Some r ->
  active_trade_wars r = [] ->
  tariff_escalation r = 0
  /\ sanction_risk r == 0
  /\ Forall (fun kv => snd kv == 0) (order_diversion_opportunities r)
  /\ opportunity_score r == 0.
Proof.
  unfold simulate_trade_wars.
  destruct (fold_left (start_step sim_year _) potential_conflicts _)
    as [[[h1 g1] active1] new_wars].
  destruct (fold_left (update_step sim_year) active1 _) as [[h2 g2] ended].
  destruct (fold_left diversion_step _ _) as [g3 diversion].
  destruct diversion as [| d0 ds]; [cbn [map result_of]; discriminate |].
  set (diversion := d0 :: ds).
  assert (Hne : diversion <> []) by discriminate.
  unfold diversion at 1. cbn [map].
  cbn [result_of]. intros Hr Hactive. injection Hr as <-.
  cbn [active_trade_wars tariff_escalation sanction_risk order_diversion_opportunities
       opportunity_score] in *.
  rewrite Hactive.
  assert (Hzero : Py.sum (intensities h2 []) == 0) by reflexivity.
  destruct (no_intensity_scores diversion (Py.sum (intensities h2 []))
              (Py.max 0.1 (Py.min 0.7 (secondary_sanction_exposure (model st)
                 + (0.01 * tension_level
                    - 0.02 * Py.max 0.3 (Py.min 0.9 (market_diversification (model st)
                        + (0.02 * regional_cooperation - 0.01 * tension_level)))))))
              Hne Hzero) as (Hrisk & Hall & Hscore).
  split; [reflexivity |]. split; [exact Hrisk |]. split; [exact Hall | exact Hscore].
Qed.

Lemma peace_has_no_opportunity_witness :
  exists r,
    result_of (simulate_trade_wars
                 {| heap := {| objects := ∅; next := 0 |};
                    rng := {| draws := fun _ => 1; position := 0 |};
                    model := init [] |} 0 2025 0.5 0.5) = Some r
    /\ active_trade_wars r = []
    /\ opportunity_score r == 0.
Proof.
  assert (Hr : { r | result_of (simulate_trade_wars
                                  {| heap := {| objects := ∅; next := 0 |};
                                     rng := {| draws := fun _ => 1; position := 0 |};
                                     model := init [] |} 0 2025 0.5 0.5) = Some r
                     /\ active_trade_wars r = [] }).
  { eexists. split; [vm_compute; reflexivity | reflexivity]. }
  destruct Hr as [r [Hr Hpeace]]. exists r. split; [exact Hr | split; [exact Hpeace |]].
  exact (proj2 (proj2 (proj2 (peace_has_no_opportunity
            {| heap := {| objects := ∅; next := 0 |};
               rng := {| draws := fun _ => 1; position := 0 |};
               model := init [] |} 0 2025 0.5 0.5 r Hr Hpeace)))).
Defined.

End TradeWarYears.

(** ** The engine: aggregate metrics, the one failure of a year, the years
    of a run and the summary table *)

Section EngineYears.

Import Json Engine.

Context {W R : Type} `{Models W R}.

Lemma aggregate_returns (w : W) (investment : option R) (total_exports total_imports : Q)
    (metrics : AggregateMetrics) :
  aggregate w investment total_exports total_imports = inr metrics ->
  exists gdp,
    as_number (Py.get (items w investment) "gdp" (VNum 1)) = Some gdp
    /\ ~ gdp == 0
    /\ trade_balance metrics = total_exports - total_imports
    /\ trade_openness metrics = (total_exports + total_imports) / gdp
    /\ export_to_gdp metrics = total_exports / gdp
    /\ import_to_gdp metrics = total_imports / gdp.
Proof.
  unfold aggregate.
  destruct (as_number _) as [g |]; [| discriminate].
  destruct (Qeq_bool g 0) eqn:E; [discriminate |].
  intros Hm. injection Hm as <-. exists g.
  split; [reflexivity |]. split; [now apply Qeq_bool_neq |]. repeat split.
Qed.

Lemma aggregate_raises (w : W) (investment : option R) (total_exports total_imports : Q)
    (msg : string) :
  aggregate w investment total_exports total_imports = inl msg ->
  exists r,
    investment = Some r
    /\ ((as_number (Py.get (read w r) "gdp" (VNum 1)) = None
         /\ msg = exc_text (Py.get (read w r) "gdp" (VNum 1)))
        \/ (exists g, as_number (Py.get (read w r) "gdp" (VNum 1)) = Some g
                      /\ g == 0 /\ msg = "division by zero"%string)).
Proof.
  unfold aggregate. destruct investment as [r |]; cbn [items].
  - intros Hm. exists r. split; [reflexivity |].
    destruct (as_number _) as [g |] eqn:Eg.
    + destruct (Qeq_bool g 0) eqn:E; [| discriminate].
      injection Hm as <-. right. exists g.
      split; [reflexivity | split; [now apply Qeq_bool_iff | reflexivity]].
    + injection Hm as <-. left. split; reflexivity.
  - cbn. discriminate.
Qed.

Lemma simulate_year_returned (self : TradeSimulationEngine R) (p p' : Process W R)
    (year : Z) (verbose : bool) (yr : YearResults R) :
  simulate_year self p year verbose = Py.Returned p' yr ->
  aggregate (world p') (conditions (investment yr)) (total_exports (export yr))
    (total_imports (import yr)) = inr (aggregate_metrics yr).
Proof.
  unfold simulate_year.
  repeat match goal with
         | |- context [attempt ?k ?c ?q] => destruct (attempt k c q) as [? ?]
         end.
  repeat match goal with
         | |- context [fold_left ?f ?l ?a] => destruct (fold_left f l a) as [[? ?] ?]
         end.
  match goal with
  | |- context [aggregate ?w ?i ?x ?m] => destruct (aggregate w i x m) eqn:E
  end; [discriminate |].
  intros Hret. injection Hret as <- <-. exact E.
Qed.

(** The aggregate metrics of a year that returns are computed from its
    totals: the trade balance is exports less imports, and for the GDP of
    the investment result (1 when there is none), which is a number other
    than zero, the trade openness is the sum of the totals over GDP and the
    two ratios are the totals over GDP. *)
Theorem aggregate_metrics_consistent
    (self : TradeSimulationEngine R) (p p' : Process W R) (year : Z) (verbose : bool)
    (yr : YearResults R) :
  simulate_year self p year verbose = Py.Returned p' yr ->
  exists gdp,
    as_number (Py.get (items (world p') (conditions (investment yr))) "gdp" (VNum 1))
    = Some gdp
    /\ ~ gdp == 0
    /\ trade_balance (aggregate_metrics yr)
       = total_exports (export yr) - total_imports (import yr)
    /\ trade_openness (aggregate_metrics yr)
       = (total_exports (export yr) + total_imports (import yr)) / gdp
    /\ export_to_gdp (aggregate_metrics yr) = total_exports (export yr) / gdp
    /\ import_to_gdp (aggregate_metrics yr) = total_imports (import yr) / gdp.
Proof.
  intros Hret. apply simulate_year_returned in Hret.
  destruct (aggregate_returns _ _ _ _ _ Hret) as (gdp & Hgdp & Hne & Hb & Ho & Hx & Hi).
  exists gdp. repeat split; assumption.
Qed.

(** A year fails only on the GDP of a returned investment result: when
    [simulate_year] throws, the investment call of that year returned a
    result, and the [gdp] it holds is zero or not a number. *)
Theorem year_fails_only_on_gdp
    (self : TradeSimulationEngine R) (p p' : Process W R) (year : Z) (verbose : bool)
    (msg : string) :
  NoDup (export_models self) ->
  NoDup (import_models self) ->
  simulate_year self p year verbose = Py.Raised p' msg ->
  exists r,
    In (ModelKey "investment", Obj r) (calls p')
    /\ ((as_number (Py.get (read (world p') r) "gdp" (VNum 1)) = None
         /\ msg = exc_text (Py.get (read (world p') r) "gdp" (VNum 1)))
        \/ (exists g, as_number (Py.get (read (world p') r) "gdp" (VNum 1)) = Some g
                      /\ g == 0 /\ msg = "division by zero"%string)).
Proof.
  intros Hx Hi Hraised.
  destruct (simulate_year_guards self p year verbose Hx Hi)
    as (made & Hcalls & _ & _ & Hfail).
  destruct (Hfail p' msg Hraised) as (e & total_exports & total_imports & Hin & Hagg).
  rewrite Hraised in Hcalls. cbn [state_of] in Hcalls.
  destruct (aggregate_raises _ _ _ _ _ Hagg) as (r & Hsome & Hgdp).
  destruct e as [r' | m]; [| discriminate]. cbn in Hsome. injection Hsome as ->.
  exists r. split; [| exact Hgdp].
  rewrite Hcalls. apply in_or_app. right. exact Hin.
Qed.

Lemma run_years_keys (years : list Z) :
  forall (self e : TradeSimulationEngine R) (st st' : Run) (verbose : bool),
    run_years self st years verbose = Py.Returned (e, st') tt ->
    NoDup years ->
    (forall y, In y years -> ~ In y (Py.keys (yearly_data self))) ->
    Py.keys (yearly_data e) = Py.keys (yearly_data self) ++ years
    /\ scenario e = scenario self
    /\ export_models e = export_models self
    /\ metadata e = metadata self.
Proof.
  induction years as [| year rest IH]; intros self e st st' verbose Hrun Hnodup Hfresh.
  - cbn in Hrun. injection Hrun as <- <-. rewrite app_nil_r. repeat split.
  - cbn [run_years] in Hrun.
    destruct (simulate_year (set_current_year self year) (process st) year verbose)
      as [p yr | p msg]; [| discriminate].
    apply NoDup_cons in Hnodup as [Hnotin Hnodup].
    apply IH in Hrun; [| exact Hnodup |].
    + destruct Hrun as (Hkeys & Hscen & Hmodels & Hmeta).
      cbn [store_year set_current_year yearly_data scenario export_models metadata] in *.
      rewrite Hkeys, keys_setitem_new by (apply Hfresh; now left).
      rewrite <- app_assoc. repeat split; assumption.
    + intros y Hy. cbn [store_year set_current_year yearly_data].
      rewrite keys_setitem_new by (apply Hfresh; now left).
      intros Hin. apply in_app_or in Hin as [Hin | Hin].
      * revert Hin. apply Hfresh. now right.
      * cbn in Hin. destruct Hin as [-> | []]. apply Hnotin.
        now apply list_elem_of_In.
Qed.

(** A completed run holds every year once, in order: after
    [run_simulation_from_config] returns, the keys of [yearly_data] are the
    years from the start year to the end year, and the file named after the
    scenario holds the encoding of exactly these results. *)
Theorem completed_run_holds_every_year
    (cfg : dict) (first last : Z) (name : string) (now : Clock.datetime) (w : W)
    (fs : gmap string string) (e : TradeSimulationEngine R) (st : Run) :
  run_and_save cfg first last name now w fs = Py.Returned (e, st) tt ->
  Py.keys (yearly_data e) = seqZ first (last + 1 - first)
  /\ md_timestamp (metadata e) = Clock.strftime now
  /\ files st !! ("simulation_results_" +:+ name +:+ ".json")
     = Some (dumps repr_num 0 (results_document (world (process st)) e)).
Proof.
  unfold run_and_save, construct.
  destruct (initialize_models cfg _) as [[w2 exports] imports].
  unfold run_simulation, years_of. cbn [start_year end_year].
  match goal with
  | |- context [run_years ?s ?t ?ys true] => destruct (run_years s t ys true)
                                               as [[e1 st1] [] | [e1 st1] msg] eqn:Erun
  end; [| discriminate].
  intros Hret. injection Hret as <- <-.
  apply run_years_keys in Erun; [| apply NoDup_seqZ | intros y _ []].
  destruct Erun as (Hkeys & Hscen & _ & Hmeta).
  cbn [yearly_data scenario metadata app] in Hkeys, Hscen, Hmeta.
  split; [exact Hkeys |]. split; [now rewrite Hmeta |].
  cbn [files process]. unfold save_results. cbn [default]. rewrite Hscen.
  apply lookup_insert_eq.
Qed.

Lemma year_document_paths (w : W) (yr : YearResults R) :
  path_of (year_document w yr) ["export"; "total_exports"]%string
  = inr (VNum (total_exports (export yr)))
  /\ path_of (year_document w yr) ["import"; "total_imports"]%string
     = inr (VNum (total_imports (import yr)))
  /\ path_of (year_document w yr) ["aggregate_metrics"; "trade_balance"]%string
     = inr (VNum (trade_balance (aggregate_metrics yr)))
  /\ path_of (year_document w yr) ["aggregate_metrics"; "trade_openness"]%string
     = inr (VNum (trade_openness (aggregate_metrics yr)))
  /\ path_of (year_document w yr) ["export"; "sector_exports"]%string
     = inl (KeyError "sector_exports")
  /\ ((exists v, path_of (year_document w yr) ["investment"; "gdp"]%string = inr v)
      \/ path_of (year_document w yr) ["investment"; "gdp"]%string = inl (KeyError "gdp")).
Proof.
  do 5 (split; [reflexivity |]).
  unfold path_of, year_document. cbn [fold_left subscript find_key String.eqb Ascii.eqb
                                      Bool.eqb].
  unfold entry_document, error_entry.
  destruct (investment yr) as [r | msg].
  - cbn [subscript]. destruct (find_key (read w r) "gdp"); [left; eauto | right; reflexivity].
  - right. reflexivity.
Qed.

Lemma column_total (docs : list value) (path : list string) (f : value -> value) :
  Forall (fun doc => path_of doc path = inr (f doc)) docs ->
  column docs path = inr (map f docs).
Proof.
  induction 1 as [| doc rest Hdoc _ IH]; cbn [column map]; [reflexivity |].
  now rewrite Hdoc, IH.
Qed.

Lemma column_key_error (docs : list value) (path : list string) (k : string) :
  Forall (fun doc => (exists v, path_of doc path = inr v)
                     \/ path_of doc path = inl (KeyError k)) docs ->
  (exists vs, column docs path = inr vs) \/ column docs path = inl (KeyError k).
Proof.
  induction 1 as [| doc rest Hdoc _ IH]; cbn [column]; [left; eauto |].
  destruct Hdoc as [[v ->] | ->]; [| now right].
  destruct IH as [[vs ->] | ->]; [left; eauto | now right].
Qed.

(** The summary table cannot be built once a year has been simulated for an
    engine with an export sector: [generate_summary_dataframe] throws
    [KeyError], for ['sector_exports'], a key the year results never hold,
    or before that for ['gdp'] where a year has no GDP. *)
Theorem summary_dataframe_raises (self : TradeSimulationEngine R) (w : W) :
  yearly_data self <> [] ->
  export_models self <> [] ->
  generate_summary_dataframe self w = inl (KeyError "sector_exports")
  \/ generate_summary_dataframe self w = inl (KeyError "gdp").
Proof.
  intros Hyears Hsectors. unfold generate_summary_dataframe.
  set (docs := map (fun ky => year_document w (snd ky)) (yearly_data self)).
  assert (Hdocs : Forall (fun doc => exists yr, doc = year_document w yr) docs).
  { subst docs. generalize (yearly_data self). intros l.
    induction l as [| [y yr] rest IH]; cbn [map]; constructor; eauto. }
  assert (Hgdp : (exists vs, column docs ["investment"; "gdp"]%string = inr vs)
                 \/ column docs ["investment"; "gdp"]%string = inl (KeyError "gdp")).
  { apply column_key_error.
    induction Hdocs as [| doc rest [yr ->] _ IH]; constructor; [| exact IH].
    apply (proj2 (proj2 (proj2 (proj2 (proj2 (year_document_paths w yr)))))). }
  destruct Hgdp as [[gdp ->] | ->]; [| now right].
  assert (Hcol : forall path (g : YearResults R -> value),
             (forall yr, path_of (year_document w yr) path = inr (g yr)) ->
             exists vs, column docs path = inr vs).
  { intros path g Hpath. clear -Hdocs Hpath.
    induction Hdocs as [| doc rest [yr ->] _ [vs IH]]; cbn [column]; [eauto |].
    rewrite Hpath, IH. eauto. }
  destruct (Hcol ["export"; "total_exports"]%string _
              (fun yr => proj1 (year_document_paths w yr))) as [c1 ->].
  destruct (Hcol ["import"; "total_imports"]%string _
              (fun yr => proj1 (proj2 (year_document_paths w yr)))) as [c2 ->].
  destruct (Hcol ["aggregate_metrics"; "trade_balance"]%string _
              (fun yr => proj1 (proj2 (proj2 (year_document_paths w yr))))) as [c3 ->].
  destruct (Hcol ["aggregate_metrics"; "trade_openness"]%string _
              (fun yr => proj1 (proj2 (proj2 (proj2 (year_document_paths w yr))))))
    as [c4 ->].
  left.
  destruct (export_models self) as [| sector sectors]; [congruence |].
  cbn [sector_columns].
  destruct docs as [| doc rest] eqn:Edocs.
  { subst docs. destruct (yearly_data self); [congruence | discriminate]. }
  inversion Hdocs as [| ? ? [yr ->] _]; subst.
  cbn [sector_column]. unfold sector_cell.
  rewrite (proj1 (proj2 (proj2 (proj2 (proj2 (year_document_paths w yr)))))).
  reflexivity.
Qed.

Lemma intermediate_name_differs (a b : string) :
  ("intermediate_" +:+ a) +:+ ".json" <> "simulation_results_" +:+ b +:+ ".json".
Proof. cbn. discriminate. Qed.

Lemma run_years_stopped (years : list Z) :
  forall (self e : TradeSimulationEngine R) (st st' : Run) (verbose : bool) (msg : string)
         (final : string),
    run_years self st years verbose = Py.Raised (e, st') msg ->
    NoDup years ->
    (forall y, In y years -> ~ In y (Py.keys (yearly_data self))) ->
    exists done rest,
      years = done ++ current_year e :: rest
      /\ Py.keys (yearly_data e) = Py.keys (yearly_data self) ++ done
      /\ files st' !! ("simulation_results_" +:+ final +:+ ".json")
         = files st !! ("simulation_results_" +:+ final +:+ ".json").
Proof.
  induction years as [| year rest IH];
    intros self e st st' verbose msg final Hrun Hnodup Hfresh; [discriminate |].
  cbn [run_years] in Hrun.
  destruct (simulate_year (set_current_year self year) (process st) year verbose)
    as [p yr | p m].
  - apply NoDup_cons in Hnodup as [Hnotin Hnodup].
    apply (IH _ _ _ _ _ _ final) in Hrun; [| exact Hnodup |].
    + destruct Hrun as (done & rest' & Hyears & Hkeys & Hfiles).
      cbn [store_year set_current_year yearly_data files] in *.
      exists (year :: done), rest'.
      split; [cbn; now rewrite Hyears |].
      split.
      * rewrite Hkeys, keys_setitem_new by (apply Hfresh; now left).
        now rewrite <- app_assoc.
      * rewrite Hfiles. destruct (_ && _); [| reflexivity].
        unfold save_results. cbn [default].
        apply lookup_insert_ne. apply intermediate_name_differs.
    + intros y Hy. cbn [store_year set_current_year yearly_data].
      rewrite keys_setitem_new by (apply Hfresh; now left).
      intros Hin. apply in_app_or in Hin as [Hin | Hin].
      * revert Hin. apply Hfresh. now right.
      * cbn in Hin. destruct Hin as [-> | []]. apply Hnotin.
        now apply list_elem_of_In.
  - injection Hrun as <- <- _. exists [], rest. cbn [current_year set_current_year app].
    rewrite app_nil_r. repeat split.
Qed.

(** A run that stops keeps the years before the one that failed and writes
    no final file: when [run_simulation_from_config] throws, the keys of
    [yearly_data] are the years from the start year up to but not including
    the current year, in order, and the file named after the scenario is as
    it was before the run. *)
Theorem stopped_run_keeps_earlier_years
    (cfg : dict) (first last : Z) (name : string) (now : Clock.datetime) (w : W)
    (fs : gmap string string) (e : TradeSimulationEngine R) (st : Run) (msg : string) :
  run_and_save cfg first last name now w fs = Py.Raised (e, st) msg ->
  exists later,
    seqZ first (last + 1 - first) = Py.keys (yearly_data e) ++ current_year e :: later
    /\ files st !! ("simulation_results_" +:+ name +:+ ".json")
       = fs !! ("simulation_results_" +:+ name +:+ ".json").
Proof.
  unfold run_and_save, construct.
  destruct (initialize_models cfg _) as [[w2 exports] imports].
  unfold run_simulation, years_of. cbn [start_year end_year].
  match goal with
  | |- context [run_years ?s ?t ?ys true] => destruct (run_years s t ys true)
                                               as [[e1 st1] [] | [e1 st1] m] eqn:Erun
  end; [discriminate |].
  intros Hret. injection Hret as <- <- <-.
  apply (run_years_stopped _ _ _ _ _ _ _ name) in Erun;
    [| apply NoDup_seqZ | intros y _ []].
  destruct Erun as (done & later & Hyears & Hkeys & Hfiles).
  cbn [yearly_data app files] in Hkeys, Hfiles.
  exists later. rewrite Hkeys. split; [exact Hyears | exact Hfiles].
Qed.

End EngineYears.
Section SmallEngineYears.

Import Json Engine.

Lemma aggregate_metrics_consistent_witness :
  exists p' yr,
    simulate_year (H := EngineScenario.models)
      (snd (construct (H := EngineScenario.models) [] 2025 2027 "baseline"
              EngineScenario.first_run 0%nat))
      {| world := 0%nat; calls := [] |} 2025 true = Py.Returned p' yr
    /\ trade_balance (aggregate_metrics yr)
       = total_exports (export yr) - total_imports (import yr).
Proof.
  assert (Hr : { x : Process nat dict * YearResults dict |
                 simulate_year (H := EngineScenario.models)
                   (snd (construct (H := EngineScenario.models) [] 2025 2027 "baseline"
                           EngineScenario.first_run 0%nat))
                   {| world := 0%nat; calls := [] |} 2025 true
                 = Py.Returned (fst x) (snd x) })
    by (eexists (_, _); vm_compute; reflexivity).
  destruct Hr as [[p' yr] Hr]. cbn [fst snd] in Hr.
  exists p', yr. split; [exact Hr |].
  destruct (aggregate_metrics_consistent (H := EngineScenario.models) _ _ _ _ _ _ Hr)
    as (gdp & _ & _ & Hbalance & _).
  exact Hbalance.
Defined.

Lemma year_fails_only_on_gdp_witness :
  NoDup (export_models ZeroGdpScenario.engine)
  /\ NoDup (import_models ZeroGdpScenario.engine)
  /\ exists p' msg r,
       simulate_year (H := ZeroGdpScenario.models) ZeroGdpScenario.engine
         {| world := 0%nat; calls := [] |} 2025 true = Py.Raised p' msg
       /\ In (ModelKey "investment", Obj r) (calls p').
Proof.
  assert (Hx : NoDup (export_models ZeroGdpScenario.engine))
    by (cbn; repeat (apply NoDup_cons_2 || apply NoDup_nil_2);
        rewrite list_elem_of_In; cbn; intuition discriminate).
  assert (Hi : NoDup (import_models ZeroGdpScenario.engine))
    by (cbn; repeat (apply NoDup_cons_2 || apply NoDup_nil_2);
        rewrite list_elem_of_In; cbn; intuition discriminate).
  split; [exact Hx | split; [exact Hi |]].
  assert (Hr : { x : Process nat dict * string |
                 simulate_year (H := ZeroGdpScenario.models) ZeroGdpScenario.engine
                   {| world := 0%nat; calls := [] |} 2025 true
                 = Py.Raised (fst x) (snd x) })
    by (eexists (_, _); vm_compute; reflexivity).
  destruct Hr as [[p' msg] Hr]. cbn [fst snd] in Hr.
  destruct (year_fails_only_on_gdp (H := ZeroGdpScenario.models) _ _ _ _ _ _ Hx Hi Hr)
    as (r & Hin & _).
  exists p', msg, r. split; [exact Hr | exact Hin].
Defined.

Lemma completed_run_holds_every_year_witness :
  exists e st,
    run_and_save (H := EngineScenario.models) [] 2025 2027 "baseline"
      EngineScenario.first_run 0%nat ∅ = Py.Returned (e, st) tt
    /\ Py.keys (yearly_data e) = [2025; 2026; 2027]%Z.
Proof.
  assert (Hr : { x : TradeSimulationEngine dict * Run |
                 run_and_save (H := EngineScenario.models) [] 2025 2027 "baseline"
                   EngineScenario.first_run 0%nat ∅ = Py.Returned x tt })
    by (eexists; vm_compute; reflexivity).
  destruct Hr as [[e st] Hr]. exists e, st. split; [exact Hr |].
  exact (proj1 (completed_run_holds_every_year (H := EngineScenario.models)
                  _ _ _ _ _ _ _ _ _ Hr)).
Defined.

Lemma summary_dataframe_raises_witness :
  exists e st,
    run_and_save (H := EngineScenario.models) [] 2025 2027 "baseline"
      EngineScenario.first_run 0%nat ∅ = Py.Returned (e, st) tt
    /\ yearly_data e <> []
    /\ export_models e <> []
    /\ (generate_summary_dataframe (H := EngineScenario.models) e (world (process st))
        = inl (KeyError "sector_exports")
        \/ generate_summary_dataframe (H := EngineScenario.models) e (world (process st))
           = inl (KeyError "gdp")).
Proof.
  assert (Hr : { x : TradeSimulationEngine dict * Run |
                 run_and_save (H := EngineScenario.models) [] 2025 2027 "baseline"
                   EngineScenario.first_run 0%nat ∅ = Py.Returned x tt
                 /\ yearly_data (fst x) <> [] /\ export_models (fst x) <> [] }).
  { eexists. split; [vm_compute; reflexivity |]. split; cbn; discriminate. }
  destruct Hr as [[e st] (Hr & Hyears & Hsectors)]. cbn [fst] in Hyears, Hsectors.
  exists e, st. split; [exact Hr |]. split; [exact Hyears |]. split; [exact Hsectors |].
  exact (summary_dataframe_raises (H := EngineScenario.models) e (world (process st))
           Hyears Hsectors).
Defined.

(** In the small engine, whose investment result always holds a GDP, the
    summary table fails on the sector columns. *)
Example small_engine_summary_fails_on_sector_exports :
  match EngineScenario.baseline EngineScenario.first_run with
  | Py.Returned (e, st) _ =>
      generate_summary_dataframe e (world (process st)) = inl (KeyError "sector_exports")
  | Py.Raised _ _ => False
  end.
Proof. vm_compute. reflexivity. Qed.

Lemma stopped_run_keeps_earlier_years_witness :
  exists e st msg later,
    run_and_save (H := ZeroGdpScenario.models) [] 2025 2027 "baseline"
      EngineScenario.first_run 0%nat ∅ = Py.Raised (e, st) msg
    /\ seqZ 2025 (2027 + 1 - 2025) = Py.keys (yearly_data e) ++ current_year e :: later.
Proof.
  assert (Hr : { x : TradeSimulationEngine dict * Run * string |
                 run_and_save (H := ZeroGdpScenario.models) [] 2025 2027 "baseline"
                   EngineScenario.first_run 0%nat ∅ = Py.Raised (fst x) (snd x) })
    by (eexists (_, _); vm_compute; reflexivity).
  destruct Hr as [[[e st] msg] Hr]. cbn [fst snd] in Hr.
  destruct (stopped_run_keeps_earlier_years (H := ZeroGdpScenario.models)
              _ _ _ _ _ _ _ _ _ _ Hr) as (later & Hyears & _).
  exists e, st, msg, later. split; [exact Hr | exact Hyears].
Defined.

End SmallEngineYears.
